(** * HSDatalog_v2: stateful batch extraction and decoding engine

    A shallow embedding of [HSDatalog_v2.get_data_and_timestamps_batch] and
    of [HSDatalog_v2.__process_datalog] (file
    [stdatalog_core/HSD/HSDatalog_v2.py]), followed by the properties of the
    engine that its specification states.

    Conventions of the embedding.
    - Python integers are [Z]; sizes and offsets stay far below 2^53, so the
      float round trips of [math.floor (a / b)], [math.ceil (a / b)] and
      [int (a / b)] on integers are written as the exact integer operations.
    - Python floats and numpy [float64] are Rocq's primitive binary64 floats.
      JSON numbers of the descriptor and the requested times are floats.
    - A [bytes] object or a [uint8] array is a [list Z] of values in 0..255.
    - The component status dictionary is split into the fields the code only
      reads ([descriptor]) and the fields it writes ([cursor]); a key that can
      be absent is an [option].
    - A Python exception is a value of [exn]; code that can raise runs in the
      state-and-exception monad [M]. *)

From Stdlib Require Import ZArith List String Ascii Bool Lia Sorted.
From Stdlib Require Import PrimFloat FloatOps SpecFloat FloatAxioms.
Import ListNotations.
Open Scope string_scope.
Open Scope list_scope.
Open Scope Z_scope.

Set Implicit Arguments.

(** ** Python and numpy primitives *)

Inductive exn : Type :=
| DataCorruptedException
| MissingFileForSensorError
| NoDataAtIndexError
| RuntimeError            (* a bare [raise] outside of an [except] block *)
| KeyError
| TypeError
| ValueError
| OverflowError
| ZeroDivisionError
| IndexError
| UnboundLocalError
| OSError
| StructError
| UninitialisedRead       (* not an exception: bytes of [np.empty] would be returned *)
| NonTermination.         (* not an exception: the loop of the source does not end *)

Inductive result (A : Type) : Type :=
| Ok (a : A)
| Raise (e : exn).
Arguments Ok {A} a.
Arguments Raise {A} e.

Definition len {A} (l : list A) : Z := Z.of_nat (List.length l).

(** Python slicing [l[lo:hi]] with integer bounds (negative bounds count
    from the end, out-of-range bounds are clipped). *)
Definition norm_index (n i : Z) : Z :=
  if i <? 0 then Z.max 0 (n + i) else Z.min i n.

Definition py_slice {A} (l : list A) (lo hi : Z) : list A :=
  let a := norm_index (len l) lo in
  let b := norm_index (len l) hi in
  firstn (Z.to_nat (b - a)) (skipn (Z.to_nat a) l).

Definition slice_to {A} (l : list A) (hi : Z) : list A := py_slice l 0 hi.
Definition slice_from {A} (l : list A) (lo : Z) : list A := py_slice l lo (len l).

(** [a // b], [int (a / b)] and [math.ceil (a / b)] on integers. *)
Definition floordiv (a b : Z) : result Z :=
  if b =? 0 then Raise ZeroDivisionError else Ok (a / b).
Definition truncdiv (a b : Z) : result Z :=
  if b =? 0 then Raise ZeroDivisionError else Ok (Z.quot a b).
Definition ceildiv (a b : Z) : result Z :=
  if b =? 0 then Raise ZeroDivisionError else Ok (- ((- a) / b)).

(** *** Floats *)

Definition float_of_Z (z : Z) : float :=
  SF2Prim (binary_normalize prec emax z 0 false).

(** [math.floor], [int] and [math.ceil] of a float: [None] on a NaN or an
    infinity, where Python raises. *)
Definition float_floor (f : float) : option Z :=
  match Prim2SF f with
  | S754_zero _ => Some 0
  | S754_finite s m e =>
      if 0 <=? e then Some ((if s then -1 else 1) * (Zpos m * 2 ^ e))
      else
        let q := Zpos m / 2 ^ (- e) in
        let exact := Zpos m mod 2 ^ (- e) =? 0 in
        Some (if s then (if exact then - q else - q - 1) else q)
  | _ => None
  end.

Definition float_trunc (f : float) : option Z :=
  match Prim2SF f with
  | S754_zero _ => Some 0
  | S754_finite s m e =>
      let q := if 0 <=? e then Zpos m * 2 ^ e else Zpos m / 2 ^ (- e) in
      Some (if s then - q else q)
  | _ => None
  end.

Definition float_ceil (f : float) : option Z :=
  match float_floor (- f)%float with
  | Some z => Some (- z)
  | None => None
  end.

Definition py_floor (f : float) : result Z :=
  match float_floor f with
  | Some z => Ok z
  | None => if is_nan f then Raise ValueError else Raise OverflowError
  end.

Definition py_int (f : float) : result Z :=
  match float_trunc f with
  | Some z => Ok z
  | None => if is_nan f then Raise ValueError else Raise OverflowError
  end.

(** Python's [a / b] on floats raises on a zero divisor. *)
Definition py_div (a b : float) : result float :=
  if (b =? 0)%float then Raise ZeroDivisionError else Ok (a / b)%float.

Definition fgt (a b : float) : bool := (b <? a)%float.
Definition fge (a b : float) : bool := (b <=? a)%float.
Definition fne (a b : float) : bool := negb (a =? b)%float.

(** *** Little-endian decoding *)

Fixpoint le_unsigned (bs : list Z) : Z :=
  match bs with
  | [] => 0
  | b :: bs' => b + 256 * le_unsigned bs'
  end.

Definition le_signed (bs : list Z) : Z :=
  let w := 8 * len bs in
  let u := le_unsigned bs in
  if 2 ^ (w - 1) <=? u then u - 2 ^ w else u.

(** The value of an IEEE 754 bit pattern with [ebits] exponent bits and
    [mbits] fraction bits; every binary32 value is a binary64 value. *)
Definition float_of_bits (ebits mbits : Z) (bits : Z) : float :=
  let s := Z.odd (bits / 2 ^ (ebits + mbits)) in
  let e := (bits / 2 ^ mbits) mod 2 ^ ebits in
  let m := bits mod 2 ^ mbits in
  let bias := 2 ^ (ebits - 1) - 1 in
  SF2Prim
    (if e =? 0 then
       match m with
       | Zpos p => S754_finite s p (1 - bias - mbits)
       | _ => S754_zero s
       end
     else if e =? 2 ^ ebits - 1 then
       (if m =? 0 then S754_infinity s else S754_nan)
     else
       match m + 2 ^ mbits with
       | Zpos p => S754_finite s p (e - bias - mbits)
       | _ => S754_zero s
       end).

Definition double_of_bytes (bs : list Z) : float := float_of_bits 11 52 (le_unsigned bs).
Definition single_of_bytes (bs : list Z) : float := float_of_bits 8 23 (le_unsigned bs).

(** [struct.unpack('<I', b)[0]] and [struct.unpack('d', b)[0]]. *)
Definition unpack_uint32 (bs : list Z) : result Z :=
  if len bs =? 4 then Ok (le_unsigned bs) else Raise StructError.
Definition unpack_double (bs : list Z) : result float :=
  if len bs =? 8 then Ok (double_of_bytes bs) else Raise StructError.

(** Rounding of a binary64 value to the nearest binary32 value. *)
Definition round_single (f : float) : float :=
  match Prim2SF f with
  | S754_finite s m e => SF2Prim (binary_round 24 128 s m e)
  | _ => f
  end.

(** *** Strings *)

Fixpoint prefixb (p s : string) : bool :=
  match p, s with
  | EmptyString, _ => true
  | String a p', String b s' => Ascii.eqb a b && prefixb p' s'
  | String _ _, EmptyString => false
  end.

(** [sub in s]. *)
Fixpoint contains (sub s : string) : bool :=
  prefixb sub s ||
  match s with
  | EmptyString => false
  | String _ s' => contains sub s'
  end.

(** *** numpy arrays *)

Inductive np_dtype : Type :=
| np_int8 | np_uint8 | np_int16 | np_uint16 | np_int32 | np_uint32
| np_float32 | np_float64.

Definition itemsize (d : np_dtype) : Z :=
  match d with
  | np_int8 | np_uint8 => 1
  | np_int16 | np_uint16 => 2
  | np_int32 | np_uint32 | np_float32 => 4
  | np_float64 => 8
  end.

Definition is_floating (d : np_dtype) : bool :=
  match d with
  | np_float32 | np_float64 => true
  | _ => false
  end.

(** An array element: an integer of an integer dtype, or a float (a
    [float32] element is a binary64 float that is a binary32 value). *)
Inductive scalar : Type :=
| SInt (z : Z)
| SFlt (f : float).

Definition zero_of (d : np_dtype) : scalar :=
  if is_floating d then SFlt 0%float else SInt 0.

Definition decode_scalar (d : np_dtype) (bs : list Z) : scalar :=
  match d with
  | np_int8 | np_int16 | np_int32 => SInt (le_signed bs)
  | np_uint8 | np_uint16 | np_uint32 => SInt (le_unsigned bs)
  | np_float32 => SFlt (single_of_bytes bs)
  | np_float64 => SFlt (double_of_bytes bs)
  end.

Fixpoint chunks_fuel {A} (fuel : nat) (k : nat) (l : list A) : list (list A) :=
  match fuel, l with
  | O, _ | _, [] => []
  | S fuel', _ => firstn k l :: chunks_fuel fuel' k (skipn k l)
  end.

(** The consecutive blocks of [k] elements of [l]. *)
Definition chunks {A} (k : Z) (l : list A) : list (list A) :=
  chunks_fuel (List.length l) (Z.to_nat k) l.

(** [np.frombuffer(bs, dtype=d)] on a bytes-like object. *)
Definition frombuffer (d : np_dtype) (bs : list Z) : result (list scalar) :=
  if len bs mod itemsize d =? 0
  then Ok (map (decode_scalar d) (chunks (itemsize d) bs))
  else Raise ValueError.

Definition wrap_signed (bits z : Z) : Z :=
  (z + 2 ^ (bits - 1)) mod 2 ^ bits - 2 ^ (bits - 1).

Definition wrap_int (d : np_dtype) (z : Z) : Z :=
  match d with
  | np_int8 => wrap_signed 8 z
  | np_int16 => wrap_signed 16 z
  | np_int32 => wrap_signed 32 z
  | np_uint8 => z mod 2 ^ 8
  | np_uint16 => z mod 2 ^ 16
  | np_uint32 => z mod 2 ^ 32
  | _ => z
  end.

Definition scalar_to_float (v : scalar) : float :=
  match v with
  | SInt z => float_of_Z z
  | SFlt f => f
  end.

(** The C cast of numpy's unsafe casting: a float is truncated toward zero
    and wrapped; a NaN or an infinity, whose conversion C leaves undefined,
    becomes 0. *)
Definition scalar_to_int (v : scalar) : Z :=
  match v with
  | SInt z => z
  | SFlt f => match float_trunc f with Some z => z | None => 0 end
  end.

Definition cast_scalar (d : np_dtype) (v : scalar) : scalar :=
  match d with
  | np_float32 => SFlt (round_single (scalar_to_float v))
  | np_float64 => SFlt (scalar_to_float v)
  | _ => SInt (wrap_int d (scalar_to_int v))
  end.

(** One element of [np.multiply(a, s, out=a, casting='unsafe')] and of
    [a * s] for a Python float [s]: a [float32] array is multiplied in
    binary32, any other array in binary64, and the product is cast back to
    the dtype of the array. *)
Definition mul_scalar (d : np_dtype) (s : float) (v : scalar) : scalar :=
  match d with
  | np_float32 => SFlt (round_single (scalar_to_float v * round_single s)%float)
  | _ => cast_scalar d (SFlt (scalar_to_float v * s)%float)
  end.

(** A two-dimensional array: its dtype and its rows. *)
Record ndarray : Type := mk_ndarray {
  nd_dtype : np_dtype;
  nd_rows : list (list scalar)
}.

(** [np.reshape(data, (-1, ncols))] of a flat array. *)
Definition reshape_rows (ncols : Z) (data : list scalar) : result (list (list scalar)) :=
  if ncols <=? 0 then Raise ValueError
  else if len data mod ncols =? 0 then Ok (chunks ncols data)
  else Raise ValueError.

Definition astype (d : np_dtype) (rows : list (list scalar)) : list (list scalar) :=
  map (map (cast_scalar d)) rows.

Definition multiply_all (d : np_dtype) (s : float) (rows : list (list scalar)) :
  list (list scalar) :=
  map (map (mul_scalar d s)) rows.

(** [a[mask]] for a boolean mask over the rows. *)
Fixpoint mask_rows {A} (mask : list bool) (rows : list A) : list A :=
  match mask, rows with
  | b :: mask', r :: rows' => if b then r :: mask_rows mask' rows' else mask_rows mask' rows'
  | _, _ => []
  end.

(** [np.linspace(start, stop, num, endpoint=False)]: [step = (stop - start) / num]
    and the points [i * step + start] (when the step underflows to zero,
    numpy computes [(i / num) * (stop - start) + start]). *)
Definition linspace_point (start stop : float) (num : Z) (i : Z) : float :=
  let delta := (stop - start)%float in
  let step := (delta / float_of_Z num)%float in
  if (step =? 0)%float
  then (float_of_Z i / float_of_Z num * delta + start)%float
  else (float_of_Z i * step + start)%float.

Definition range (n : Z) : list Z := map Z.of_nat (seq 0 (Z.to_nat n)).

Definition linspace (start stop : float) (num : Z) : list float :=
  map (linspace_point start stop num) (range num).

(** [np.arange(start, stop, step, dtype=np.float64)]: the length is
    [ceil ((stop - start) / step)], the first two elements are [start] and
    [start + step], and element [i] is [start + i * delta] for the [delta]
    between the first two. *)
Definition arange (start stop step : float) : result (list float) :=
  if (step =? 0)%float then Raise ZeroDivisionError
  else
    match float_ceil ((stop - start) / step)%float with
    | None => Raise ValueError
    | Some n =>
        let delta := ((start + step) - start)%float in
        Ok (map (fun i => if i =? 0 then start
                          else if i =? 1 then (start + step)%float
                          else (start + float_of_Z i * delta)%float)
                (range n))
    end.

(** ** The component status: descriptor and cursor *)

Inductive component_type : Type := SENSOR | ALGORITHM | ACTUATOR.

Inductive sensor_category : Type :=
| ISENSOR_CLASS_MEMS | ISENSOR_CLASS_AUDIO | ISENSOR_CLASS_RANGING
| ISENSOR_CLASS_LIGHT | ISENSOR_CLASS_CAMERA | ISENSOR_CLASS_PRESENCE
| ISENSOR_CLASS_POWERMETER.

Inductive algorithm_type : Type := IALGORITHM_TYPE_FFT | IALGORITHM_TYPE_OTHER.

(** The value under ["samples_per_ts"]: no key, an integer, or a
    dictionary with an optional ["val"]. *)
Inductive spts_field : Type :=
| SptsAbsent
| SptsInt (n : Z)
| SptsDict (val : option Z).

(** The keys of the status that the engine only reads.  [telemetries] lists,
    in dictionary order, the motor-control telemetries of an actuator with
    their enable flag; [mc_sensitivity] is the pair (current, voltage) under
    ["sensitivity"] of the fast telemetries. *)
Record descriptor : Type := mk_descriptor {
  c_type : option component_type;
  s_category : option sensor_category;
  algo_type : option algorithm_type;
  dim : option Z;
  fft_length : option Z;
  fft_sample_freq : option float;
  data_type : string;
  samples_per_ts : spts_field;
  odr : option float;
  measodr : option float;
  sensitivity : option float;
  intermeasurement_time : option float;
  exposure_time : option float;
  adc_conversion_time : option float;
  sd_dps : option Z;
  usb_dps : option Z;
  ble_dps : option Z;
  serial_dps : option Z;
  telemetries : list (string * bool);
  mc_sensitivity : option (float * float)
}.

(** The keys that the engine writes, and [is_first_chunk], which only the
    caller writes. *)
Record cursor : Type := mk_cursor {
  last_index : option Z;
  missing_bytes : option Z;
  saved_bytes : option Z;
  prev_data_byte_counter : option Z;
  is_first_chunk : option bool;
  is_same_dps : option bool;
  ioffset : option float
}.

Definition fresh_cursor : cursor :=
  mk_cursor None None None None None None None.

Definition set_last_index (v : Z) (c : cursor) : cursor :=
  mk_cursor (Some v) (missing_bytes c) (saved_bytes c) (prev_data_byte_counter c)
            (is_first_chunk c) (is_same_dps c) (ioffset c).
Definition set_missing_bytes (v : Z) (c : cursor) : cursor :=
  mk_cursor (last_index c) (Some v) (saved_bytes c) (prev_data_byte_counter c)
            (is_first_chunk c) (is_same_dps c) (ioffset c).
Definition set_saved_bytes (v : Z) (c : cursor) : cursor :=
  mk_cursor (last_index c) (missing_bytes c) (Some v) (prev_data_byte_counter c)
            (is_first_chunk c) (is_same_dps c) (ioffset c).
Definition set_prev_data_byte_counter (v : option Z) (c : cursor) : cursor :=
  mk_cursor (last_index c) (missing_bytes c) (saved_bytes c) v
            (is_first_chunk c) (is_same_dps c) (ioffset c).
Definition set_is_same_dps (v : bool) (c : cursor) : cursor :=
  mk_cursor (last_index c) (missing_bytes c) (saved_bytes c) (prev_data_byte_counter c)
            (is_first_chunk c) (Some v) (ioffset c).
Definition set_ioffset (v : float) (c : cursor) : cursor :=
  mk_cursor (last_index c) (missing_bytes c) (saved_bytes c) (prev_data_byte_counter c)
            (is_first_chunk c) (is_same_dps c) (Some v).

(** [d.get(key, default)]. *)
Definition get {A} (o : option A) (default : A) : A :=
  match o with
  | Some a => a
  | None => default
  end.

(** [d[key]] on a key that may be absent, and the use of a value that may
    be [None] in arithmetic. *)
Definition item {A} (o : option A) : result A :=
  match o with
  | Some a => Ok a
  | None => Raise KeyError
  end.
Definition number {A} (o : option A) : result A :=
  match o with
  | Some a => Ok a
  | None => Raise TypeError
  end.

Inductive warning : Type :=
| CorruptedDataAt (sensor_name : string) (t : float)
| CounterMismatchAtStart (counter expected : Z)
| SkippingFirstPacket.

(** ** The state-and-exception monad

    The state is the cursor of the component and the warnings logged so
    far; an exception leaves the state as it was when it was raised. *)

Record state : Type := mk_state {
  cur : cursor;
  warnings : list warning
}.

Definition M (A : Type) : Type := state -> result A * state.

Definition ret {A} (a : A) : M A := fun s => (Ok a, s).
Definition raise {A} (e : exn) : M A := fun s => (Raise e, s).
Definition bind {A B} (m : M A) (k : A -> M B) : M B :=
  fun s =>
    match m s with
    | (Ok a, s') => k a s'
    | (Raise e, s') => (Raise e, s')
    end.
Definition lift {A} (r : result A) : M A := fun s => (r, s).
Definition read_cursor : M cursor := fun s => (Ok (cur s), s).
Definition update_cursor (f : cursor -> cursor) : M unit :=
  fun s => (Ok tt, mk_state (f (cur s)) (warnings s)).
Definition log_warning (w : warning) : M unit :=
  fun s => (Ok tt, mk_state (cur s) (warnings s ++ [w])).

Declare Scope monad_scope.
Delimit Scope monad_scope with monad.
Notation "x <- m ;; k" := (bind m (fun x => k))
  (at level 61, m at next level, right associativity) : monad_scope.
Notation "' p <- m ;; k" := (bind m (fun x => match x with p => k end))
  (at level 61, p pattern, m at next level, right associativity) : monad_scope.
Notation "m ;;; k" := (bind m (fun _ => k))
  (at level 61, right associativity) : monad_scope.
Open Scope monad_scope.

(** Binding inside [result]. *)
Definition rbind {A B} (r : result A) (k : A -> result B) : result B :=
  match r with
  | Ok a => k a
  | Raise e => Raise e
  end.
Notation "x <~ r ;; k" := (rbind r (fun x => k))
  (at level 61, r at next level, right associativity) : monad_scope.

(** ** The Frame Decoder and the Unit Scaler: [__process_datalog] *)

Definition MC_SLOW_TELEMETRY_COMP_NAME : string := "slow_mc_telemetries".
Definition MC_FAST_TELEMETRY_COMP_NAME : string := "fast_mc_telemetries".

(** The raw data handed to the decoder: the empty Python list of an
    interrupted extraction, or an array of bytes. *)
Inductive buffer : Type :=
| PyList
| Bytes (bs : list Z).

Definition buffer_bytes (b : buffer) : list Z :=
  match b with
  | PyList => []
  | Bytes bs => bs
  end.

(** A local variable that some branches leave unbound. *)
Definition bound {A} (o : option A) : result A :=
  match o with
  | Some a => Ok a
  | None => Raise UnboundLocalError
  end.

(** [l[i]] and [l[-1]]. *)
Definition index {A} (l : list A) (i : Z) : result A :=
  if (i <? 0) || (len l <=? i) then Raise IndexError
  else match nth_error l (Z.to_nat i) with
       | Some a => Ok a
       | None => Raise IndexError
       end.

Definition last_item {A} (l : list A) : result A :=
  match rev l with
  | a :: _ => Ok a
  | [] => Raise IndexError
  end.

(** [a[lo:lo+n] = src] on an array that holds the range: [src] has [n]
    elements, or a single one that is broadcast. *)
Definition assign_range {A} (a : list A) (lo n : Z) (src : list A) : result (list A) :=
  if len src =? n then
    Ok (firstn (Z.to_nat lo) a ++ src ++ skipn (Z.to_nat (lo + n)) a)
  else
    match src with
    | [x] => Ok (firstn (Z.to_nat lo) a ++ repeat x (Z.to_nat n) ++ skipn (Z.to_nat (lo + n)) a)
    | _ => Raise ValueError
    end.

(** [l[i] = x] on an index in range. *)
Definition set_item {A} (l : list A) (i : Z) (x : A) : list A :=
  firstn (Z.to_nat i) l ++ [x] ++ skipn (Z.to_nat (i + 1)) l.

Definition is_int24 (data_type_string : string) : bool :=
  String.eqb data_type_string "int24" || String.eqb data_type_string "int24_t".

Definition name_contains_mlc_ispu (sensor_name : string) : bool :=
  contains "_mlc" sensor_name || contains "_ispu" sensor_name.

(** The literals [0.1], [0.33], [1000] and the like of the source. *)
Definition f0_1 : float := 0x1.999999999999ap-4%float.
Definition f0_33 : float := 0x1.51eb851eb851fp-2%float.
Definition f10 : float := 10%float.
Definition f1000 : float := 1000%float.
Definition f1000000 : float := 1000000%float.
Definition f6 : float := 6%float.
Definition sentinel : float := (-1)%float.
Definition no_end_time : float := (-1)%float.

(** [__get_active_mc_telemetries_names]. *)
Definition get_active_mc_telemetries_names (ss_stat : descriptor) : list string :=
  map fst (filter snd (telemetries ss_stat)).

Definition is_mc_telemetry (sensor_name : string) : bool :=
  String.eqb sensor_name MC_SLOW_TELEMETRY_COMP_NAME ||
  String.eqb sensor_name MC_FAST_TELEMETRY_COMP_NAME.

Section Engine.

(** [TypeConversion.check_type_length], [TypeConversion.get_np_dtype] and
    [TypeConversion.int24_buffer_to_int32_buffer], whose module is not part
    of the sources at hand, and the debug flag [__checkTimestamps] of the
    engine. *)
Variable check_type_length : string -> Z.
Variable get_np_dtype : string -> np_dtype.
Variable int24_buffer_to_int32_buffer : list Z -> list Z.
Variable checkTimestamps : bool.

(** Lines 772-808: the decoding dtype and the samples per timestamp. *)
Definition decode_type_string (sensor_name : string) (ss_stat : descriptor) : string :=
  if contains "_ispu" sensor_name then "int8" else data_type ss_stat.

Definition spts_value (ss_stat : descriptor) : Z :=
  match samples_per_ts ss_stat with
  | SptsInt n => n
  | SptsDict v => get v 0
  | SptsAbsent => 0
  end.

Definition resolve_samples_per_ts (sensor_name : string) (ss_stat : descriptor)
           (dataframe_size data_type_byte_num data1D_per_frame : Z) : result Z :=
  let samples_per_ts0 := spts_value ss_stat in
  samples_per_ts1 <~
    match c_type ss_stat with
    | Some SENSOR =>
        if samples_per_ts0 =? 0
        then truncdiv data1D_per_frame (get (dim ss_stat) 1)
        else Ok samples_per_ts0
    | _ => Ok samples_per_ts0
    end ;;
  match c_type ss_stat with
  | Some ALGORITHM =>
      match algo_type ss_stat with
      | Some IALGORITHM_TYPE_FFT => Ok 1
      | _ => Ok samples_per_ts1
      end
  | Some ACTUATOR =>
      match samples_per_ts ss_stat with
      | SptsAbsent =>
          if is_mc_telemetry sensor_name then
            q <~ floordiv dataframe_size data_type_byte_num ;;
            floordiv q (len (get_active_mc_telemetries_names ss_stat))
          else Raise UnboundLocalError
      | _ => Ok samples_per_ts1
      end
  | _ => Ok samples_per_ts1
  end.

(** Lines 609-640: [check_timestamps] and [frame_period]; a component of
    no known type leaves both unbound. *)
Definition check_timestamps_of (sensor_name : string) (ss_stat : descriptor) : option bool :=
  match c_type ss_stat with
  | Some SENSOR =>
      Some (if checkTimestamps then negb (name_contains_mlc_ispu sensor_name) else false)
  | Some _ => Some false
  | None => None
  end.

Definition frame_period_of (sensor_name : string) (ss_stat : descriptor)
           (spts_n : Z) : result (option float) :=
  let spts := float_of_Z spts_n in
  let mlc_ispu := name_contains_mlc_ispu sensor_name in
  match c_type ss_stat with
  | Some SENSOR =>
      match s_category ss_stat with
      | Some ISENSOR_CLASS_LIGHT =>
          imt <~ number (intermeasurement_time ss_stat) ;;
          et <~ number (exposure_time ss_stat) ;;
          odr_ <~ (if fgt imt (et / f1000 + f6)%float
                   then py_div 1%float (imt / f1000)%float
                   else py_div 1%float ((et / f1000 + f6) / f1000)%float) ;;
          if mlc_ispu then Ok (Some 0%float)
          else (fp <~ py_div spts odr_ ;; Ok (Some fp))
      | Some ISENSOR_CLASS_POWERMETER =>
          if mlc_ispu then Ok (Some 0%float)
          else
            act <~ number (adc_conversion_time ss_stat) ;;
            r <~ py_div 1%float (act / f1000000)%float ;;
            fp <~ py_div spts r ;;
            Ok (Some fp)
      | _ =>
          let measodr_ :=
            match measodr ss_stat with
            | None => odr ss_stat
            | Some m => if (m =? 0)%float then odr ss_stat else Some m
            end in
          if mlc_ispu then Ok (Some 0%float)
          else
            m <~ number measodr_ ;;
            fp <~ py_div spts m ;;
            Ok (Some fp)
      end
  | Some ALGORITHM =>
      match algo_type ss_stat with
      | Some IALGORITHM_TYPE_FFT =>
          f <~ number (fft_sample_freq ss_stat) ;;
          fp <~ py_div spts f ;;
          Ok (Some fp)
      | _ => Ok (Some 0%float)
      end
  | Some ACTUATOR =>
      match samples_per_ts ss_stat with
      | SptsAbsent => Ok (Some 0%float)
      | _ =>
          o <~ number (odr ss_stat) ;;
          fp <~ py_div spts o ;;
          Ok (Some fp)
      end
  | None => Ok None
  end.

(** Lines 653-677: the frames of a buffer with embedded timestamps. *)
Record frames : Type := mk_frames {
  fr_timestamps : list float;
  fr_data : list scalar;
  fr_warnings : list warning
}.

Definition frombuffer_double (bs : list Z) : result (list float) :=
  if len bs mod 8 =? 0 then Ok (map double_of_bytes (chunks 8 bs)) else Raise ValueError.

(** The test of line 674 on a frame timestamp and the one before it. *)
Definition inconsistent (frame_period prev_t cur_t : float) : bool :=
  let delta_ts := abs (cur_t - prev_t) in
  (delta_ts <? f0_1 * frame_period)%float || fgt delta_ts (f10 * frame_period)
  || is_nan cur_t || is_nan prev_t.

Section Frames.
Variables (sensor_name data_type_string : string).
Variables (rnd_data_buffer : list Z).
Variables (dataframe_size frame_size data1D_per_frame : Z).
Variables (check_timestamps : option bool) (frame_period : option float).

Definition frame_step (ii : Z) (acc : frames) : result frames :=
  let data_type := get_np_dtype data_type_string in
  let start_frame := ii * frame_size in
  let segment_data := py_slice rnd_data_buffer start_frame (start_frame + dataframe_size) in
  let segment_data :=
    if is_int24 data_type_string
    then int24_buffer_to_int32_buffer segment_data else segment_data in
  let segment_ts :=
    py_slice rnd_data_buffer (start_frame + dataframe_size) (start_frame + frame_size) in
  decoded_ts <~ frombuffer_double segment_ts ;;
  t <~ index decoded_ts 0 ;;
  let timestamps := fr_timestamps acc ++ [t] in
  values <~ frombuffer data_type segment_data ;;
  data <~ assign_range (fr_data acc) (ii * data1D_per_frame) data1D_per_frame values ;;
  check <~ bound check_timestamps ;;
  if check && (0 <? ii) then
    cur_t <~ index timestamps ii ;;
    prev_t <~ index timestamps (ii - 1) ;;
    fp <~ bound frame_period ;;
    if inconsistent fp prev_t cur_t then
      data' <~ assign_range data (ii * data1D_per_frame) data1D_per_frame
                            [zero_of data_type] ;;
      let timestamps' := set_item timestamps ii (prev_t + fp)%float in
      new_t <~ index timestamps' ii ;;
      Ok (mk_frames timestamps' data'
                    (fr_warnings acc ++ [CorruptedDataAt sensor_name new_t]))
    else Ok (mk_frames timestamps data (fr_warnings acc))
  else Ok (mk_frames timestamps data (fr_warnings acc)).

Fixpoint frames_loop (iis : list Z) (acc : frames) : result frames :=
  match iis with
  | [] => Ok acc
  | ii :: rest => acc' <~ frame_step ii acc ;; frames_loop rest acc'
  end.
End Frames.

(** Lines 699-725: the Unit Scaler.  [None] stands for a branch that
    leaves [s_data] unbound. *)
Fixpoint scale_row (names : list string) (scaler_current scaler_voltage : float)
         (row : list scalar) : list scalar :=
  match names, row with
  | t :: names', v :: row' =>
      (if contains "i" t then mul_scalar np_float32 scaler_current v
       else if contains "v" t then mul_scalar np_float32 scaler_voltage v
       else v) :: scale_row names' scaler_current scaler_voltage row'
  | _, _ => row
  end.

Definition unit_scaler (sensor_name : string) (ss_stat : descriptor)
           (data_type : np_dtype) (data : list scalar) (raw_flag : bool) :
  result (option ndarray) :=
  match c_type ss_stat with
  | Some SENSOR =>
      let s_dim := get (dim ss_stat) 1 in
      let ispu := contains "_ispu" sensor_name in
      rows <~ reshape_rows (if ispu then 64 else s_dim) data ;;
      if raw_flag then Ok (Some (mk_ndarray data_type rows))
      else
        let target := if ispu then np_int8 else np_float32 in
        let sensitivity_ := get (sensitivity ss_stat) 1%float in
        Ok (Some (mk_ndarray target (multiply_all target sensitivity_ (astype target rows))))
  | Some ALGORITHM =>
      s_data <~
        match algo_type ss_stat with
        | Some IALGORITHM_TYPE_FFT =>
            n <~ item (fft_length ss_stat) ;;
            rows <~ reshape_rows n data ;;
            Ok (Some (mk_ndarray np_float32 (astype np_float32 rows)))
        | _ => Ok None
        end ;;
      if raw_flag then Ok s_data
      else
        let sensitivity_ := get (sensitivity ss_stat) 1%float in
        a <~ bound s_data ;;
        Ok (Some (mk_ndarray (nd_dtype a) (multiply_all (nd_dtype a) sensitivity_ (nd_rows a))))
  | Some ACTUATOR =>
      let active_fast_telemetries := get_active_mc_telemetries_names ss_stat in
      s_data <~
        (if is_mc_telemetry sensor_name then
           rows <~ reshape_rows (len active_fast_telemetries) data ;;
           Ok (Some (mk_ndarray np_float32 (astype np_float32 rows)))
         else Ok None) ;;
      if String.eqb sensor_name MC_FAST_TELEMETRY_COMP_NAME && negb raw_flag then
        sc <~ item (mc_sensitivity ss_stat) ;;
        a <~ bound s_data ;;
        Ok (Some (mk_ndarray (nd_dtype a)
                    (map (scale_row active_fast_telemetries (fst sc) (snd sc)) (nd_rows a))))
      else Ok s_data
  | None => Ok None
  end.

(** Lines 733-757: the timestamp of every sample of a buffer with more
    than one sample per timestamp. *)
Definition interpolate_step (frame_period : option float) (timestamps : list float)
           (spts : Z) (ii : Z) (samples_times : list float) : result (list float) :=
  t1 <~ index timestamps (ii + 1) ;;
  t0 <~ index timestamps ii ;;
  let delta_ts := abs (t1 - t0) in
  fp <~ bound frame_period ;;
  let points :=
    if fgt fp 0 && fgt delta_ts (fp + fp * f0_33)
    then linspace (t1 - fp) t1 spts
    else linspace t0 t1 spts in
  assign_range samples_times (ii * spts) spts points.

Fixpoint interpolate_loop (frame_period : option float) (timestamps : list float)
         (spts : Z) (iis : list Z) (samples_times : list float) : result (list float) :=
  match iis with
  | [] => Ok samples_times
  | ii :: rest =>
      st <~ interpolate_step frame_period timestamps spts ii samples_times ;;
      interpolate_loop frame_period timestamps spts rest st
  end.

Definition interpolate (frame_period : option float) (timestamps : list float)
           (spts frames_n : Z) : result (list float) :=
  interpolate_loop frame_period timestamps spts (range frames_n)
                   (repeat sentinel (Z.to_nat (frames_n * spts))).

(** What the decoder returns: the Python list [[]], or an array. *)
Inductive samples : Type :=
| EmptyList
| Array (a : ndarray).

(** Lines 733-769: the sample times, the new [ioffset], and the removal of
    the samples whose time is the sentinel. *)
Definition assign_sample_times (frame_period : option float) (spts num_frames : Z)
           (start_time prev_timestamp : option float) (timestamps : list float)
           (s_data : option ndarray) : M (samples * list float) :=
  cs <- read_cursor ;;
  samples_times <-
    (if 1 <? spts then
       let ioffset_ := get (ioffset cs) 0%float in
       let is_first_chunk_ := get (is_first_chunk cs) false in
       let start_not_zero :=
         match start_time with
         | Some s => fne s 0
         | None => true
         end in
       let timestamps' :=
         if start_not_zero && is_first_chunk_
         then match prev_timestamp with
              | Some p => p :: timestamps
              | None => ioffset_ :: timestamps
              end
         else ioffset_ :: timestamps in
       t_last <- lift (last_item timestamps') ;;
       update_cursor (set_ioffset t_last) ;;;
       lift (interpolate frame_period timestamps' spts num_frames)
     else
       (match rev timestamps with
        | t_last :: _ => update_cursor (set_ioffset t_last)
        | [] => ret tt
        end) ;;;
       ret timestamps) ;;
  let valid_indices := map (fun t => fne t sentinel) samples_times in
  a <- lift (bound s_data) ;;
  if len (nd_rows a) =? len valid_indices
  then ret (Array (mk_ndarray (nd_dtype a) (mask_rows valid_indices (nd_rows a))),
            mask_rows valid_indices samples_times)
  else raise IndexError.

(** Lines 600-810. *)
Definition process_datalog (sensor_name : string) (ss_stat : descriptor)
           (raw_data : buffer) (dataframe_size timestamp_size : Z) (raw_flag : bool)
           (start_time prev_timestamp : option float) : M (samples * list float) :=
  let frame_size := dataframe_size + timestamp_size in
  num_frames <- lift (floordiv (len (buffer_bytes raw_data)) frame_size) ;;
  let data_type_string := decode_type_string sensor_name ss_stat in
  let data_type_byte_num := check_type_length data_type_string in
  data1D_per_frame <- lift (truncdiv dataframe_size data_type_byte_num) ;;
  spts <- lift (resolve_samples_per_ts sensor_name ss_stat dataframe_size
                                       data_type_byte_num data1D_per_frame) ;;
  (* extract_data_and_timestamps(start_time) *)
  let check_timestamps := check_timestamps_of sensor_name ss_stat in
  frame_period <- lift (frame_period_of sensor_name ss_stat spts) ;;
  let rnd_data_buffer := slice_to (buffer_bytes raw_data) (frame_size * num_frames) in
  cs <- read_cursor ;;
  let timestamp_first :=
    match start_time with
    | Some s => if fne s 0 then Some s else Some (get (ioffset cs) 0%float)
    | None => None
    end in
  let data_type := get_np_dtype data_type_string in
  (if data1D_per_frame * num_frames <? 0 then raise ValueError else ret tt) ;;;
  '(timestamps, data, start_time') <-
    (if negb (timestamp_size =? 0) then
       fr <- lift (frames_loop sensor_name data_type_string rnd_data_buffer
                     dataframe_size frame_size data1D_per_frame
                     check_timestamps frame_period (range num_frames)
                     (mk_frames [] (repeat (zero_of data_type)
                                           (Z.to_nat (data1D_per_frame * num_frames))) [])) ;;
       fold_right (fun w k => log_warning w ;;; k) (ret tt) (fr_warnings fr) ;;;
       ret (fr_timestamps fr, fr_data fr, start_time)
     else
       let rnd := if is_int24 data_type_string
                  then int24_buffer_to_int32_buffer rnd_data_buffer
                  else rnd_data_buffer in
       (match raw_data with
        | PyList => raise TypeError
        | Bytes _ => ret tt
        end) ;;;
       data <- lift (frombuffer data_type rnd) ;;
       let is_first_chunk_ := get (is_first_chunk cs) false in
       fp <- lift (bound frame_period) ;;
       tf <- lift (number timestamp_first) ;;
       let span := (float_of_Z num_frames * fp)%float in
       let start := if is_first_chunk_ then tf else (tf + fp)%float in
       let stop := if is_first_chunk_ then (tf + span)%float else (tf + fp + span)%float in
       ts <- lift (arange start stop fp) ;;
       ret (slice_to ts num_frames, data, Some start)) ;;
  s_data <- lift (unit_scaler sensor_name ss_stat data_type data raw_flag) ;;
  if len data =? 0 then ret (EmptyList, [])
  else assign_sample_times frame_period spts num_frames start_time' prev_timestamp
                           timestamps s_data.

(** ** The Packet Stream Reader: [__extract_data] *)

Definition data_protocol_size : Z := 4.

(** [f.seek(i)] followed by [f.read(k)]. *)
Definition seek_read (file : list Z) (i k : Z) : result (list Z) :=
  if i <? 0 then Raise OSError
  else if k <? -1 then Raise ValueError
  else if k =? -1 then Ok (skipn (Z.to_nat i) file)
  else Ok (firstn (Z.to_nat k) (skipn (Z.to_nat i) file)).

(** The local variables of [__extract_data] that change along the loop.
    [byte_chest] holds the bytes written and not yet consumed, so that
    [byte_chest_index] is its length, and [chest_room] is the size of the
    array view that holds it; likewise [raw_data_array_index] is the length of
    [raw_data_array]. *)
Record locals : Type := mk_locals {
  l_last_index : Z;
  l_missing_bytes : Z;
  byte_chest : list Z;
  chest_room : Z;
  raw_data_array : list Z;
  l_end_time : float;
  end_time_flag : bool;
  skip_counter_check : bool;
  l_prev_timestamp : option float
}.

Definition byte_chest_index (l : locals) : Z := len (byte_chest l).
Definition raw_data_array_index (l : locals) : Z := len (raw_data_array l).

Definition with_position (li mb : Z) (l : locals) : locals :=
  mk_locals li mb (byte_chest l) (chest_room l) (raw_data_array l) (l_end_time l)
            (end_time_flag l) (skip_counter_check l) (l_prev_timestamp l).
Definition with_chest (chest : list Z) (room : Z) (l : locals) : locals :=
  mk_locals (l_last_index l) (l_missing_bytes l) chest room (raw_data_array l)
            (l_end_time l) (end_time_flag l) (skip_counter_check l) (l_prev_timestamp l).
Definition with_raw (raw : list Z) (l : locals) : locals :=
  mk_locals (l_last_index l) (l_missing_bytes l) (byte_chest l) (chest_room l) raw
            (l_end_time l) (end_time_flag l) (skip_counter_check l) (l_prev_timestamp l).
Definition with_end_time (t : float) (l : locals) : locals :=
  mk_locals (l_last_index l) (l_missing_bytes l) (byte_chest l) (chest_room l)
            (raw_data_array l) t (end_time_flag l) (skip_counter_check l)
            (l_prev_timestamp l).
Definition with_flag (l : locals) : locals :=
  mk_locals (l_last_index l) (l_missing_bytes l) (byte_chest l) (chest_room l)
            (raw_data_array l) (l_end_time l) true (skip_counter_check l)
            (l_prev_timestamp l).
Definition with_skip (l : locals) : locals :=
  mk_locals (l_last_index l) (l_missing_bytes l) (byte_chest l) (chest_room l)
            (raw_data_array l) (l_end_time l) (end_time_flag l) true
            (l_prev_timestamp l).
Definition with_prev (p : option float) (l : locals) : locals :=
  mk_locals (l_last_index l) (l_missing_bytes l) (byte_chest l) (chest_room l)
            (raw_data_array l) (l_end_time l) (end_time_flag l) (skip_counter_check l) p.

(** How one turn of a loop ends. *)
Inductive flow (A : Type) : Type :=
| Next (a : A)            (* falls through, or [continue] *)
| Break (a : A)           (* [break] *)
| Return.                 (* [return [], None] *)
Arguments Next {A} a.
Arguments Break {A} a.
Arguments Return {A}.

Section Extract.
Variable file : list Z.
Variables (nof_data_packet cmplt_pkt_size data_packet_size : Z).
Variables (dataframe_byte_size timestamp_byte_size : Z).
Variables (start_idx read_start_bytes read_end_bytes : Z).
Variables (last_timestamp odr_ : float) (s_samples_per_ts : Z).
Variable start_time : float.

Let file_size : Z := len file.

(** The size of the two arrays that [np.empty] allocates. *)
Definition estimated_size : Z :=
  (nof_data_packet + 1) * (cmplt_pkt_size - data_protocol_size).

(** Lines 1063-1072 and 1103-1112: the cursor when the target is met,
    [unused] bytes of the chest being left for the next call. *)
Definition save_position (n : Z) (l : locals) (unused saved : Z) : M unit :=
  cs <- read_cursor ;;
  bytes_processed <-
    (if get (is_same_dps cs) false
     then update_cursor (set_is_same_dps false) ;;; ret (l_last_index l)
     else ret (l_last_index l + (n + 1) * cmplt_pkt_size)) ;;
  update_cursor (set_missing_bytes unused) ;;;
  update_cursor (set_saved_bytes saved) ;;;
  update_cursor (set_last_index (bytes_processed - unused)).

(** Lines 1003-1030: the bytes of packet [n].  The result is the data
    bytes and the counter bytes. *)
Definition read_packet (saved_bytes_ : Z) (n : Z) (l : locals) :
  M (flow (locals * list Z * list Z)) :=
  let file_index := l_last_index l + n * cmplt_pkt_size in
  if negb (l_last_index l =? 0) then
    let missing := l_missing_bytes l in
    if negb (saved_bytes_ =? 0) && (saved_bytes_ <=? missing) then
      raw_data <- lift (seek_read file file_index missing) ;;
      update_cursor (set_is_same_dps true) ;;;
      if len raw_data <? missing then ret Return
      else
        update_cursor (set_missing_bytes 0) ;;;
        ret (Next (with_skip (with_position (l_last_index l + missing) 0 l),
                   slice_to raw_data missing, []))
    else
      raw_data <- lift (seek_read file file_index (missing + cmplt_pkt_size)) ;;
      update_cursor (set_is_same_dps false) ;;;
      if len raw_data <? missing + cmplt_pkt_size then ret Return
      else
        update_cursor (set_missing_bytes 0) ;;;
        ret (Next (with_position (l_last_index l + missing) 0 l,
                   slice_to raw_data missing
                     ++ slice_from raw_data (missing + data_protocol_size),
                   py_slice raw_data missing (missing + data_protocol_size)))
  else
    raw_data <- lift (seek_read file file_index cmplt_pkt_size) ;;
    if len raw_data + byte_chest_index l <? cmplt_pkt_size then ret Return
    else ret (Next (l, slice_from raw_data data_protocol_size,
                    slice_to raw_data data_protocol_size)).

(** Lines 1032-1049: the validation of the counter of packet [n].
    [Next] accepts the packet, [Break] stands for the [continue] that
    drops it. *)
Definition check_counter (n : Z) (counter_bytes : list Z) : M (flow unit) :=
  counter <- lift (unpack_uint32 counter_bytes) ;;
  cs <- read_cursor ;;
  match prev_data_byte_counter cs with
  | None =>
      update_cursor (set_prev_data_byte_counter (Some counter)) ;;;
      ret (Next tt)
  | Some data_byte_counter =>
      if negb (counter - data_byte_counter =? data_packet_size) then
        if get (is_first_chunk cs) true && (n =? 0) && (data_byte_counter =? 0) then
          log_warning (CounterMismatchAtStart counter
                         (data_byte_counter + data_packet_size)) ;;;
          log_warning SkippingFirstPacket ;;;
          ret (Break tt)
        else raise DataCorruptedException
      else
        update_cursor (set_prev_data_byte_counter (Some counter)) ;;;
        ret (Next tt)
  end.

(** Lines 1090-1098 and 1115-1124: the first frame after [start_time]
    of a first chunk.  [true] asks to leave the loops. *)
Definition note_first_frame (extracted_timestamp : float) (pop_counter : bool)
           (l : locals) : M (bool * locals) :=
  cs <- read_cursor ;;
  match l_prev_timestamp l with
  | None =>
      if get (is_first_chunk cs) false then
        if fgt extracted_timestamp start_time then
          if l_last_index l =? 0
          then ret (false, with_prev (Some (get (ioffset cs) 0%float)) l)
          else
            (if pop_counter
             then update_cursor (set_prev_data_byte_counter None)
             else ret tt) ;;;
            ret (true, with_flag (with_prev (Some extracted_timestamp) l))
        else ret (false, with_prev (Some extracted_timestamp) l)
      else ret (false, l)
  | Some _ => ret (false, l)
  end.

(** Lines 1077-1137: the frames that the chest holds.  The result
    carries the last timestamp decoded. *)
Fixpoint frames_while (fuel : nat) (n : Z) (extracted_timestamp : option float)
         (l : locals) : M (option float * locals) :=
  let frame := dataframe_byte_size + timestamp_byte_size in
  if byte_chest_index l <? frame then ret (extracted_timestamp, l)
  else
    match fuel with
    | O => raise NonTermination
    | S fuel' =>
        t <- lift (unpack_double
                     (py_slice (byte_chest l) dataframe_byte_size
                               (dataframe_byte_size + timestamp_byte_size))) ;;
        if fgt t start_time then
          (if raw_data_array_index l + frame <=? estimated_size
           then ret tt else raise ValueError) ;;;
          let l1 := with_raw (raw_data_array l ++ slice_to (byte_chest l) frame) l in
          if fne (l_end_time l1) no_end_time && fge t (l_end_time l1) then
            '(leave, l2) <- note_first_frame t false l1 ;;
            if leave then ret (Some t, l2)
            else
              let l3 := with_flag (with_end_time t l2) in
              save_position n l3 (byte_chest_index l3 - frame)
                            (raw_data_array_index l3) ;;;
              ret (Some t, l3)
          else
            '(leave, l2) <- note_first_frame t true l1 ;;
            if leave then ret (Some t, l2)
            else
              frames_while fuel' n (Some t)
                (with_chest (slice_from (byte_chest l2) frame) (chest_room l2 - frame) l2)
        else
          cs <- read_cursor ;;
          let l1 := if get (is_first_chunk cs) false then with_prev (Some t) l else l in
          ret (Some t, with_chest (slice_from (byte_chest l1) frame)
                                  (chest_room l1 - frame) l1)
    end.

(** Lines 994-1155: packet [n]. *)
Definition packet_step (saved_bytes_ : Z) (n : Z) (l : locals) : M (flow locals) :=
  let file_index := l_last_index l + n * cmplt_pkt_size in
  if file_size <=? file_index then
    update_cursor (set_missing_bytes (byte_chest_index l)) ;;;
    update_cursor (set_saved_bytes (raw_data_array_index l)) ;;;
    update_cursor (set_last_index file_index) ;;;
    ret (Break l)
  else
    r <- read_packet saved_bytes_ n l ;;
    match r with
    | Return => ret Return
    | Break _ => ret Return
    | Next (l1, data_bytes, counter_bytes) =>
        c <- (if skip_counter_check l1 then ret (Next tt)
              else check_counter n counter_bytes) ;;
        match c with
        | Return => ret Return
        | Break _ => ret (Next l1)
        | Next _ =>
            (if byte_chest_index l1 + len data_bytes <=? chest_room l1
             then ret tt else raise ValueError) ;;;
            let l2 := with_chest (byte_chest l1 ++ data_bytes) (chest_room l1) l1 in
            if timestamp_byte_size =? 0 then
              let extracted_data_length := read_end_bytes - read_start_bytes in
              if extracted_data_length <=? byte_chest_index l2 then
                if extracted_data_length <? 0 then raise UninitialisedRead
                else
                  let l3 :=
                    with_flag (with_raw (slice_to (byte_chest l2) extracted_data_length)
                                        l2) in
                  save_position n l3 (byte_chest_index l3 - extracted_data_length)
                                (raw_data_array_index l3) ;;;
                  ret (Break l3)
              else ret (if end_time_flag l2 then Break l2 else Next l2)
            else
              '(extracted_timestamp, l3) <-
                frames_while (Z.to_nat (byte_chest_index l2) + 1) n None l2 ;;
              cs <- read_cursor ;;
              near_end <-
                match last_index cs, extracted_timestamp with
                | None, Some t =>
                    period <- lift (py_div (float_of_Z s_samples_per_ts) odr_) ;;
                    ret (last_timestamp - t <? period)%float
                | _, _ => ret false
                end ;;
              if near_end then
                update_cursor (set_missing_bytes (byte_chest_index l3)) ;;;
                update_cursor (set_saved_bytes (raw_data_array_index l3)) ;;;
                update_cursor (set_last_index
                                 (l_last_index l3 + (n + 1) * cmplt_pkt_size
                                  - byte_chest_index l3)) ;;;
                ret (Break (with_flag l3))
              else
                stalled <-
                  match extracted_timestamp with
                  | Some t =>
                      if negb (l_last_index l3 =? 0) && (t <? l_end_time l3)%float
                         && negb (byte_chest_index l3 =? 0)
                      then
                        mb <- lift (item (missing_bytes cs)) ;;
                        ret (negb (mb =? 0))
                      else ret false
                  | None => ret false
                  end ;;
                if stalled then
                  update_cursor (set_missing_bytes (byte_chest_index l3)) ;;;
                  update_cursor (set_saved_bytes (raw_data_array_index l3)) ;;;
                  update_cursor (set_last_index
                                   (l_last_index l3 - byte_chest_index l3)) ;;;
                  ret (Break (with_flag l3))
                else ret (if end_time_flag l3 then Break l3 else Next l3)
        end
    end.

(** The loop [for n in range(nof_data_packet + 1)]; [None] is the
    [return [], None] of an interrupted read. *)
Fixpoint packets_for (saved_bytes_ : Z) (ns : list Z) (l : locals) : M (option locals) :=
  match ns with
  | [] => ret (Some l)
  | n :: rest =>
      r <- packet_step saved_bytes_ n l ;;
      match r with
      | Return => ret None
      | Break l' => ret (Some l')
      | Next l' => packets_for saved_bytes_ rest l'
      end
  end.

(** Lines 964-1160. *)
Definition extract_data (end_time : float) (nof_prev_timestamps : Z) :
  M (buffer * option float) :=
  (if estimated_size <? 0 then raise ValueError else ret tt) ;;;
  cs <- read_cursor ;;
  let last_index0 := get (last_index cs) 0 in
  let missing_bytes0 := get (missing_bytes cs) 0 in
  let saved_bytes0 := get (saved_bytes cs) 0 in
  '(last_index1, missing_bytes1) <-
    (if (last_index0 =? 0) && negb (start_idx =? 0) then
       let data_and_ts :=
         nof_prev_timestamps * (dataframe_byte_size + timestamp_byte_size) in
       nof_counters <- lift (ceildiv data_and_ts data_packet_size) ;;
       let packet_bytes := nof_counters * data_protocol_size + data_and_ts in
       blocks <- lift (ceildiv packet_bytes cmplt_pkt_size) ;;
       ret (packet_bytes, blocks * cmplt_pkt_size - packet_bytes)
     else ret (last_index0, missing_bytes0)) ;;
  r <- packets_for saved_bytes0 (range (nof_data_packet + 1))
         (mk_locals last_index1 missing_bytes1 [] estimated_size []
                    end_time false false None) ;;
  match r with
  | None => ret (PyList, None)
  | Some l => ret (Bytes (raw_data_array l), l_prev_timestamp l)
  end.

(** Lines 1162-1168: the Window Locator's look-back.  [fuel] bounds the
    turns of the [while] loop. *)
Fixpoint look_back (fuel : nat) (end_time : float) (nof_prev_timestamps : Z)
         (r : buffer * option float) : M (buffer * option float) :=
  match snd r with
  | Some prev_timestamp =>
      if fgt prev_timestamp start_time then
        match fuel with
        | O => raise NonTermination
        | S fuel' =>
            r' <- extract_data end_time (nof_prev_timestamps - 1) ;;
            look_back fuel' end_time (nof_prev_timestamps - 1) r'
        end
      else ret r
  | None => ret r
  end.

Definition locate_window (fuel : nat) (end_time : float) (nof_timestamps_in_start : Z) :
  M (buffer * option float) :=
  let nof_prev_timestamps := Z.max 0 (nof_timestamps_in_start - 2) in
  r <- extract_data end_time nof_prev_timestamps ;;
  if negb (nof_prev_timestamps =? 0)
  then look_back fuel end_time nof_prev_timestamps r
  else ret r.
End Extract.

(** ** The entry point: [get_data_and_timestamps_batch] *)

(** What the engine reads besides the component status: the transport of
    the acquisition, its duration in seconds (the difference of the end
    and start times of the acquisition information), and the raw file of
    the component, if there is one. *)
Record acquisition : Type := mk_acquisition {
  interface : Z;
  acquisition_duration : float;
  dat_file : option (list Z)
}.

Inductive batch_result : Type :=
| Extracted (data : samples) (timestamps : list float)
| NoneNone                (* [return None, None] *)
| NoResult.               (* the function ends without a [return] *)

(** Lines 834-844. *)
Fixpoint drop_counters (i : nat) (n : nat) (arr : list Z) : list Z :=
  match arr with
  | [] => []
  | b :: arr' =>
      if (Z.of_nat i mod Z.of_nat n <? data_protocol_size)
      then drop_counters (S i) n arr'
      else b :: drop_counters (S i) n arr'
  end.

Definition remove_4bytes_every_n_optimized (arr : list Z) (N : Z) : result (list Z) :=
  if N =? 0 then Raise ValueError
  else if N <? 0 then Ok arr
  else Ok (drop_counters 0 (Z.to_nat N) arr).

Definition read_whole_file (acq : acquisition) : M (list Z) :=
  file <- lift (match dat_file acq with
                | Some f => Ok f
                | None => Raise MissingFileForSensorError
                end) ;;
  match file with
  | [] => raise NoDataAtIndexError
  | _ => ret file
  end.

Definition batch_spts (comp_status : descriptor) : Z :=
  match samples_per_ts comp_status with
  | SptsInt n => n
  | SptsDict v =>
      match c_type comp_status with
      | Some ACTUATOR => get v 1
      | _ => get v 0
      end
  | SptsAbsent =>
      match c_type comp_status with
      | Some ACTUATOR => 1
      | _ => 0
      end
  end.

Definition returned (r : samples * list float) : batch_result :=
  Extracted (fst r) (snd r).

(** Lines 903-942: the byte geometry of the requested window. *)
Record window : Type := mk_window {
  dataframe_byte_size : Z;
  timestamp_byte_size : Z;
  w_odr : float;
  nof_timestamps_in_start : Z;
  read_start_bytes : Z;
  read_end_bytes : Z;
  start_idx : Z
}.

(** [None] is the [return ([], [])] of line 936. *)
Definition sensor_window (comp_status : descriptor) (file_size : Z)
           (data_packet_size nof_data_packet : Z)
           (s_dim s_data_type_len s_samples_per_ts : Z)
           (start_time end_time : float) : result (option window) :=
  let dataframe_byte_size :=
    if negb (s_samples_per_ts =? 0)
    then s_samples_per_ts * s_dim * s_data_type_len
    else s_dim * s_data_type_len in
  let timestamp_byte_size := if negb (s_samples_per_ts =? 0) then 8 else 0 in
  let odr_ :=
    match measodr comp_status with
    | None => get (odr comp_status) 1%float
    | Some m => if (m =? 0)%float then get (odr comp_status) 1%float else m
    end in
  let tot_counters_bytes := nof_data_packet * data_protocol_size in
  let tot_file_data_and_times_bytes := file_size - tot_counters_bytes in
  frames_in_file <~ floordiv tot_file_data_and_times_bytes
                             (dataframe_byte_size + timestamp_byte_size) ;;
  let tot_timestamps_bytes := frames_in_file * timestamp_byte_size in
  let tot_data_bytes := tot_file_data_and_times_bytes - tot_timestamps_bytes in
  tot_data_samples <~ truncdiv tot_data_bytes (s_data_type_len * s_dim) ;;
  start_sample_idx <~ py_floor (odr_ * start_time) ;;
  let start_data_bytes_idx := start_sample_idx * s_data_type_len * s_dim in
  range_ <~
    (if negb (s_samples_per_ts =? 0) then
       Ok (Some (start_sample_idx / s_samples_per_ts, 0, 0))
     else
       sample_end0 <~ (if fne end_time no_end_time
                       then py_int (odr_ * end_time) else Ok (-1)) ;;
       let sample_end :=
         if (tot_data_samples <? sample_end0) || (sample_end0 =? -1)
         then tot_data_samples else sample_end0 in
       sample_start <~ py_int (odr_ * start_time) ;;
       if tot_data_samples <=? sample_start then Ok None
       else Ok (Some (0, sample_start * dataframe_byte_size,
                      sample_end * dataframe_byte_size))) ;;
  match range_ with
  | None => Ok None
  | Some (nof_timestamps_in_start, read_start_bytes, read_end_bytes) =>
      let start_data_and_times_bytes_idx :=
        start_data_bytes_idx + nof_timestamps_in_start * timestamp_byte_size in
      nof_counter_in_start <~ floordiv start_data_and_times_bytes_idx data_packet_size ;;
      let start_idx :=
        start_data_and_times_bytes_idx + nof_counter_in_start * data_protocol_size in
      Ok (Some (mk_window dataframe_byte_size timestamp_byte_size odr_
                          nof_timestamps_in_start read_start_bytes read_end_bytes
                          start_idx))
  end.

(** Lines 903-1184: a Sensor, or an Actuator that declares its [odr]. *)
Definition batch_sensor (acq : acquisition) (fuel : nat) (comp_name : string)
           (comp_status : descriptor) (file : list Z)
           (data_packet_size cmplt_pkt_size nof_data_packet : Z)
           (s_dim s_data_type_len s_samples_per_ts : Z)
           (start_time end_time : float) (raw_flag : bool) : M batch_result :=
  w <- lift (sensor_window comp_status (len file) data_packet_size nof_data_packet
                           s_dim s_data_type_len s_samples_per_ts start_time end_time) ;;
  match w with
  | None => ret (Extracted EmptyList [])
  | Some w =>
      let last_timestamp := acquisition_duration acq in
      let end_time' :=
        if (end_time =? no_end_time)%float || fgt end_time last_timestamp
        then last_timestamp else end_time in
      if fgt start_time last_timestamp then ret (Extracted EmptyList [])
      else
        '(raw_data_array, prev_timestamp) <-
          locate_window file nof_data_packet cmplt_pkt_size data_packet_size
                        (dataframe_byte_size w) (timestamp_byte_size w) (start_idx w)
                        (read_start_bytes w) (read_end_bytes w) last_timestamp (w_odr w)
                        s_samples_per_ts start_time fuel end_time'
                        (nof_timestamps_in_start w) ;;
        r <- process_datalog comp_name comp_status raw_data_array
                             (dataframe_byte_size w) (timestamp_byte_size w) raw_flag
                             (Some start_time) prev_timestamp ;;
        cs <- read_cursor ;;
        (match last_index cs with
         | None =>
             update_cursor (set_missing_bytes 0) ;;;
             update_cursor (set_saved_bytes 0) ;;;
             update_cursor (set_last_index ((nof_data_packet + 1) * cmplt_pkt_size - 0))
         | Some _ => ret tt
         end) ;;;
        ret (returned r)
  end.

(** Lines 856-868: the payload size of the active transport (0: sd card,
    1: usb, 2: ble, 3: serial). *)
Definition transport_packet_size (acq : acquisition) (comp_status : descriptor) :
  result Z :=
  if interface acq =? 0
  then (d <~ item (sd_dps comp_status) ;; Ok (d - data_protocol_size))
  else if interface acq =? 1 then item (usb_dps comp_status)
  else if interface acq =? 2 then item (ble_dps comp_status)
  else if interface acq =? 3 then item (serial_dps comp_status)
  else Raise RuntimeError.

(** Lines 846-1238. *)
Definition get_data_and_timestamps_batch (acq : acquisition) (fuel : nat)
           (comp_name : string) (comp_status : descriptor)
           (start_time end_time : float) (raw_flag : bool) : M batch_result :=
  data_packet_size <- lift (transport_packet_size acq comp_status) ;;
  file <- lift (match dat_file acq with
                | Some f => Ok f
                | None => Raise MissingFileForSensorError
                end) ;;
  let file_size := len file in
  let cmplt_pkt_size := data_packet_size + data_protocol_size in
  nof_data_packet <- lift (floordiv file_size cmplt_pkt_size) ;;
  let s_dim :=
    match c_type comp_status with
    | Some ALGORITHM =>
        match algo_type comp_status with
        | Some IALGORITHM_TYPE_FFT => fft_length comp_status
        | _ => dim comp_status
        end
    | _ => Some (get (dim comp_status) 1)
    end in
  let s_data_type_len := check_type_length (data_type comp_status) in
  let s_samples_per_ts := batch_spts comp_status in
  let has_odr := match odr comp_status with Some _ => true | None => false end in
  match c_type comp_status with
  | Some SENSOR =>
      batch_sensor acq fuel comp_name comp_status file data_packet_size cmplt_pkt_size
                   nof_data_packet (get s_dim 1) s_data_type_len s_samples_per_ts
                   start_time end_time raw_flag
  | Some ACTUATOR =>
      if has_odr then
        batch_sensor acq fuel comp_name comp_status file data_packet_size cmplt_pkt_size
                     nof_data_packet (get s_dim 1) s_data_type_len s_samples_per_ts
                     start_time end_time raw_flag
      else if is_mc_telemetry comp_name then
        f_data <- read_whole_file acq ;;
        new_array <- lift (remove_4bytes_every_n_optimized f_data cmplt_pkt_size) ;;
        usb <- lift (bound (usb_dps comp_status)) ;;
        r <- process_datalog comp_name comp_status (Bytes new_array) (usb - 8) 8
                             raw_flag None None ;;
        ret (returned r)
      else ret NoResult
  | Some ALGORITHM =>
      match algo_type comp_status with
      | Some IALGORITHM_TYPE_FFT =>
          d <- lift (number s_dim) ;;
          let dataframe_byte_size := d * s_data_type_len in
          f_data <- read_whole_file acq ;;
          new_array <- lift (remove_4bytes_every_n_optimized f_data cmplt_pkt_size) ;;
          r <- process_datalog comp_name comp_status (Bytes new_array)
                               dataframe_byte_size 0 raw_flag (Some start_time) None ;;
          ret (returned r)
      | _ => ret NoneNone
      end
  | None => ret NoResult
  end.

End Engine.

(** ** A type conversion table and components for the examples *)

(** The usual C and numpy names of the element types. *)
Definition type_length (t : string) : Z :=
  if String.eqb t "int8" || String.eqb t "uint8" || String.eqb t "int8_t"
     || String.eqb t "uint8_t" then 1
  else if String.eqb t "int16" || String.eqb t "uint16" || String.eqb t "int16_t"
          || String.eqb t "uint16_t" then 2
  else if String.eqb t "int24" || String.eqb t "int24_t" then 3
  else if String.eqb t "double" then 8
  else 4.

Definition type_dtype (t : string) : np_dtype :=
  if String.eqb t "int8" || String.eqb t "int8_t" then np_int8
  else if String.eqb t "uint8" || String.eqb t "uint8_t" then np_uint8
  else if String.eqb t "int16" || String.eqb t "int16_t" then np_int16
  else if String.eqb t "uint16" || String.eqb t "uint16_t" then np_uint16
  else if String.eqb t "uint32" || String.eqb t "uint32_t" then np_uint32
  else if String.eqb t "float" || String.eqb t "float32" then np_float32
  else if String.eqb t "double" then np_float64
  else np_int32.

(** Every three bytes become four, the last one repeating the sign. *)
Definition widen_int24 (bs : list Z) : list Z :=
  List.concat (map (fun c => c ++ [if 128 <=? last c 0 then 255 else 0]) (chunks 3 bs)).

(** A sensor of one [uint8] channel sampled at 1 Hz without embedded
    timestamps, logged over USB in packets of four payload bytes. *)
Definition plain_sensor : descriptor :=
  mk_descriptor (Some SENSOR) (Some ISENSOR_CLASS_MEMS) None (Some 1) None None
                "uint8" (SptsInt 0) (Some 1%float) None (Some 1%float)
                None None None None (Some 4) None None [] None.

Definition usb_acquisition (duration : float) (file : list Z) : acquisition :=
  mk_acquisition 1 duration (Some file).

Definition start_state (c : cursor) : state := mk_state c [].

Definition run_batch (checkTimestamps : bool) (acq : acquisition) (comp_name : string)
           (comp_status : descriptor) (start_time end_time : float) (raw_flag : bool) :
  M batch_result :=
  get_data_and_timestamps_batch type_length type_dtype widen_int24 checkTimestamps
                                acq 1000 comp_name comp_status start_time end_time raw_flag.

(** ** The file without counters of [get_data_and_timestamps]

    Lines 1270-1284: the whole packets of the raw file, their counters
    removed, are written to a second file before anything is decoded.  The
    result is the content of that file. *)
Fixpoint checked_loop (file : list Z) (cmplt_pkt_size : Z) (ns : list Z)
         (written : list Z) : result (list Z) :=
  match ns with
  | [] => Ok written
  | n :: rest =>
      raw <~ seek_read file (n * cmplt_pkt_size) cmplt_pkt_size ;;
      match slice_from raw 4 with
      | [] => Raise NoDataAtIndexError
      | rf_data => checked_loop file cmplt_pkt_size rest (written ++ rf_data)
      end
  end.

Definition write_checked_file (file : list Z) (data_packet_size : Z) : result (list Z) :=
  let cmplt_pkt_size := data_packet_size + data_protocol_size in
  nof_data_packet <~ floordiv (len file) cmplt_pkt_size ;;
  checked_loop file cmplt_pkt_size (range nof_data_packet) [].

(** ** The device model and the acquisition information

    The device model is [None] until a device is loaded; otherwise it holds
    the list of its components.  A component is a dictionary whose first key
    is the name of the component and whose value is its status; of the
    status these functions read ["c_type"] and whether ["enable"] is there
    and is true. *)

Inductive model_exn : Type :=
| Engine (e : exn)
| MissingComponentModelError
| MissingDeviceModelError
| MissingAcquisitionInfoError.

Inductive outcome (A : Type) : Type :=
| Returns (a : A)
| Raises (e : model_exn).
Arguments Returns {A} a.
Arguments Raises {A} e.

Record component_status : Type := mk_component_status {
  status_c_type : option component_type;
  status_enable : option bool
}.

Definition component : Type := list (string * component_status).

(** [list(c)[0]] and [c[list(c)[0]]]. *)
Definition first_key (c : component) : outcome string :=
  match c with
  | (k, _) :: _ => Returns k
  | [] => Raises (Engine IndexError)
  end.

Definition first_value (c : component) : outcome component_status :=
  match c with
  | (_, v) :: _ => Returns v
  | [] => Raises (Engine IndexError)
  end.

(** Lines 396-418. *)
Fixpoint find_component (components : list component) (component_name : string) :
  outcome component :=
  match components with
  | [] => Raises MissingComponentModelError
  | c :: rest =>
      match first_key c with
      | Returns k =>
          if String.eqb k component_name then Returns c
          else find_component rest component_name
      | Raises e => Raises e
      end
  end.

Definition get_component (device_model : option (list component))
           (component_name : string) : outcome component :=
  match device_model with
  | Some components => find_component components component_name
  | None => Raises MissingDeviceModelError
  end.

(** [s.split("_")[-1]]: what follows the last underscore. *)
Fixpoint last_field_from (field : string) (s : string) : string :=
  match s with
  | EmptyString => field
  | String a s' =>
      if Ascii.eqb a "_"%char then last_field_from EmptyString s'
      else last_field_from (field ++ String a EmptyString) s'
  end.

Definition last_field (s : string) : string := last_field_from EmptyString s.

(** ["enable" in status and status["enable"] == True]. *)
Definition is_enabled (status : component_status) : bool :=
  match status_enable status with
  | Some b => b
  | None => false
  end.

Definition has_c_type (kind : component_type) (status : component_status) : bool :=
  match status_c_type status, kind with
  | Some SENSOR, SENSOR | Some ALGORITHM, ALGORITHM | Some ACTUATOR, ACTUATOR => true
  | _, _ => false
  end.

Section ComponentLists.
(** [str.lower]. *)
Variable lower : string -> string.

(** Lines 426-446 and 448-468: the loop over the components, which
    appends the ones that pass. *)
Fixpoint typed_components (kind : component_type) (type_filter : string)
         (only_active : bool) (components : list component) (active : list component) :
  outcome (list component) :=
  match components with
  | [] => Returns active
  | s :: rest =>
      match first_key s, first_value s with
      | Returns name, Returns status =>
          let active' :=
            if has_c_type kind status then
              if String.eqb type_filter EmptyString then
                if only_active
                then (if is_enabled status then active ++ [s] else active)
                else active ++ [s]
              else
                let sensor_type := last_field (lower name) in
                if only_active
                then (if is_enabled status && String.eqb sensor_type (lower type_filter)
                      then active ++ [s] else active)
                else (if String.eqb sensor_type (lower type_filter)
                      then active ++ [s] else active)
            else active in
          typed_components kind type_filter only_active rest active'
      | Raises e, _ | _, Raises e => Raises e
      end
  end.

Definition get_sensor_list (components : list component) (type_filter : string)
           (only_active : bool) : outcome (list component) :=
  typed_components SENSOR type_filter only_active components [].

Definition get_algorithm_list (components : list component) (type_filter : string)
           (only_active : bool) : outcome (list component) :=
  typed_components ALGORITHM type_filter only_active components [].
End ComponentLists.

(** Lines 470-481. *)
Fixpoint actuator_components (only_active : bool) (components : list component)
         (active : list component) : outcome (list component) :=
  match components with
  | [] => Returns active
  | ac :: rest =>
      match first_value ac with
      | Returns status =>
          let active' :=
            if has_c_type ACTUATOR status then
              if only_active
              then (if is_enabled status then active ++ [ac] else active)
              else active ++ [ac]
            else active in
          actuator_components only_active rest active'
      | Raises e => Raises e
      end
  end.

Definition get_actuator_list (components : list component) (only_active : bool) :
  outcome (list component) :=
  actuator_components only_active components [].

(** A tag of the acquisition information: its label ["l"], whether it
    opens ([true]) or closes the label ["e"], and its time ["ta"]. *)
Record tag : Type := mk_tag {
  tag_l : string;
  tag_e : bool;
  tag_ta : string
}.

Record acquisition_info : Type := mk_acquisition_info {
  info_start_time : string;
  info_end_time : string;
  info_tags : option (list tag)
}.

(** [sorted(set(labels))]: the labels without repetition, in increasing
    order. *)
Fixpoint insert_label (x : string) (sorted : list string) : list string :=
  match sorted with
  | [] => [x]
  | y :: rest =>
      if String.eqb x y then sorted
      else if String.ltb x y then x :: sorted
      else y :: insert_label x rest
  end.

Definition sorted_set (labels : list string) : list string :=
  fold_right insert_label [] labels.

(** Lines 509-518; [None] is the [None] that the function returns. *)
Definition get_acquisition_label_classes (acq_info_model : option acquisition_info) :
  option (list string) :=
  match acq_info_model with
  | Some info =>
      match info_tags info with
      | Some tags => Some (sorted_set (map tag_l tags))
      | None => Some []
      end
  | None => None
  end.

Section Tags.
(** [get_seconds_from_ISO8601], which parses its two arguments with
    [dateutil]. *)
Variable get_seconds_from_ISO8601 : string -> string -> float.

(** Lines 584-586: the times of a label that is already there. *)
Fixpoint add_times (tag_label : string) (times : float * float)
         (tags : list (string * list (float * float))) :
  list (string * list (float * float)) :=
  match tags with
  | [] => []
  | (label, ts) :: rest =>
      (if String.eqb label tag_label then (label, ts ++ [times]) else (label, ts))
      :: add_times tag_label times rest
  end.

(** Lines 569-589: the tags from index [i] on are [tags_array]. *)
Fixpoint tags_loop (acq_start_time : string) (acq_duration : float)
         (tags_array : list tag) (tag_labels : list string)
         (tags : list (string * list (float * float))) :
  list (string * list (float * float)) :=
  match tags_array with
  | [] => tags
  | start_tag :: rest =>
      if tag_e start_tag then
        let tag_label := tag_l start_tag in
        let tag_start_seconds :=
          get_seconds_from_ISO8601 acq_start_time (tag_ta start_tag) in
        let tag_end_seconds :=
          match find (fun end_tag => String.eqb (tag_l end_tag) tag_label
                                     && negb (tag_e end_tag)) tags_array with
          | Some end_tag => get_seconds_from_ISO8601 acq_start_time (tag_ta end_tag)
          | None => acq_duration
          end in
        if existsb (String.eqb tag_label) tag_labels then
          tags_loop acq_start_time acq_duration rest tag_labels
                    (add_times tag_label (tag_start_seconds, tag_end_seconds) tags)
        else
          tags_loop acq_start_time acq_duration rest (tag_labels ++ [tag_label])
                    (tags ++ [(tag_label, [(tag_start_seconds, tag_end_seconds)])])
      else tags_loop acq_start_time acq_duration rest tag_labels tags
  end.

(** Lines 561-591. *)
Definition get_tags (info : acquisition_info) : outcome (list (string * list (float * float))) :=
  match info_tags info with
  | Some tags_array =>
      let acq_duration :=
        get_seconds_from_ISO8601 (info_start_time info) (info_end_time info) in
      Returns (tags_loop (info_start_time info) acq_duration tags_array [] [])
  | None => Raises (Engine KeyError)
  end.
End Tags.

(** * Properties *)

Unset Implicit Arguments.

(** ** Lists, slices and blocks *)

Lemma len_nonneg {A} (l : list A) : 0 <= len l.
Proof. unfold len. lia. Qed.

Lemma len_app {A} (l1 l2 : list A) : len (l1 ++ l2) = len l1 + len l2.
Proof. unfold len. rewrite length_app. lia. Qed.

Lemma len_repeat {A} (x : A) (n : nat) : len (repeat x n) = Z.of_nat n.
Proof. unfold len. now rewrite repeat_length. Qed.

Lemma len_map {A B} (f : A -> B) (l : list A) : len (map f l) = len l.
Proof. unfold len. now rewrite length_map. Qed.


(** The [n] elements of [l] from position [lo] on. *)
Definition block {A} (l : list A) (lo n : Z) : list A :=
  firstn (Z.to_nat n) (skipn (Z.to_nat lo) l).

Lemma py_slice_block {A} (l : list A) (lo n : Z) :
  0 <= lo -> 0 <= n -> lo + n <= len l ->
  py_slice l lo (lo + n) = block l lo n.
Proof.
  intros Hlo Hn Hle. unfold py_slice, block, norm_index.
  destruct (lo <? 0) eqn:E1; [ apply Z.ltb_lt in E1; lia | ].
  destruct (lo + n <? 0) eqn:E2; [ apply Z.ltb_lt in E2; lia | ].
  rewrite !Z.min_l by lia. f_equal. f_equal. lia.
Qed.

Lemma norm_index_in (n i : Z) : 0 <= i -> norm_index n i = Z.min i n.
Proof.
  intros H. unfold norm_index. destruct (i <? 0) eqn:E; [ apply Z.ltb_lt in E; lia | easy ].
Qed.

Lemma slice_to_firstn {A} (l : list A) (n : Z) :
  0 <= n -> slice_to l n = firstn (Z.to_nat n) l.
Proof.
  intros Hn. unfold slice_to, py_slice.
  pose proof (len_nonneg l) as Hl.
  rewrite !norm_index_in by lia.
  rewrite (Z.min_l 0) by lia. simpl. rewrite Z.sub_0_r.
  destruct (Z.le_ge_cases n (len l)).
  - now rewrite Z.min_l by lia.
  - rewrite Z.min_r by lia. unfold len in *. rewrite Nat2Z.id.
    rewrite firstn_all. symmetry. apply firstn_all2. lia.
Qed.

Lemma slice_from_skipn {A} (l : list A) (n : Z) :
  0 <= n -> slice_from l n = skipn (Z.to_nat n) l.
Proof.
  intros Hn. unfold slice_from, py_slice.
  pose proof (len_nonneg l) as Hl.
  rewrite !norm_index_in by lia.
  rewrite (Z.min_l (len l)) by lia.
  destruct (Z.le_ge_cases n (len l)).
  - rewrite Z.min_l by lia. apply firstn_all2. rewrite length_skipn. unfold len in *. lia.
  - rewrite Z.min_r by lia. rewrite Z.sub_diag. simpl.
    symmetry. apply skipn_all2. unfold len in *. lia.
Qed.


(** The list [a] with [src] written from position [lo] on. *)
Definition put {A} (a : list A) (lo : Z) (src : list A) : list A :=
  firstn (Z.to_nat lo) a ++ src ++ skipn (Z.to_nat (lo + len src)) a.


Lemma put_length {A} (a : list A) (lo : Z) (src : list A) :
  0 <= lo -> lo + len src <= len a -> len (put a lo src) = len a.
Proof.
  intros Hlo Hle. unfold put. rewrite !len_app. unfold len in *.
  rewrite length_firstn, length_skipn. lia.
Qed.

Lemma block_put_same {A} (a : list A) (lo : Z) (src : list A) :
  0 <= lo -> lo <= len a -> block (put a lo src) lo (len src) = src.
Proof.
  intros Hlo Hle. unfold block, put.
  rewrite skipn_app, skipn_all2 by (rewrite length_firstn; unfold len in *; lia).
  rewrite length_firstn. simpl.
  replace (Z.to_nat lo - Nat.min (Z.to_nat lo) (List.length a))%nat with 0%nat
    by (unfold len in *; lia).
  simpl. rewrite firstn_app. unfold len. rewrite Nat2Z.id, firstn_all, Nat.sub_diag.
  simpl. apply app_nil_r.
Qed.

Lemma block_put_before {A} (a : list A) (lo : Z) (src : list A) (lo' n' : Z) :
  0 <= lo' -> 0 <= n' -> lo' + n' <= lo -> lo <= len a ->
  block (put a lo src) lo' n' = block a lo' n'.
Proof.
  intros H1 H2 H3 H4. unfold block, put.
  rewrite skipn_app, length_firstn.
  replace (Z.to_nat lo' - Nat.min (Z.to_nat lo) (List.length a))%nat with 0%nat
    by (unfold len in *; lia).
  simpl. rewrite firstn_app.
  rewrite length_skipn, length_firstn.
  replace (Z.to_nat n' - (Nat.min (Z.to_nat lo) (List.length a) - Z.to_nat lo'))%nat
    with 0%nat by (unfold len in *; lia).
  simpl. rewrite app_nil_r.
  rewrite skipn_firstn_comm, firstn_firstn. f_equal. lia.
Qed.

Lemma block_put_after {A} (a : list A) (lo : Z) (src : list A) (lo' n' : Z) :
  0 <= lo -> lo + len src <= lo' -> lo + len src <= len a ->
  block (put a lo src) lo' n' = block a lo' n'.
Proof.
  intros H1 H2 H3. unfold block, put. f_equal.
  pose proof (len_nonneg src) as Hs.
  rewrite skipn_app, length_firstn.
  rewrite skipn_all2 by (rewrite length_firstn; unfold len in *; lia).
  simpl. rewrite skipn_app.
  rewrite skipn_all2 by (unfold len in *; lia).
  simpl. rewrite skipn_skipn. f_equal. unfold len in *. lia.
Qed.


Lemma index_Ok_bounds {A} (l : list A) (i : Z) (x : A) :
  index l i = Ok x -> 0 <= i < len l.
Proof.
  unfold index. destruct (i <? 0) eqn:E1; simpl; [ discriminate | ].
  destruct (len l <=? i) eqn:E2; [ discriminate | ].
  apply Z.ltb_ge in E1. apply Z.leb_gt in E2. lia.
Qed.

(** ** Interpolation of the sample times (claim C5) *)












(** ** The carried time origin (claim C7) *)

Lemma last_item_last {A} (l : list A) (d : A) :
  l <> [] -> last_item l = Ok (last l d).
Proof.
  intros H. unfold last_item.
  destruct (exists_last H) as (l' & a & ->).
  rewrite rev_app_distr, last_last. reflexivity.
Qed.

Lemma rev_head_last {A} (l : list A) (a : A) (r : list A) (d : A) :
  rev l = a :: r -> last l d = a /\ l <> [].
Proof.
  intros H. assert (Hl : l = rev r ++ [a]).
  { rewrite <- (rev_involutive l), H. reflexivity. }
  subst l. rewrite last_last. split; [ reflexivity | ].
  intros E. now apply app_eq_nil in E as [_ E].
Qed.

Lemma mask_rows_filter {A} (f : A -> bool) (l : list A) :
  mask_rows (map f l) l = filter f l.
Proof.
  induction l as [ | a l IH ]; simpl; [ reflexivity | ].
  rewrite IH. reflexivity.
Qed.

Lemma last_in {A} (l : list A) (d : A) : l <> [] -> In (last l d) l.
Proof.
  induction l as [ | a l IH ]; intros H; [ congruence | ].
  destruct l as [ | b l ]; [ now left | ].
  right. apply IH. discriminate.
Qed.

Lemma last_filter {A} (f : A -> bool) (l : list A) (d : A) :
  l <> [] -> f (last l d) = true -> last (filter f l) d = last l d.
Proof.
  induction l as [ | a l IH ]; intros Hne Hf; [ congruence | ].
  destruct l as [ | b l ].
  - simpl in *. rewrite Hf. reflexivity.
  - change (last (a :: b :: l) d) with (last (b :: l) d) in *.
    specialize (IH ltac:(discriminate) Hf).
    change (filter f (a :: b :: l))
      with (if f a then a :: filter f (b :: l) else filter f (b :: l)).
    destruct (f a); [ | exact IH ].
    destruct (filter f (b :: l)) as [ | c r ] eqn:E; [ | exact IH ].
    assert (Hin : In (last (b :: l) d) (filter f (b :: l))).
    { apply filter_In. split; [ | exact Hf ]. apply last_in. discriminate. }
    rewrite E in Hin. contradiction.
Qed.

(** The timestamp that precedes the first frame of a buffer with more
    than one sample per timestamp (lines 739-745). *)
Definition carried_origin (cs : cursor) (start_time prev_timestamp : option float) : float :=
  let start_not_zero := match start_time with Some s => fne s 0 | None => true end in
  if start_not_zero && get (is_first_chunk cs) false
  then match prev_timestamp with
       | Some p => p
       | None => get (ioffset cs) 0%float
       end
  else get (ioffset cs) 0%float.

(** C7 (amended). When the decoder returns, [ioffset] holds the timestamp of
    the last frame of the buffer: with more than one sample per timestamp,
    the last of the frame timestamps (or the carried origin when there is
    none), which is the end point that the interpolation leaves out; with at
    most one sample per timestamp, when a sample is emitted and the last
    timestamp is not the sentinel, the time of the last sample emitted. *)
Theorem C7_ioffset_last_frame_timestamp
        (frame_period : option float) (spts num_frames : Z)
        (start_time prev_timestamp : option float) (timestamps : list float)
        (s_data : option ndarray) (s s' : state) (data : samples) (times : list float) :
  assign_sample_times frame_period spts num_frames start_time prev_timestamp
                      timestamps s_data s = (Ok (data, times), s') ->
  (1 < spts ->
   ioffset (cur s')
   = Some (last timestamps (carried_origin (cur s) start_time prev_timestamp)))
  /\ (spts <= 1 -> times <> [] -> fne (last timestamps 0%float) sentinel = true ->
      ioffset (cur s') = Some (last timestamps 0%float)
      /\ last times 0%float = last timestamps 0%float).
Proof.
  unfold assign_sample_times, bind, read_cursor, lift, update_cursor, ret, raise.
  destruct (1 <? spts) eqn:Hs.
  - apply Z.ltb_lt in Hs. intros H. split; [ intros _ | lia ].
    set (origin := carried_origin (cur s) start_time prev_timestamp).
    assert (Hts : (if match start_time with Some s0 => fne s0 0 | None => true end
                      && get (is_first_chunk (cur s)) false
                   then match prev_timestamp with
                        | Some p => p :: timestamps
                        | None => get (ioffset (cur s)) 0%float :: timestamps
                        end
                   else get (ioffset (cur s)) 0%float :: timestamps)
                  = origin :: timestamps).
    { unfold origin, carried_origin. destruct (_ && _); [ destruct prev_timestamp | ]; reflexivity. }
    rewrite Hts in H. clear Hts.
    rewrite (last_item_last (origin :: timestamps) origin) in H by discriminate.
    cbn [cur warnings] in H.
    destruct (interpolate frame_period (origin :: timestamps) spts num_frames);
      [ | inversion H ].
    destruct s_data as [ a0 | ]; cbn [bound] in H; [ | inversion H ].
    destruct (len (nd_rows a0) =? _); inversion H; subst. cbn [cur ioffset set_ioffset].
    f_equal. destruct timestamps; reflexivity.
  - apply Z.ltb_ge in Hs. intros H. split; [ lia | intros _ Hne Hvalid ].
    destruct (rev timestamps) as [ | t_last r ] eqn:Hrev.
    + assert (timestamps = []) as ->.
      { rewrite <- (rev_involutive timestamps), Hrev. reflexivity. }
      cbn in H. destruct s_data as [ a0 | ]; cbn in H; [ | inversion H ].
      destruct (len (nd_rows a0) =? _); inversion H; subst. congruence.
    + destruct (rev_head_last timestamps t_last r 0%float Hrev) as [Hlast Hnonempty].
      cbn [cur warnings] in H.
      destruct s_data as [ a0 | ]; cbn [bound] in H; [ | inversion H ].
      destruct (len (nd_rows a0) =? _); inversion H; subst. cbn [cur ioffset set_ioffset].
      split; [ reflexivity | ].
      rewrite mask_rows_filter. now apply last_filter.
Qed.

Lemma C7_ioffset_last_frame_timestamp_witness :
  let s := start_state fresh_cursor in
  let a := mk_ndarray np_uint8 [[SInt 1]; [SInt 2]] in
  let run := assign_sample_times None 1 2 (Some 0%float) None [1; 2]%float (Some a) s in
  ioffset (cur (snd run)) = Some 2%float.
Proof.
  cbv zeta.
  destruct (C7_ioffset_last_frame_timestamp
              None 1 2 (Some 0%float) None [1; 2]%float
              (Some (mk_ndarray np_uint8 [[SInt 1]; [SInt 2]]))
              (start_state fresh_cursor)
              (mk_state (set_ioffset 2%float fresh_cursor) [])
              (Array (mk_ndarray np_uint8 [[SInt 1]; [SInt 2]])) [1; 2]%float
              eq_refl) as [_ H].
  destruct (H ltac:(lia) ltac:(discriminate) eq_refl) as [_ _].
  reflexivity.
Defined.

(** A sensor of one [uint8] channel with [spts] samples per timestamp,
    sampled at [rate] Hz and logged over USB in packets of [dps] payload
    bytes. *)
Definition framed_sensor (spts : Z) (rate : float) (dps : Z) : descriptor :=
  mk_descriptor (Some SENSOR) (Some ISENSOR_CLASS_MEMS) None (Some 1) None None
                "uint8" (SptsInt spts) (Some rate) None (Some 1%float)
                None None None None (Some dps) None None [] None.

(** One packet: the counter 0, then one frame of the samples 11 and 12
    stamped 1.0. *)
Definition one_frame_file : list Z :=
  [0; 0; 0; 0;  11; 12;  0; 0; 0; 0; 0; 0; 240; 63].

(** C7 as the claim states it. *)
Definition C7_as_stated : Prop :=
  forall check_type_length get_np_dtype int24_buffer_to_int32_buffer checkTimestamps
         acq fuel comp_name comp_status start_time end_time raw_flag s s' data times,
    get_data_and_timestamps_batch check_type_length get_np_dtype
      int24_buffer_to_int32_buffer checkTimestamps acq fuel comp_name comp_status
      start_time end_time raw_flag s = (Ok (Extracted data times), s') ->
    times <> [] ->
    ioffset (cur s') = Some (last times 0%float).

(** The two samples of the frame stamped 1.0 are emitted at 0 and 0.5, and
    [ioffset] becomes 1.0. *)
Lemma C7_counterexample :
  let run := run_batch false (usb_acquisition 1 one_frame_file) "acc"
                       (framed_sensor 2 2 10) 0 (-1) true (start_state fresh_cursor) in
  fst run = Ok (Extracted (Array (mk_ndarray np_uint8 [[SInt 11]; [SInt 12]]))
                          [0; 0.5]%float)
  /\ ioffset (cur (snd run)) = Some 1%float
  /\ ~ C7_as_stated.
Proof.
  cbv zeta. split; [ vm_compute; reflexivity | ]. split; [ vm_compute; reflexivity | ].
  intros H.
  specialize (H type_length type_dtype widen_int24 false
                (usb_acquisition 1 one_frame_file) 1000%nat "acc" (framed_sensor 2 2 10)
                0%float (-1)%float true (start_state fresh_cursor)).
  unfold run_batch in *.
  match type of H with
  | forall s' data times, ?run = _ -> _ =>
      let v := eval vm_compute in run in
      match v with
      | (Ok (Extracted ?d ?t), ?s1) =>
          specialize (H s1 d t ltac:(vm_compute; reflexivity) ltac:(discriminate))
      end
  end.
  vm_compute in H. discriminate H.
Qed.

(** ** The Unit Scaler (claims C9 and C10) *)

Lemma chunks_fuel_nth {A} (k : nat) (d : A) :
  (0 < k)%nat ->
  forall (fuel : nat) (l : list A) (i j : nat),
    (List.length l <= fuel)%nat -> (j < k)%nat -> (i * k + j < List.length l)%nat ->
    nth j (nth i (chunks_fuel fuel k l) []) d = nth (i * k + j) l d.
Proof.
  intros Hk. induction fuel as [ | fuel IH ]; intros l i j Hfuel Hj Hij.
  - lia.
  - destruct l as [ | a l ]; [ simpl in Hij; lia | ].
    cbn [chunks_fuel]. destruct i as [ | i ].
    + cbn [nth]. rewrite nth_firstn.
      destruct (j <? k)%nat eqn:E; [ reflexivity | apply Nat.ltb_ge in E; lia ].
    + replace (S i * k + j)%nat with (k + (i * k + j))%nat by (cbn [Nat.mul]; lia).
      cbn [nth]. rewrite IH.
      * rewrite nth_skipn. reflexivity.
      * rewrite length_skipn. cbn [List.length] in *. lia.
      * assumption.
      * rewrite length_skipn. cbn [Nat.mul List.length] in *. lia.
Qed.

Lemma chunks_fuel_rows {A} (k : nat) :
  (0 < k)%nat ->
  forall (fuel : nat) (l : list A) (m : nat),
    (List.length l <= fuel)%nat -> List.length l = (m * k)%nat ->
    Forall (fun r => List.length r = k) (chunks_fuel fuel k l)
    /\ List.length (chunks_fuel fuel k l) = m.
Proof.
  intros Hk. induction fuel as [ | fuel IH ]; intros l m Hfuel Hl.
  - destruct l; [ | cbn [List.length] in Hfuel; lia ]. simpl. split; [ constructor | ].
    cbn [List.length] in Hl. destruct m; [ reflexivity | cbn [Nat.mul] in Hl; lia ].
  - destruct l as [ | a l ].
    + simpl. split; [ constructor | ]. cbn [List.length] in Hl.
      destruct m; [ reflexivity | cbn [Nat.mul] in Hl; lia ].
    + cbn [chunks_fuel]. destruct m as [ | m ]; [ cbn in Hl; lia | ].
      cbn [Nat.mul] in Hl.
      destruct (IH (skipn k (a :: l)) m) as [Hrows Hlen].
      * rewrite length_skipn. cbn [List.length] in *. lia.
      * rewrite length_skipn. lia.
      * split; [ constructor; [ | exact Hrows ] | cbn [List.length]; now rewrite Hlen ].
        rewrite length_firstn. lia.
Qed.

Lemma chunks_fuel_concat {A} (k : nat) :
  (0 < k)%nat ->
  forall (fuel : nat) (l : list A),
    (List.length l <= fuel)%nat -> List.concat (chunks_fuel fuel k l) = l.
Proof.
  intros Hk. induction fuel as [ | fuel IH ]; intros l Hfuel.
  - destruct l; [ reflexivity | simpl in Hfuel; lia ].
  - destruct l as [ | a l ]; [ reflexivity | ].
    cbn [chunks_fuel List.concat]. rewrite IH.
    + apply firstn_skipn.
    + rewrite length_skipn. cbn [List.length] in *. lia.
Qed.

(** What [reshape_rows] returns: rows of [ncols] elements each, which laid
    end to end are the data, element [(i, j)] being element [i * ncols + j]. *)
Lemma reshape_rows_spec (ncols : Z) (data : list scalar) (rows : list (list scalar)) :
  reshape_rows ncols data = Ok rows ->
  0 < ncols
  /\ rows = chunks ncols data
  /\ List.concat rows = data
  /\ Forall (fun r => len r = ncols) rows
  /\ forall i j d, 0 <= i -> 0 <= j < ncols -> i * ncols + j < len data ->
       nth (Z.to_nat j) (nth (Z.to_nat i) rows []) d = nth (Z.to_nat (i * ncols + j)) data d.
Proof.
  unfold reshape_rows. destruct (ncols <=? 0) eqn:E1; [ discriminate | ].
  apply Z.leb_gt in E1.
  destruct (len data mod ncols =? 0) eqn:E2; [ | discriminate ].
  apply Z.eqb_eq in E2. intros H. inversion H; subst rows; clear H.
  split; [ assumption | ]. split; [ reflexivity | ]. unfold chunks.
  split; [ apply chunks_fuel_concat; lia | ]. split.
  - apply Z.mod_divide in E2; [ | lia ]. destruct E2 as [m Hm].
    assert (0 <= m) by (pose proof (len_nonneg data); nia).
    destruct (chunks_fuel_rows (Z.to_nat ncols) ltac:(lia) (List.length data) data
                (Z.to_nat m) (le_n _)) as [Hrows _].
    + unfold len in Hm. nia.
    + eapply Forall_impl; [ | exact Hrows ]. intros r Hr. cbv beta in *. unfold len. lia.
  - intros i j d Hi Hj Hij.
    rewrite chunks_fuel_nth by (unfold len in *; nia || lia).
    f_equal. nia.
Qed.

Lemma map_map_rows {A B C} (f : A -> B) (g : B -> C) (rows : list (list A)) :
  map (map g) (map (map f) rows) = map (map (fun x => g (f x))) rows.
Proof.
  rewrite map_map. apply map_ext. intros r. apply map_map.
Qed.

(** Column [j] of a row of the fast telemetries: scaled by the current
    factor when the name of the telemetry holds an "i", else by the voltage
    factor when it holds a "v", else left as it is. *)
Lemma scale_row_nth (names : list string) (scaler_current scaler_voltage : float)
      (row : list scalar) (j : nat) (t : string) (x : scalar) :
  nth_error names j = Some t -> nth_error row j = Some x ->
  nth_error (scale_row names scaler_current scaler_voltage row) j
  = Some (if contains "i" t then mul_scalar np_float32 scaler_current x
          else if contains "v" t then mul_scalar np_float32 scaler_voltage x
          else x).
Proof.
  revert row j. induction names as [ | n names IH ]; intros row j Hn Hr.
  - destruct j; discriminate.
  - destruct row as [ | v row ]; [ destruct j; discriminate | ].
    destruct j as [ | j ]; cbn in *.
    + inversion Hn; inversion Hr; subst. reflexivity.
    + now apply IH.
Qed.

(** The product in binary32 of a raw element and a factor. *)
Definition times_single (s : float) (x : scalar) : scalar :=
  SFlt (round_single (round_single (scalar_to_float x) * round_single s)%float).

Lemma mul_cast_single (s : float) (x : scalar) :
  mul_scalar np_float32 s (cast_scalar np_float32 x) = times_single s x.
Proof. reflexivity. Qed.

(** C9 (amended). The array that the Unit Scaler builds from the decoded
    elements [data] of dtype [data_type], reshaped into rows.
    - Sensor: in raw mode the rows are the data unchanged, dtype kept;
      otherwise every element is the raw element times the sensitivity,
      computed and stored in [float32], except for an ISPU sensor, whose
      elements are cast to [int8], multiplied and stored in [int8].
    - FFT algorithm: the elements are cast to [float32] in either mode,
      and multiplied by the sensitivity unless raw mode is requested.
    - Motor-control telemetries of an actuator: the elements are cast to
      [float32] in either mode; only the fast telemetries outside raw mode
      are scaled, column by column as [scale_row] does. *)
Theorem C9_unit_scaler (sensor_name : string) (ss_stat : descriptor)
        (data_type : np_dtype) (data : list scalar) (raw_flag : bool) (a : ndarray) :
  unit_scaler sensor_name ss_stat data_type data raw_flag = Ok (Some a) ->
  let s := get (sensitivity ss_stat) 1%float in
  match c_type ss_stat with
  | Some SENSOR =>
      let ispu := contains "_ispu" sensor_name in
      let rows := chunks (if ispu then 64 else get (dim ss_stat) 1) data in
      List.concat rows = data
      /\ a = if raw_flag then mk_ndarray data_type rows
             else if ispu
                  then mk_ndarray np_int8
                         (map (map (fun x => mul_scalar np_int8 s (cast_scalar np_int8 x)))
                              rows)
                  else mk_ndarray np_float32 (map (map (times_single s)) rows)
  | Some ALGORITHM =>
      exists n, fft_length ss_stat = Some n
                /\ algo_type ss_stat = Some IALGORITHM_TYPE_FFT
                /\ a = mk_ndarray np_float32
                         (map (map (if raw_flag then cast_scalar np_float32
                                    else times_single s))
                              (chunks n data))
  | Some ACTUATOR =>
      let names := get_active_mc_telemetries_names ss_stat in
      let rows := map (map (cast_scalar np_float32)) (chunks (len names) data) in
      is_mc_telemetry sensor_name = true
      /\ if String.eqb sensor_name MC_FAST_TELEMETRY_COMP_NAME && negb raw_flag
         then exists sc, mc_sensitivity ss_stat = Some sc
                         /\ a = mk_ndarray np_float32
                                  (map (scale_row names (fst sc) (snd sc)) rows)
         else a = mk_ndarray np_float32 rows
  | None => False
  end.
Proof.
  unfold unit_scaler. intros H. cbv zeta.
  destruct (c_type ss_stat) as [ [ | | ] | ]; [ | | | discriminate ].
  - (* SENSOR *)
    destruct (reshape_rows _ data) as [ rows | ] eqn:Hrows; [ | discriminate ].
    apply reshape_rows_spec in Hrows as (_ & -> & Hcat & _).
    split; [ exact Hcat | ]. cbn [rbind] in H.
    destruct raw_flag; [ now inversion H | ].
    inversion H; subst a. unfold multiply_all, astype. rewrite map_map_rows.
    destruct (contains "_ispu" sensor_name); reflexivity.
  - (* ALGORITHM *)
    destruct (algo_type ss_stat) as [ [ | ] | ] eqn:Halgo.
    2, 3: cbn [rbind] in H; destruct raw_flag; discriminate.
    destruct (fft_length ss_stat) as [ n | ] eqn:Hn; [ | discriminate ].
    cbn [item rbind] in H.
    destruct (reshape_rows n data) as [ rows | ] eqn:Hrows; [ | discriminate ].
    apply reshape_rows_spec in Hrows as (_ & -> & _).
    cbn [rbind] in H. exists n. split; [ reflexivity | ]. split; [ reflexivity | ].
    destruct raw_flag; cbn [bound rbind nd_dtype nd_rows] in H; inversion H; subst a.
    + reflexivity.
    + unfold multiply_all, astype. rewrite map_map_rows. reflexivity.
  - (* ACTUATOR *)
    destruct (is_mc_telemetry sensor_name) eqn:Hmc.
    + destruct (reshape_rows _ data) as [ rows | ] eqn:Hrows; [ | discriminate ].
      apply reshape_rows_spec in Hrows as (_ & -> & _).
      cbn [rbind] in H. split; [ reflexivity | ].
      destruct (String.eqb sensor_name MC_FAST_TELEMETRY_COMP_NAME && negb raw_flag).
      * destruct (mc_sensitivity ss_stat) as [ sc | ]; [ | discriminate ].
        cbn [item rbind bound nd_dtype nd_rows] in H. inversion H; subst a.
        exists sc. split; reflexivity.
      * now inversion H.
    + cbn [rbind] in H.
      destruct (String.eqb sensor_name MC_FAST_TELEMETRY_COMP_NAME && negb raw_flag).
      * destruct (mc_sensitivity ss_stat); discriminate.
      * discriminate.
Qed.

Lemma C9_unit_scaler_witness :
  unit_scaler "acc" plain_sensor np_uint8 [SInt 3; SInt 4] false
  = Ok (Some (mk_ndarray np_float32 [[SFlt 3]; [SFlt 4]])).
Proof.
  pose proof (C9_unit_scaler "acc" plain_sensor np_uint8 [SInt 3; SInt 4] false
                (mk_ndarray np_float32 [[SFlt 3]; [SFlt 4]]) eq_refl) as H.
  reflexivity.
Defined.

(** An ISPU sensor and an FFT algorithm for the examples. *)
Definition ispu_sensor : descriptor :=
  mk_descriptor (Some SENSOR) (Some ISENSOR_CLASS_MEMS) None (Some 3) None None
                "int16" (SptsInt 1) (Some 1%float) None (Some 2%float)
                None None None None (Some 72) None None [] None.

Definition fft_algorithm : descriptor :=
  mk_descriptor (Some ALGORITHM) None (Some IALGORITHM_TYPE_FFT) None (Some 2)
                (Some 1%float) "int16" SptsAbsent None None (Some 1%float)
                None None None None (Some 4) None None [] None.

(** C9 as the claim states it: raw mode keeps values and dtype, scaling
    produces a floating-point array. *)
Definition C9_as_stated : Prop :=
  forall sensor_name ss_stat data_type data raw_flag a,
    unit_scaler sensor_name ss_stat data_type data raw_flag = Ok (Some a) ->
    (raw_flag = true -> nd_dtype a = data_type /\ List.concat (nd_rows a) = data)
    /\ (raw_flag = false -> is_floating (nd_dtype a) = true).

(** The scaled output of an ISPU sensor is an [int8] array, and the raw
    output of an FFT algorithm over [int16] data is a [float32] array. *)
Lemma C9_counterexample :
  (exists a, unit_scaler "ism330is_ispu" ispu_sensor np_int8 (repeat (SInt 1) 64) false
             = Ok (Some a)
             /\ nd_dtype a = np_int8 /\ is_floating (nd_dtype a) = false)
  /\ (exists a, unit_scaler "fft_dpu" fft_algorithm np_int16 [SInt 1; SInt 2] true
                = Ok (Some a)
                /\ nd_dtype a = np_float32 /\ nd_dtype a <> np_int16)
  /\ ~ C9_as_stated.
Proof.
  split; [ eexists; split; [ vm_compute; reflexivity | split; reflexivity ] | ].
  split; [ eexists; split; [ vm_compute; reflexivity | split; [ reflexivity | discriminate ] ] | ].
  intros H.
  destruct (H "fft_dpu" fft_algorithm np_int16 [SInt 1; SInt 2] true _ eq_refl) as [Hraw _].
  destruct (Hraw eq_refl) as [Hd _]. vm_compute in Hd. discriminate Hd.
Qed.

(** *** ISPU sensors *)

Lemma bind_Ok {A B} (m : M A) (k : A -> M B) (s s' : state) (b : B) :
  bind m k s = (Ok b, s') ->
  exists a s1, m s = (Ok a, s1) /\ k a s1 = (Ok b, s').
Proof.
  unfold bind. destruct (m s) as [[a | e] s1]; intros H; [ | discriminate ].
  now exists a, s1.
Qed.

Lemma lift_Ok {A} (r : result A) (s s' : state) (a : A) :
  lift r s = (Ok a, s') -> r = Ok a /\ s' = s.
Proof. unfold lift. intros H. inversion H. auto. Qed.

Lemma mask_rows_Forall {A} (P : A -> Prop) (mask : list bool) (rows : list A) :
  Forall P rows -> Forall P (mask_rows mask rows).
Proof.
  revert rows. induction mask as [ | b mask IH ]; intros rows H; [ constructor | ].
  destruct rows as [ | r rows ]; [ constructor | ]. inversion H; subst.
  cbn [mask_rows]. destruct b; [ constructor | ]; auto.
Qed.

Lemma assign_sample_times_array frame_period spts num_frames start_time prev_timestamp
      timestamps s_data s s' data times :
  assign_sample_times frame_period spts num_frames start_time prev_timestamp
                      timestamps s_data s = (Ok (data, times), s') ->
  exists a0 mask, s_data = Some a0
                  /\ data = Array (mk_ndarray (nd_dtype a0) (mask_rows mask (nd_rows a0))).
Proof.
  unfold assign_sample_times. intros H.
  apply bind_Ok in H as (cs & s1 & _ & H).
  apply bind_Ok in H as (st & s2 & _ & H).
  apply bind_Ok in H as (a0 & s3 & Ha & H).
  apply lift_Ok in Ha as [Ha _]. destruct s_data as [ a1 | ]; [ | discriminate ].
  inversion Ha; subst a1.
  destruct (len (nd_rows a0) =? _); [ | discriminate ].
  inversion H; subst. eauto.
Qed.

Section Ispu.
Variable check_type_length : string -> Z.
Variable get_np_dtype : string -> np_dtype.
Variable int24_buffer_to_int32_buffer : list Z -> list Z.
Variable checkTimestamps : bool.

(** The array that the decoder returns is the one of the Unit Scaler for
    the decoding dtype, some rows left out. *)
Lemma process_datalog_array sensor_name ss_stat raw_data dataframe_size timestamp_size
      raw_flag start_time prev_timestamp s s' a times :
  process_datalog check_type_length get_np_dtype int24_buffer_to_int32_buffer
                  checkTimestamps sensor_name ss_stat raw_data dataframe_size
                  timestamp_size raw_flag start_time prev_timestamp s
  = (Ok (Array a, times), s') ->
  exists data a0 mask,
    unit_scaler sensor_name ss_stat
                (get_np_dtype (decode_type_string sensor_name ss_stat)) data raw_flag
    = Ok (Some a0)
    /\ a = mk_ndarray (nd_dtype a0) (mask_rows mask (nd_rows a0)).
Proof.
  unfold process_datalog. intros H.
  do 6 (apply bind_Ok in H as (? & ? & _ & H)).
  apply bind_Ok in H as ([[timestamps data] start_time'] & ? & _ & H).
  apply bind_Ok in H as (s_data & s6 & Hs & H).
  apply lift_Ok in Hs as [Hs _].
  destruct (len data =? 0); [ inversion H | ].
  apply assign_sample_times_array in H as (a0 & mask & -> & Ha).
  inversion Ha; subst a. exists data, a0, mask. split; [ exact Hs | reflexivity ].
Qed.
End Ispu.



Lemma map_rows_length {A B} (f : A -> B) (n : Z) (rows : list (list A)) :
  Forall (fun r => len r = n) rows -> Forall (fun r => len r = n) (map (map f) rows).
Proof.
  intros H. apply Forall_map. eapply Forall_impl; [ | exact H ].
  intros r Hr. cbv beta in *. now rewrite len_map.
Qed.

Lemma unit_scaler_ispu (sensor_name : string) (ss_stat : descriptor)
      (data_type : np_dtype) (data : list scalar) (raw_flag : bool) (a : ndarray) :
  c_type ss_stat = Some SENSOR -> contains "_ispu" sensor_name = true ->
  unit_scaler sensor_name ss_stat data_type data raw_flag = Ok (Some a) ->
  Forall (fun r => len r = 64) (nd_rows a)
  /\ a = if raw_flag then mk_ndarray data_type (chunks 64 data)
         else mk_ndarray np_int8
                (multiply_all np_int8 (get (sensitivity ss_stat) 1%float)
                              (astype np_int8 (chunks 64 data))).
Proof.
  intros Hc Hn. unfold unit_scaler. rewrite Hc, Hn.
  destruct (reshape_rows 64 data) as [ rows | ] eqn:Hrows; [ | discriminate ].
  apply reshape_rows_spec in Hrows as (_ & -> & _ & Hlen & _). cbn [rbind].
  destruct raw_flag; intros H; inversion H; subst a; cbn [nd_rows]; split; auto.
  unfold multiply_all, astype. now do 2 apply map_rows_length.
Qed.






(** The frames of an ISPU buffer: 64 payload bytes read as [int8] and a
    timestamp of 8 bytes, the consistency check being off for such a
    sensor. *)
Section IspuFrames.
Variable get_np_dtype : string -> np_dtype.
Variable int24_buffer_to_int32_buffer : list Z -> list Z.
Variables (sensor_name : string) (rnd_data_buffer : list Z) (frame_period : option float).
Hypothesis int8_dtype : get_np_dtype "int8" = np_int8.

Let step : Z -> frames -> result frames :=
  frame_step get_np_dtype int24_buffer_to_int32_buffer sensor_name "int8"
             rnd_data_buffer 64 72 64 (Some false) frame_period.
Let loop : list Z -> frames -> result frames :=
  frames_loop get_np_dtype int24_buffer_to_int32_buffer sensor_name "int8"
              rnd_data_buffer 64 72 64 (Some false) frame_period.






End IspuFrames.


Lemma nth_block {A} (l : list A) (lo n j : Z) (d : A) :
  0 <= lo -> 0 <= j < n ->
  nth (Z.to_nat j) (block l lo n) d = nth (Z.to_nat (lo + j)) l d.
Proof.
  intros Hlo Hj. unfold block. rewrite nth_firstn.
  destruct (Z.to_nat j <? Z.to_nat n)%nat eqn:E; [ | apply Nat.ltb_ge in E; lia ].
  rewrite nth_skipn. f_equal. lia.
Qed.






(** Lines 600-810 on a buffer of ISPU frames, one sample per timestamp. *)
Section IspuDecode.
Variable check_type_length : string -> Z.
Variable get_np_dtype : string -> np_dtype.
Variable int24_buffer_to_int32_buffer : list Z -> list Z.
Variable checkTimestamps : bool.


End IspuDecode.

Section IspuDecoding.
Variable check_type_length : string -> Z.
Variable get_np_dtype : string -> np_dtype.
Variable int24_buffer_to_int32_buffer : list Z -> list Z.
Variable checkTimestamps : bool.


End IspuDecoding.







(** ** Timestamp-consistency repair (claim C6) *)

(** What [a[lo:lo+n] = src] stores: [src], or its single element
    repeated. *)
Definition broadcast {A} (n : Z) (src : list A) : list A :=
  if len src =? n then src
  else match src with
       | [x] => repeat x (Z.to_nat n)
       | _ => src
       end.

Lemma assign_range_Ok {A} (a : list A) (lo n : Z) (src a' : list A) :
  0 <= n -> assign_range a lo n src = Ok a' ->
  a' = put a lo (broadcast n src) /\ len (broadcast n src) = n.
Proof.
  intros Hn. unfold assign_range, broadcast, put.
  destruct (len src =? n) eqn:E.
  - apply Z.eqb_eq in E. intros H. inversion H. rewrite E. auto.
  - destruct src as [ | x [ | y src ] ]; try discriminate.
    intros H. inversion H. rewrite len_repeat. split; [ | lia ].
    do 3 f_equal. lia.
Qed.

Lemma put_put {A} (a : list A) (lo : Z) (s1 s2 : list A) :
  0 <= lo -> lo + len s1 <= len a -> len s2 = len s1 ->
  put (put a lo s1) lo s2 = put a lo s2.
Proof.
  intros Hlo Hfit Hlen. unfold put. rewrite Hlen.
  pose proof (len_nonneg s1) as Hs1.
  rewrite firstn_app, firstn_firstn.
  replace (Nat.min (Z.to_nat lo) (Z.to_nat lo)) with (Z.to_nat lo) by lia.
  rewrite length_firstn.
  replace (Z.to_nat lo - Nat.min (Z.to_nat lo) (List.length a))%nat with 0%nat
    by (unfold len in *; lia).
  cbn [firstn]. rewrite app_nil_r. f_equal. f_equal.
  rewrite skipn_app, skipn_all2 by (rewrite length_firstn; unfold len in *; lia).
  cbn [app]. rewrite length_firstn. rewrite skipn_app.
  rewrite skipn_all2 by (unfold len in *; lia).
  cbn [app]. rewrite skipn_skipn. f_equal. unfold len in *. lia.
Qed.

Lemma index_app_last {A} (l : list A) (x : A) (i : Z) :
  i = len l -> index (l ++ [x]) i = Ok x.
Proof.
  intros ->. unfold index. pose proof (len_nonneg l) as H.
  rewrite len_app. change (len [x]) with 1.
  destruct (len l <? 0) eqn:E1; [ apply Z.ltb_lt in E1; lia | ].
  destruct (len l + 1 <=? len l) eqn:E2; [ apply Z.leb_le in E2; lia | ].
  cbn [orb]. unfold len. rewrite Nat2Z.id, nth_error_app2, Nat.sub_diag by lia.
  reflexivity.
Qed.

Lemma index_app_prev {A} (l : list A) (x d : A) (i : Z) :
  0 < len l -> i = len l - 1 -> index (l ++ [x]) i = Ok (last l d).
Proof.
  intros Hpos ->. destruct l as [ | a l ] using rev_ind; [ cbn in Hpos; lia | ].
  clear IHl. rewrite last_last.
  rewrite len_app in *. change (len [a]) with 1 in *.
  replace (len l + 1 - 1) with (len l) by lia.
  rewrite <- app_assoc. cbn [app].
  unfold index. pose proof (len_nonneg l) as H.
  rewrite len_app. change (len [a; x]) with 2.
  destruct (len l <? 0) eqn:E1; [ apply Z.ltb_lt in E1; lia | ].
  destruct (len l + 2 <=? len l) eqn:E2; [ apply Z.leb_le in E2; lia | ].
  cbn [orb]. unfold len. rewrite Nat2Z.id, nth_error_app2, Nat.sub_diag by lia.
  reflexivity.
Qed.

Lemma set_item_last {A} (l : list A) (x y : A) (i : Z) :
  i = len l -> set_item (l ++ [x]) i y = l ++ [y].
Proof.
  intros ->. unfold set_item, len.
  rewrite Nat2Z.id, firstn_app, firstn_all, Nat.sub_diag. cbn [firstn].
  rewrite app_nil_r. f_equal.
  replace (Z.to_nat (Z.of_nat (List.length l) + 1)) with (List.length l + 1)%nat by lia.
  rewrite skipn_app, skipn_all2 by lia.
  replace (List.length l + 1 - List.length l)%nat with 1%nat by lia.
  reflexivity.
Qed.

Lemma broadcast_single {A} (n : Z) (x : A) :
  0 <= n -> broadcast n [x] = repeat x (Z.to_nat n).
Proof.
  intros Hn. unfold broadcast. change (len [x]) with 1.
  destruct (1 =? n) eqn:E; [ | reflexivity ].
  apply Z.eqb_eq in E. subst n. reflexivity.
Qed.

Section Repair.
Variable get_np_dtype : string -> np_dtype.
Variable int24_buffer_to_int32_buffer : list Z -> list Z.
Variables (sensor_name data_type_string : string) (rnd_data_buffer : list Z).
Variables (dataframe_size frame_size data1D_per_frame : Z).
Variables (check_timestamps : bool) (frame_period : float).

Let data_type : np_dtype := get_np_dtype data_type_string.
Let zero : scalar := zero_of data_type.
Let step : Z -> frames -> result frames :=
  frame_step get_np_dtype int24_buffer_to_int32_buffer sensor_name data_type_string
             rnd_data_buffer dataframe_size frame_size data1D_per_frame
             (Some check_timestamps) (Some frame_period).
Let loop : list Z -> frames -> result frames :=
  frames_loop get_np_dtype int24_buffer_to_int32_buffer sensor_name data_type_string
              rnd_data_buffer dataframe_size frame_size data1D_per_frame
              (Some check_timestamps) (Some frame_period).

(** The timestamp embedded at the end of frame [ii] (lines 662-665) and the
    values of its data segment (lines 657-659 and 669). *)
Definition embedded_timestamp (ii : Z) : result float :=
  decoded <~ frombuffer_double
               (py_slice rnd_data_buffer (ii * frame_size + dataframe_size)
                         (ii * frame_size + frame_size)) ;;
  index decoded 0.

Definition embedded_values (ii : Z) : result (list scalar) :=
  let segment_data :=
    py_slice rnd_data_buffer (ii * frame_size) (ii * frame_size + dataframe_size) in
  frombuffer data_type
             (if is_int24 data_type_string
              then int24_buffer_to_int32_buffer segment_data else segment_data).

(** Frame [ii], stamped [t] after a frame stamped [prev], is repaired. *)
Definition repaired (ii : Z) (prev t : float) : bool :=
  check_timestamps && (0 <? ii) && inconsistent frame_period prev t.

Lemma frame_step_spec (ii : Z) (acc acc' : frames) :
  0 <= data1D_per_frame -> 0 <= ii -> len (fr_timestamps acc) = ii ->
  (ii + 1) * data1D_per_frame <= len (fr_data acc) ->
  step ii acc = Ok acc' ->
  exists t values,
    embedded_timestamp ii = Ok t /\ embedded_values ii = Ok values
    /\ len (broadcast data1D_per_frame values) = data1D_per_frame
    /\ let prev := last (fr_timestamps acc) 0%float in
       acc' = if repaired ii prev t
              then mk_frames (fr_timestamps acc ++ [(prev + frame_period)%float])
                             (put (fr_data acc) (ii * data1D_per_frame)
                                  (repeat zero (Z.to_nat data1D_per_frame)))
                             (fr_warnings acc
                              ++ [CorruptedDataAt sensor_name (prev + frame_period)%float])
              else mk_frames (fr_timestamps acc ++ [t])
                             (put (fr_data acc) (ii * data1D_per_frame)
                                  (broadcast data1D_per_frame values))
                             (fr_warnings acc).
Proof.
  intros Hd1 Hii Hlen Hfit. unfold step, frame_step, embedded_timestamp, embedded_values.
  destruct (frombuffer_double _) as [ decoded | ]; [ | discriminate ]. cbn [rbind].
  destruct (index decoded 0) as [ t | ]; [ | discriminate ]. cbn [rbind].
  fold data_type.
  destruct (frombuffer data_type _) as [ values | ]; [ | discriminate ]. cbn [rbind].
  destruct (assign_range (fr_data acc) _ _ values) as [ data | ] eqn:Hassign;
    [ | discriminate ].
  apply assign_range_Ok in Hassign as [-> Hb]; [ | assumption ].
  cbn [rbind bound]. intros H. exists t, values.
  split; [ reflexivity | ]. split; [ reflexivity | ]. split; [ exact Hb | ].
  cbv zeta. unfold repaired.
  destruct check_timestamps; cbn [andb] in *; [ | now inversion H ].
  destruct (0 <? ii) eqn:Hpos; cbn [andb] in *; [ | now inversion H ].
  apply Z.ltb_lt in Hpos.
  rewrite index_app_last in H by lia.
  rewrite (index_app_prev _ _ 0%float) in H by lia.
  cbn [rbind] in H.
  destruct (inconsistent frame_period _ t); [ | now inversion H ].
  destruct (assign_range _ _ _ [zero_of data_type]) as [ data' | ] eqn:Hzero;
    [ | discriminate ].
  apply assign_range_Ok in Hzero as [-> _]; [ | assumption ].
  cbn [rbind] in H. rewrite set_item_last in H by lia.
  rewrite index_app_last in H by lia. cbn [rbind] in H. inversion H.
  f_equal. rewrite broadcast_single by assumption.
  apply put_put; [ nia | lia | ]. rewrite Hb, len_repeat. lia.
Qed.

(** What the decoder leaves for frame [ii] in its result [fr]: when the
    frame is repaired, the timestamp of the frame before it plus the frame
    period, a data block of zeros and a warning; otherwise the embedded
    timestamp and the embedded values. *)
Definition frame_outcome (fr : frames) (ii : Z) : Prop :=
  exists t values,
    embedded_timestamp ii = Ok t /\ embedded_values ii = Ok values
    /\ let prev := nth (Z.to_nat (ii - 1)) (fr_timestamps fr) 0%float in
       let stamp := nth (Z.to_nat ii) (fr_timestamps fr) 0%float in
       let data := py_slice (fr_data fr) (ii * data1D_per_frame)
                            (ii * data1D_per_frame + data1D_per_frame) in
       if repaired ii prev t
       then stamp = (prev + frame_period)%float
            /\ data = repeat zero (Z.to_nat data1D_per_frame)
            /\ In (CorruptedDataAt sensor_name (prev + frame_period)%float)
                  (fr_warnings fr)
       else stamp = t /\ data = broadcast data1D_per_frame values.

Lemma last_nth {A} (l : list A) (d : A) :
  last l d = nth (List.length l - 1) l d.
Proof.
  destruct l as [ | a l ] using rev_ind; [ reflexivity | ].
  rewrite last_last, length_app. cbn [List.length].
  rewrite app_nth2 by lia.
  replace (List.length l + 1 - 1 - List.length l)%nat with 0%nat by lia. reflexivity.
Qed.

Lemma repaired_pos (ii : Z) (prev t : float) : repaired ii prev t = true -> 0 < ii.
Proof.
  unfold repaired. destruct (0 <? ii) eqn:E; [ intros _; now apply Z.ltb_lt | ].
  rewrite andb_false_r. discriminate.
Qed.

Lemma frames_loop_spec (nf : Z) :
  0 <= data1D_per_frame ->
  forall (m k : nat) (acc fr : frames),
    Z.of_nat k + Z.of_nat m = nf ->
    len (fr_timestamps acc) = Z.of_nat k ->
    len (fr_data acc) = data1D_per_frame * nf ->
    loop (map Z.of_nat (seq k m)) acc = Ok fr ->
    len (fr_timestamps fr) = nf
    /\ len (fr_data fr) = data1D_per_frame * nf
    /\ (forall ii, 0 <= ii < Z.of_nat k ->
          nth (Z.to_nat ii) (fr_timestamps fr) 0%float
          = nth (Z.to_nat ii) (fr_timestamps acc) 0%float
          /\ block (fr_data fr) (ii * data1D_per_frame) data1D_per_frame
             = block (fr_data acc) (ii * data1D_per_frame) data1D_per_frame)
    /\ (exists w, fr_warnings fr = fr_warnings acc ++ w
                  /\ (check_timestamps = false -> w = []))
    /\ forall ii, Z.of_nat k <= ii < nf -> frame_outcome fr ii.
Proof.
  intros Hd1. induction m as [ | m IH ]; intros k acc fr Hk Hts Hdata Hrun.
  - cbn in Hrun. inversion Hrun; subst fr. split; [ lia | ]. split; [ assumption | ].
    split; [ auto | ].
    split; [ exists []; rewrite app_nil_r; auto | ]. intros ii Hii. lia.
  - cbn [seq map] in Hrun. unfold loop in Hrun. cbn [frames_loop] in Hrun.
    fold step loop in Hrun.
    destruct (step (Z.of_nat k) acc) as [ acc1 | ] eqn:Hstep; [ | discriminate ].
    cbn [rbind] in Hrun.
    apply frame_step_spec in Hstep as (t & values & Ht & Hv & Hb & Hacc1);
      [ | assumption | lia | assumption | rewrite Hdata; nia ].
    cbv zeta in Hacc1.
    set (prev := last (fr_timestamps acc) 0%float) in *.
    assert (Hfit : Z.of_nat k * data1D_per_frame + data1D_per_frame <= len (fr_data acc))
      by (rewrite Hdata; nia).
    assert (Hacc1' :
              exists stamp blk w,
                acc1 = mk_frames (fr_timestamps acc ++ [stamp])
                                 (put (fr_data acc) (Z.of_nat k * data1D_per_frame) blk)
                                 (fr_warnings acc ++ w)
                /\ len blk = data1D_per_frame
                /\ (check_timestamps = false -> w = [])
                /\ if repaired (Z.of_nat k) prev t
                   then stamp = (prev + frame_period)%float
                        /\ blk = repeat zero (Z.to_nat data1D_per_frame)
                        /\ In (CorruptedDataAt sensor_name (prev + frame_period)%float) w
                   else stamp = t /\ blk = broadcast data1D_per_frame values).
    { destruct (repaired (Z.of_nat k) prev t) eqn:Hrep.
      - exists (prev + frame_period)%float, (repeat zero (Z.to_nat data1D_per_frame)),
          [CorruptedDataAt sensor_name (prev + frame_period)%float].
        split; [ exact Hacc1 | ]. split; [ rewrite len_repeat; lia | ]. split.
        + intros Hc. unfold repaired in Hrep. rewrite Hc in Hrep. discriminate.
        + repeat split. now left.
      - exists t, (broadcast data1D_per_frame values), [].
        rewrite app_nil_r. repeat split; auto. }
    clear Hacc1. destruct Hacc1' as (stamp & blk & w & -> & Hblk & Hw & Hout).
    apply IH in Hrun as (Hlen & Hlen' & Hold & (w' & Hwarn & Hw') & Hnew).
    + cbn [fr_timestamps fr_data fr_warnings] in *.
      split; [ exact Hlen | ]. split; [ exact Hlen' | ]. split; [ | split ].
      * intros ii Hii. destruct (Hold ii ltac:(lia)) as [-> ->]. split.
        -- apply app_nth1. unfold len in Hts. lia.
        -- apply block_put_before; nia.
      * exists (w ++ w'). rewrite Hwarn, app_assoc. split; [ reflexivity | ].
        intros Hc. rewrite (Hw Hc), (Hw' Hc). reflexivity.
      * intros ii Hii. destruct (Z.eq_dec ii (Z.of_nat k)) as [ -> | Hne ];
          [ | apply Hnew; lia ].
        exists t, values. split; [ exact Ht | ]. split; [ exact Hv | ]. cbv zeta.
        destruct (Hold (Z.of_nat k) ltac:(lia)) as [Hstamp0 Hblock0].
        assert (Hstamp : nth (Z.to_nat (Z.of_nat k)) (fr_timestamps fr) 0%float = stamp).
        { rewrite Hstamp0. rewrite app_nth2 by (unfold len in Hts; lia).
          replace (Z.to_nat (Z.of_nat k) - List.length (fr_timestamps acc))%nat
            with 0%nat by (unfold len in Hts; lia).
          reflexivity. }
        assert (Hprev : 0 < Z.of_nat k ->
                        nth (Z.to_nat (Z.of_nat k - 1)) (fr_timestamps fr) 0%float = prev).
        { intros Hpos. destruct (Hold (Z.of_nat k - 1) ltac:(lia)) as [-> _].
          rewrite app_nth1 by (unfold len in Hts; lia).
          unfold prev. rewrite last_nth. f_equal. unfold len in Hts. lia. }
        assert (Hrep : repaired (Z.of_nat k)
                                (nth (Z.to_nat (Z.of_nat k - 1)) (fr_timestamps fr) 0%float) t
                       = repaired (Z.of_nat k) prev t).
        { destruct (Z_lt_le_dec 0 (Z.of_nat k)) as [Hpos | Hzero].
          - now rewrite Hprev.
          - unfold repaired. destruct (0 <? Z.of_nat k) eqn:E;
              [ apply Z.ltb_lt in E; lia | ].
            now rewrite !andb_false_r. }
        rewrite Hrep, Hstamp.
        assert (Hdata' : py_slice (fr_data fr) (Z.of_nat k * data1D_per_frame)
                                  (Z.of_nat k * data1D_per_frame + data1D_per_frame) = blk).
        { rewrite py_slice_block by nia. rewrite Hblock0. rewrite <- Hblk at 2.
          pose proof (block_put_same (fr_data acc) (Z.of_nat k * data1D_per_frame) blk)
            as Hsame.
          rewrite Hblk in *. apply Hsame; nia. }
        rewrite Hdata'.
        destruct (repaired (Z.of_nat k) prev t) eqn:Hr; [ | exact Hout ].
        destruct Hout as (-> & -> & Hin).
        rewrite Hprev by (now apply repaired_pos in Hr). repeat split.
        rewrite Hwarn. apply in_or_app. left. apply in_or_app. now right.
    + lia.
    + cbn [fr_timestamps]. rewrite len_app. change (len [stamp]) with 1. lia.
    + cbn [fr_data]. rewrite put_length; [ assumption | nia | lia ].
Qed.

Lemma frames_loop_result (nf : Z) (fr : frames) :
  0 <= data1D_per_frame -> 0 <= nf ->
  loop (range nf)
       (mk_frames [] (repeat zero (Z.to_nat (data1D_per_frame * nf))) []) = Ok fr ->
  len (fr_timestamps fr) = nf
  /\ (check_timestamps = false -> fr_warnings fr = [])
  /\ forall ii, 0 <= ii < nf -> frame_outcome fr ii.
Proof.
  intros Hd1 Hnf Hrun. unfold range in Hrun.
  apply (frames_loop_spec nf Hd1) in Hrun as (Hlen & _ & _ & (w & Hw & Hnone) & Hnew).
  - split; [ exact Hlen | ]. split; [ | intros ii Hii; apply Hnew; lia ].
    intros Hc. rewrite Hw, (Hnone Hc). reflexivity.
  - lia.
  - reflexivity.
  - cbn [fr_data]. rewrite len_repeat. nia.
Qed.
End Repair.

(** The consistency check runs when the debug flag is set, for a Sensor
    whose name holds neither "_mlc" nor "_ispu" (lines 611-616, 628, 636). *)
Lemma check_timestamps_enabled (checkTimestamps : bool) (sensor_name : string)
      (ss_stat : descriptor) :
  check_timestamps_of checkTimestamps sensor_name ss_stat = Some true
  <-> checkTimestamps = true /\ c_type ss_stat = Some SENSOR
      /\ name_contains_mlc_ispu sensor_name = false.
Proof.
  unfold check_timestamps_of.
  destruct (c_type ss_stat) as [ [ | | ] | ], checkTimestamps,
    (name_contains_mlc_ispu sensor_name); cbn; split;
    solve [ intros H; inversion H | intros (H1 & H2 & H3); congruence | auto ].
Qed.

(** C6 (amended). The frames of a buffer with embedded timestamps are
    decoded with the consistency check [check_timestamps], which is on
    exactly when the debug flag is set for a Sensor that is no MLC or ISPU
    channel.  For every frame [ii] of the result: when the check is on,
    [ii > 0] and the embedded timestamp [t] is [inconsistent] with the
    timestamp [prev] kept for the frame before (the gap [|t - prev|] is
    below [0.1 * frame_period] or above [10 * frame_period], or [t] or
    [prev] is not a number), the data of the frame are zeros, its timestamp
    is [prev + frame_period] and a warning is logged; otherwise the frame
    keeps its embedded timestamp and values.  With the check off no warning
    is logged. *)
Theorem C6_repair (get_np_dtype : string -> np_dtype)
        (int24_buffer_to_int32_buffer : list Z -> list Z) (checkTimestamps : bool)
        (sensor_name data_type_string : string) (ss_stat : descriptor)
        (rnd_data_buffer : list Z) (dataframe_size frame_size data1D_per_frame : Z)
        (check_timestamps : bool) (frame_period : float) (nf : Z) (fr : frames) :
  0 <= data1D_per_frame -> 0 <= nf ->
  check_timestamps_of checkTimestamps sensor_name ss_stat = Some check_timestamps ->
  frames_loop get_np_dtype int24_buffer_to_int32_buffer sensor_name data_type_string
              rnd_data_buffer dataframe_size frame_size data1D_per_frame
              (Some check_timestamps) (Some frame_period) (range nf)
              (mk_frames [] (repeat (zero_of (get_np_dtype data_type_string))
                                    (Z.to_nat (data1D_per_frame * nf))) [])
  = Ok fr ->
  (check_timestamps = true <->
   checkTimestamps = true /\ c_type ss_stat = Some SENSOR
   /\ name_contains_mlc_ispu sensor_name = false)
  /\ len (fr_timestamps fr) = nf
  /\ (check_timestamps = false -> fr_warnings fr = [])
  /\ forall ii, 0 <= ii < nf ->
       frame_outcome get_np_dtype int24_buffer_to_int32_buffer sensor_name
                     data_type_string rnd_data_buffer dataframe_size frame_size
                     data1D_per_frame check_timestamps frame_period fr ii.
Proof.
  intros Hd1 Hnf Hcheck Hrun. split.
  - rewrite <- check_timestamps_enabled, Hcheck. split; congruence.
  - now apply frames_loop_result.
Qed.

(** Two frames of one [uint8] sample each: 5 stamped 1.0, then 7 stamped
    100.0. *)
Definition late_frame_buffer : list Z :=
  [5;  0; 0; 0; 0; 0; 0; 240; 63;   7;  0; 0; 0; 0; 0; 0; 89; 64].

Lemma C6_repair_witness :
  frames_loop type_dtype widen_int24 "acc" "uint8" late_frame_buffer 1 9 1
              (Some true) (Some 1%float) (range 2)
              (mk_frames [] (repeat (zero_of (type_dtype "uint8")) (Z.to_nat (1 * 2))) [])
  = Ok (mk_frames [1; 2]%float [SInt 5; SInt 0] [CorruptedDataAt "acc" 2%float]).
Proof.
  pose proof (C6_repair type_dtype widen_int24 true "acc" "uint8" plain_sensor
                late_frame_buffer 1 9 1 true 1%float 2
                (mk_frames [1; 2]%float [SInt 5; SInt 0] [CorruptedDataAt "acc" 2%float])
                ltac:(lia) ltac:(lia) eq_refl eq_refl) as H.
  reflexivity.
Defined.

(** Two frames of one [uint8] sample each, both stamped with plus
    infinity. *)
Definition infinite_stamps_buffer : list Z :=
  [5;  0; 0; 0; 0; 0; 0; 240; 127;   7;  0; 0; 0; 0; 0; 0; 240; 127].

(** The test of the claim on the gap itself. *)
Definition gap_violates (frame_period prev t : float) : bool :=
  let delta_ts := abs (t - prev) in
  (delta_ts <? f0_1 * frame_period)%float || fgt delta_ts (f10 * frame_period)
  || is_nan delta_ts.

(** C6 as the claim states it, for the frames it asks to repair. *)
Definition C6_as_stated : Prop :=
  forall get_np_dtype int24_buffer_to_int32_buffer sensor_name data_type_string
         rnd_data_buffer dataframe_size frame_size data1D_per_frame frame_period nf fr,
    0 <= data1D_per_frame -> 0 <= nf ->
    frames_loop get_np_dtype int24_buffer_to_int32_buffer sensor_name data_type_string
                rnd_data_buffer dataframe_size frame_size data1D_per_frame
                (Some true) (Some frame_period) (range nf)
                (mk_frames [] (repeat (zero_of (get_np_dtype data_type_string))
                                      (Z.to_nat (data1D_per_frame * nf))) [])
    = Ok fr ->
    forall ii t, 0 < ii < nf ->
      embedded_timestamp rnd_data_buffer dataframe_size frame_size ii = Ok t ->
      let prev := nth (Z.to_nat (ii - 1)) (fr_timestamps fr) 0%float in
      gap_violates frame_period prev t = true ->
      nth (Z.to_nat ii) (fr_timestamps fr) 0%float = (prev + frame_period)%float
      /\ py_slice (fr_data fr) (ii * data1D_per_frame)
                  (ii * data1D_per_frame + data1D_per_frame)
         = repeat (zero_of (get_np_dtype data_type_string)) (Z.to_nat data1D_per_frame).

(** The gap between two infinite timestamps is not a number, and the
    second frame keeps its data and raises no warning. *)
Lemma C6_counterexample :
  frames_loop type_dtype widen_int24 "acc" "uint8" infinite_stamps_buffer 1 9 1
              (Some true) (Some 1%float) (range 2)
              (mk_frames [] (repeat (zero_of (type_dtype "uint8")) (Z.to_nat (1 * 2))) [])
  = Ok (mk_frames [infinity; infinity] [SInt 5; SInt 7] [])
  /\ gap_violates 1 infinity infinity = true
  /\ ~ C6_as_stated.
Proof.
  split; [ reflexivity | ]. split; [ reflexivity | ].
  intros H.
  specialize (H type_dtype widen_int24 "acc" "uint8" infinite_stamps_buffer 1 9 1
                1%float 2 _ ltac:(lia) ltac:(lia) eq_refl 1 infinity ltac:(lia)
                eq_refl eq_refl).
  destruct H as [_ H]. vm_compute in H. discriminate H.
Qed.

(** ** A start time beyond the acquisition (claim C8) *)

Section BeyondTheEnd.
Variable check_type_length : string -> Z.
Variable get_np_dtype : string -> np_dtype.
Variable int24_buffer_to_int32_buffer : list Z -> list Z.
Variable checkTimestamps : bool.

(** C8 (amended). A Sensor, or an Actuator that declares its [odr], whose
    file exists and whose window geometry is computed without error (the
    transport is known, no size of the descriptor is zero, the requested
    times are finite): when [start_time] is greater than the duration of
    the acquisition, the entry point returns the empty lists and leaves the
    cursor and the log as they are. *)
Theorem C8_beyond_last_timestamp (acq : acquisition) (fuel : nat) (comp_name : string)
        (comp_status : descriptor) (start_time end_time : float) (raw_flag : bool)
        (s : state) (file : list Z) (data_packet_size : Z) (w : option window) :
  c_type comp_status = Some SENSOR
  \/ (c_type comp_status = Some ACTUATOR /\ odr comp_status <> None) ->
  transport_packet_size acq comp_status = Ok data_packet_size ->
  dat_file acq = Some file ->
  data_packet_size + data_protocol_size <> 0 ->
  sensor_window comp_status (len file) data_packet_size
                (len file / (data_packet_size + data_protocol_size))
                (get (dim comp_status) 1)
                (check_type_length (data_type comp_status))
                (batch_spts comp_status) start_time end_time = Ok w ->
  fgt start_time (acquisition_duration acq) = true ->
  get_data_and_timestamps_batch check_type_length get_np_dtype
    int24_buffer_to_int32_buffer checkTimestamps acq fuel comp_name comp_status
    start_time end_time raw_flag s
  = (Ok (Extracted EmptyList []), s).
Proof.
  intros Hkind Hdps Hfile Hcmplt Hwindow Hbeyond.
  unfold get_data_and_timestamps_batch, bind, lift.
  rewrite Hdps, Hfile. unfold floordiv.
  destruct (data_packet_size + data_protocol_size =? 0) eqn:E;
    [ apply Z.eqb_eq in E; contradiction | ].
  assert (Hrun : batch_sensor check_type_length get_np_dtype int24_buffer_to_int32_buffer
                   checkTimestamps acq fuel comp_name comp_status file data_packet_size
                   (data_packet_size + data_protocol_size)
                   (len file / (data_packet_size + data_protocol_size))
                   (get (dim comp_status) 1)
                   (check_type_length (data_type comp_status))
                   (batch_spts comp_status) start_time end_time raw_flag s
                 = (Ok (Extracted EmptyList []), s)).
  { unfold batch_sensor, bind, lift. rewrite Hwindow.
    destruct w as [ w | ]; [ | reflexivity ].
    rewrite Hbeyond. reflexivity. }
  destruct Hkind as [ Hc | [Hc Hodr] ]; rewrite Hc; cbn [get].
  - exact Hrun.
  - destruct (odr comp_status); [ exact Hrun | congruence ].
Qed.
End BeyondTheEnd.

Lemma C8_beyond_last_timestamp_witness :
  fst (run_batch false (usb_acquisition 4 [0; 0; 0; 0; 10; 20; 30; 40]) "acc" plain_sensor
                 5 (-1) false (start_state fresh_cursor))
  = Ok (Extracted EmptyList []).
Proof.
  unfold run_batch.
  rewrite (C8_beyond_last_timestamp type_length type_dtype widen_int24 false
             (usb_acquisition 4 [0; 0; 0; 0; 10; 20; 30; 40]) 1000 "acc" plain_sensor
             5 (-1) false (start_state fresh_cursor) [0; 0; 0; 0; 10; 20; 30; 40] 4 None
             (or_introl eq_refl) eq_refl eq_refl ltac:(discriminate) eq_refl eq_refl).
  reflexivity.
Defined.

(** One packet of an FFT of length 2 over [int16] values. *)
Definition fft_file : list Z := [0; 0; 0; 0;  1; 0;  2; 0].

(** C8 as the claim states it, for every component. *)
Definition C8_as_stated : Prop :=
  forall check_type_length get_np_dtype int24_buffer_to_int32_buffer checkTimestamps
         acq fuel comp_name comp_status start_time end_time raw_flag s,
    fgt start_time (acquisition_duration acq) = true ->
    fst (get_data_and_timestamps_batch check_type_length get_np_dtype
           int24_buffer_to_int32_buffer checkTimestamps acq fuel comp_name comp_status
           start_time end_time raw_flag s)
    = Ok (Extracted EmptyList []).

(** An FFT algorithm is decoded in full whatever the start time: 100 s
    into an acquisition of 1 s, its row is returned, stamped 101. *)
Lemma C8_counterexample :
  fgt 100 (acquisition_duration (usb_acquisition 1 fft_file)) = true
  /\ fst (run_batch false (usb_acquisition 1 fft_file) "fft_dpu" fft_algorithm
                    100 (-1) false (start_state fresh_cursor))
     = Ok (Extracted (Array (mk_ndarray np_float32 [[SFlt 1; SFlt 2]])) [101]%float)
  /\ ~ C8_as_stated.
Proof.
  split; [ reflexivity | ]. split; [ vm_compute; reflexivity | ].
  intros H.
  specialize (H type_length type_dtype widen_int24 false (usb_acquisition 1 fft_file)
                1000%nat "fft_dpu" fft_algorithm 100%float (-1)%float false
                (start_state fresh_cursor) eq_refl).
  vm_compute in H. discriminate H.
Qed.

(** ** Validation of the packet counters (claim C2) *)

Lemma bind_Raise {A B} (m : M A) (k : A -> M B) (s s' : state) (e : exn) :
  m s = (Raise e, s') -> bind m k s = (Raise e, s').
Proof. intros H. unfold bind. now rewrite H. Qed.

Lemma bind_step {A B} (m : M A) (k : A -> M B) (s s1 : state) (a : A) :
  m s = (Ok a, s1) -> bind m k s = k a s1.
Proof. intros H. unfold bind. now rewrite H. Qed.

Section Reader.
Variable file : list Z.
Variables (nof_data_packet cmplt_pkt_size data_packet_size : Z).
Variables (dataframe_byte_size timestamp_byte_size : Z).
Variables (start_idx read_start_bytes read_end_bytes : Z).
Variables (last_timestamp odr_ : float) (s_samples_per_ts : Z).
Variable start_time : float.

Let read := read_packet file cmplt_pkt_size.
Let check := check_counter data_packet_size.
Let step :=
  packet_step file nof_data_packet cmplt_pkt_size data_packet_size dataframe_byte_size
              timestamp_byte_size read_start_bytes read_end_bytes last_timestamp odr_
              s_samples_per_ts start_time.
Let loop :=
  packets_for file nof_data_packet cmplt_pkt_size data_packet_size dataframe_byte_size
              timestamp_byte_size read_start_bytes read_end_bytes last_timestamp odr_
              s_samples_per_ts start_time.
Let extract :=
  extract_data file nof_data_packet cmplt_pkt_size data_packet_size dataframe_byte_size
               timestamp_byte_size start_idx read_start_bytes read_end_bytes
               last_timestamp odr_ s_samples_per_ts start_time.
Let locate :=
  locate_window file nof_data_packet cmplt_pkt_size data_packet_size dataframe_byte_size
                timestamp_byte_size start_idx read_start_bytes read_end_bytes
                last_timestamp odr_ s_samples_per_ts start_time.

(** Reading a packet leaves the chest and the window as they are. *)
Lemma read_packet_locals saved n l l1 data_bytes counter_bytes s s1 :
  read saved n l s = (Ok (Next (l1, data_bytes, counter_bytes)), s1) ->
  byte_chest l1 = byte_chest l /\ raw_data_array l1 = raw_data_array l
  /\ chest_room l1 = chest_room l /\ warnings s1 = warnings s.
Proof.
  unfold read, read_packet, bind, lift, update_cursor, ret.
  destruct (negb (l_last_index l =? 0)).
  - destruct (negb (saved =? 0) && (saved <=? l_missing_bytes l)).
    + destruct (seek_read _ _ _) as [ raw | ]; [ | discriminate ].
      destruct (len raw <? _); intros H; inversion H; subst. auto.
    + destruct (seek_read _ _ _) as [ raw | ]; [ | discriminate ].
      destruct (len raw <? _); intros H; inversion H; subst. auto.
  - destruct (seek_read _ _ _) as [ raw | ]; [ | discriminate ].
    destruct (len raw + _ <? _); intros H; inversion H; subst. auto.
Qed.

(** The three outcomes of the validation of a counter against the one
    recorded before. *)
Lemma check_counter_spec n counter_bytes counter prev s :
  unpack_uint32 counter_bytes = Ok counter ->
  prev_data_byte_counter (cur s) = Some prev ->
  check n counter_bytes s
  = if counter - prev =? data_packet_size
    then (Ok (Next tt),
          mk_state (set_prev_data_byte_counter (Some counter) (cur s)) (warnings s))
    else if get (is_first_chunk (cur s)) true && (n =? 0) && (prev =? 0)
         then (Ok (Break tt),
               mk_state (cur s)
                        (warnings s
                         ++ [CounterMismatchAtStart counter (prev + data_packet_size);
                             SkippingFirstPacket]))
         else (Raise DataCorruptedException, s).
Proof.
  intros Hc Hp. unfold check, check_counter, bind, lift, read_cursor, update_cursor,
    log_warning, ret, raise.
  rewrite Hc, Hp. destruct (counter - prev =? data_packet_size); cbn [negb].
  - reflexivity.
  - destruct (get (is_first_chunk (cur s)) true && (n =? 0) && (prev =? 0)).
    + cbn [cur warnings]. rewrite <- app_assoc. reflexivity.
    + destruct s; reflexivity.
Qed.

(** The turn of the loop for a packet that has been read and whose counter
    is to be validated. *)
Lemma packet_step_checked saved n l l1 data_bytes counter_bytes s s1 :
  (len file <=? l_last_index l + n * cmplt_pkt_size) = false ->
  read saved n l s = (Ok (Next (l1, data_bytes, counter_bytes)), s1) ->
  skip_counter_check l1 = false ->
  forall c s2,
    check n counter_bytes s1 = (c, s2) ->
    match c with
    | Ok (Break _) => step saved n l s = (Ok (Next l1), s2)
    | Raise e => step saved n l s = (Raise e, s2)
    | _ => True
    end.
Proof.
  intros Heof Hread Hskip c s2 Hcheck.
  unfold step, packet_step. rewrite Heof.
  fold read. rewrite (bind_step _ _ _ _ _ Hread). rewrite Hskip.
  fold check. destruct c as [ [ | | ] | e ]; auto.
  - now rewrite (bind_step _ _ _ _ _ Hcheck).
  - now rewrite (bind_Raise _ _ _ _ _ Hcheck).
Qed.

(** Packet [n] has been read, its counter [counter] is validated against
    the recorded [prev] and differs from it by something else than the
    payload size: the turn of the loop raises the corruption error and the
    loop over the packets ends with it, unless the component is in its
    first chunk, the packet is the first of the call and [prev] is 0; then
    two warnings are logged, the bytes of the packet are not put in the
    chest, the recorded counter stays and the loop goes on with the next
    packet. *)
Lemma counter_mismatch saved n rest l l1 data_bytes counter_bytes counter prev s s1 :
  (len file <=? l_last_index l + n * cmplt_pkt_size) = false ->
  read saved n l s = (Ok (Next (l1, data_bytes, counter_bytes)), s1) ->
  skip_counter_check l1 = false ->
  unpack_uint32 counter_bytes = Ok counter ->
  prev_data_byte_counter (cur s1) = Some prev ->
  counter - prev <> data_packet_size ->
  byte_chest l1 = byte_chest l
  /\ if get (is_first_chunk (cur s1)) true && (n =? 0) && (prev =? 0)
     then loop saved (n :: rest) l s
          = loop saved rest l1
                 (mk_state (cur s1)
                           (warnings s1
                            ++ [CounterMismatchAtStart counter (prev + data_packet_size);
                                SkippingFirstPacket]))
     else step saved n l s = (Raise DataCorruptedException, s1)
          /\ loop saved (n :: rest) l s = (Raise DataCorruptedException, s1).
Proof.
  intros Heof Hread Hskip Hc Hp Hne.
  split; [ now apply read_packet_locals in Hread | ].
  pose proof (check_counter_spec n counter_bytes counter prev s1 Hc Hp) as Hcheck.
  destruct (counter - prev =? data_packet_size) eqn:E;
    [ apply Z.eqb_eq in E; contradiction | ].
  pose proof (packet_step_checked saved n l l1 data_bytes counter_bytes s s1
                Heof Hread Hskip) as Hstep.
  destruct (get (is_first_chunk (cur s1)) true && (n =? 0) && (prev =? 0)).
  - specialize (Hstep _ _ Hcheck). cbv beta iota in Hstep.
    unfold loop. cbn [packets_for]. fold step loop.
    now rewrite (bind_step _ _ _ _ _ Hstep).
  - specialize (Hstep _ _ Hcheck). cbv beta iota in Hstep.
    split; [ exact Hstep | ].
    unfold loop. cbn [packets_for]. fold step.
    now apply bind_Raise.
Qed.

(** An exception of the loop over the packets is the exception of the
    Packet Stream Reader and of the Window Locator. *)
Lemma extract_data_raises end_time nof_prev_timestamps s (e : exn) s' li mb :
  0 <= estimated_size nof_data_packet cmplt_pkt_size ->
  (if (get (last_index (cur s)) 0 =? 0) && negb (start_idx =? 0)
   then
     nof_counters <~ ceildiv (nof_prev_timestamps
                              * (dataframe_byte_size + timestamp_byte_size))
                             data_packet_size ;;
     let packet_bytes :=
       nof_counters * data_protocol_size
       + nof_prev_timestamps * (dataframe_byte_size + timestamp_byte_size) in
     blocks <~ ceildiv packet_bytes cmplt_pkt_size ;;
     Ok (packet_bytes, blocks * cmplt_pkt_size - packet_bytes)
   else Ok (get (last_index (cur s)) 0, get (missing_bytes (cur s)) 0)) = Ok (li, mb) ->
  loop (get (saved_bytes (cur s)) 0) (range (nof_data_packet + 1))
       (mk_locals li mb [] (estimated_size nof_data_packet cmplt_pkt_size) []
                  end_time false false None) s = (Raise e, s') ->
  extract end_time nof_prev_timestamps s = (Raise e, s').
Proof.
  intros Hest Hpos Hloop. unfold extract, extract_data.
  destruct (estimated_size nof_data_packet cmplt_pkt_size <? 0) eqn:E;
    [ apply Z.ltb_lt in E; lia | ].
  unfold bind at 1. unfold ret at 1. unfold bind at 1. unfold read_cursor at 1.
  revert Hpos.
  destruct ((get (last_index (cur s)) 0 =? 0) && negb (start_idx =? 0)).
  - unfold bind, lift, ret.
    destruct (ceildiv _ data_packet_size) as [ nc | ]; [ | discriminate ]. cbn [rbind].
    destruct (ceildiv _ cmplt_pkt_size) as [ bl | ]; [ | discriminate ]. cbn [rbind].
    intros H. inversion H; subst li mb. fold loop. now rewrite Hloop.
  - intros H. inversion H; subst li mb. unfold bind, ret. fold loop. now rewrite Hloop.
Qed.

Lemma locate_window_raises fuel end_time nof_timestamps_in_start s (e : exn) s' :
  extract end_time (Z.max 0 (nof_timestamps_in_start - 2)) s = (Raise e, s') ->
  locate fuel end_time nof_timestamps_in_start s = (Raise e, s').
Proof.
  intros H. unfold locate, locate_window. fold extract. now apply bind_Raise.
Qed.
End Reader.

Section Fatal.
Variable check_type_length : string -> Z.
Variable get_np_dtype : string -> np_dtype.
Variable int24_buffer_to_int32_buffer : list Z -> list Z.
Variable checkTimestamps : bool.

(** For a Sensor, or an Actuator that declares its [odr], whose file
    exists and whose transport is known, the entry point is the windowed
    extraction. *)
Lemma batch_is_batch_sensor acq fuel comp_name comp_status start_time end_time raw_flag
      file data_packet_size s :
  c_type comp_status = Some SENSOR
  \/ (c_type comp_status = Some ACTUATOR /\ odr comp_status <> None) ->
  transport_packet_size acq comp_status = Ok data_packet_size ->
  dat_file acq = Some file ->
  data_packet_size + data_protocol_size <> 0 ->
  get_data_and_timestamps_batch check_type_length get_np_dtype
    int24_buffer_to_int32_buffer checkTimestamps acq fuel comp_name comp_status
    start_time end_time raw_flag s
  = batch_sensor check_type_length get_np_dtype int24_buffer_to_int32_buffer
      checkTimestamps acq fuel comp_name comp_status file data_packet_size
      (data_packet_size + data_protocol_size)
      (len file / (data_packet_size + data_protocol_size))
      (get (dim comp_status) 1) (check_type_length (data_type comp_status))
      (batch_spts comp_status) start_time end_time raw_flag s.
Proof.
  intros Hkind Hdps Hfile Hcmplt.
  unfold get_data_and_timestamps_batch, bind, lift.
  rewrite Hdps, Hfile. unfold floordiv.
  destruct (data_packet_size + data_protocol_size =? 0) eqn:E;
    [ apply Z.eqb_eq in E; contradiction | ].
  destruct Hkind as [ Hc | [Hc Hodr] ]; rewrite Hc; cbn [get].
  - reflexivity.
  - destruct (odr comp_status); [ reflexivity | congruence ].
Qed.

(** No exception of the Window Locator is caught. *)
Lemma batch_sensor_raises acq fuel comp_name comp_status file data_packet_size
      cmplt_pkt_size nof_data_packet s_dim s_data_type_len s_samples_per_ts
      start_time end_time raw_flag w s (e : exn) s' :
  sensor_window comp_status (len file) data_packet_size nof_data_packet s_dim
                s_data_type_len s_samples_per_ts start_time end_time = Ok (Some w) ->
  fgt start_time (acquisition_duration acq) = false ->
  locate_window file nof_data_packet cmplt_pkt_size data_packet_size
                (dataframe_byte_size w) (timestamp_byte_size w) (start_idx w)
                (read_start_bytes w) (read_end_bytes w) (acquisition_duration acq)
                (w_odr w) s_samples_per_ts start_time fuel
                (if (end_time =? no_end_time)%float
                    || fgt end_time (acquisition_duration acq)
                 then acquisition_duration acq else end_time)
                (nof_timestamps_in_start w) s = (Raise e, s') ->
  batch_sensor check_type_length get_np_dtype int24_buffer_to_int32_buffer
    checkTimestamps acq fuel comp_name comp_status file data_packet_size cmplt_pkt_size
    nof_data_packet s_dim s_data_type_len s_samples_per_ts start_time end_time raw_flag s
  = (Raise e, s').
Proof.
  intros Hw Hstart Hlocate. unfold batch_sensor.
  unfold bind at 1. unfold lift at 1. rewrite Hw, Hstart.
  now apply bind_Raise.
Qed.
(** An exception of the Packet Stream Reader is what the entry point
    returns. *)
Lemma reader_exception_is_fatal acq fuel comp_name comp_status start_time end_time
      raw_flag file data_packet_size w s (e : exn) s' :
  c_type comp_status = Some SENSOR
  \/ (c_type comp_status = Some ACTUATOR /\ odr comp_status <> None) ->
  transport_packet_size acq comp_status = Ok data_packet_size ->
  dat_file acq = Some file ->
  data_packet_size + data_protocol_size <> 0 ->
  sensor_window comp_status (len file) data_packet_size
                (len file / (data_packet_size + data_protocol_size))
                (get (dim comp_status) 1) (check_type_length (data_type comp_status))
                (batch_spts comp_status) start_time end_time = Ok (Some w) ->
  fgt start_time (acquisition_duration acq) = false ->
  extract_data file (len file / (data_packet_size + data_protocol_size))
               (data_packet_size + data_protocol_size) data_packet_size
               (dataframe_byte_size w) (timestamp_byte_size w) (start_idx w)
               (read_start_bytes w) (read_end_bytes w) (acquisition_duration acq)
               (w_odr w) (batch_spts comp_status) start_time
               (if (end_time =? no_end_time)%float
                   || fgt end_time (acquisition_duration acq)
                then acquisition_duration acq else end_time)
               (Z.max 0 (nof_timestamps_in_start w - 2)) s = (Raise e, s') ->
  get_data_and_timestamps_batch check_type_length get_np_dtype
    int24_buffer_to_int32_buffer checkTimestamps acq fuel comp_name comp_status
    start_time end_time raw_flag s
  = (Raise e, s').
Proof.
  intros Hkind Hdps Hfile Hcmplt Hw Hstart Hextract.
  rewrite (batch_is_batch_sensor acq fuel comp_name comp_status start_time end_time
             raw_flag file data_packet_size s Hkind Hdps Hfile Hcmplt).
  eapply batch_sensor_raises; [ exact Hw | exact Hstart | ].
  now apply locate_window_raises.
Qed.
End Fatal.

(** The packets [ns] are read one after the other, none of them ending the
    loop: the locals and the state that they leave. *)
Fixpoint packets_read (step : Z -> locals -> M (flow locals)) (ns : list Z)
         (l : locals) (s : state) : option (locals * state) :=
  match ns with
  | [] => Some (l, s)
  | n :: rest =>
      match step n l s with
      | (Ok (Next l1), s1) => packets_read step rest l1 s1
      | _ => None
      end
  end.

Lemma range_split (n m : Z) :
  0 <= n < m -> exists rest, range m = range n ++ n :: rest.
Proof.
  intros H. unfold range.
  replace (Z.to_nat m) with (Z.to_nat n + S (Z.to_nat (m - n - 1)))%nat by lia.
  rewrite seq_app, map_app. cbn [seq map Nat.add].
  rewrite Z2Nat.id by lia. eauto.
Qed.

Section ReaderReaches.
Variable file : list Z.
Variables (nof_data_packet cmplt_pkt_size data_packet_size : Z).
Variables (dataframe_byte_size timestamp_byte_size : Z).
Variables (read_start_bytes read_end_bytes : Z).
Variables (last_timestamp odr_ : float) (s_samples_per_ts : Z).
Variable start_time : float.
Variable saved : Z.

Let step :=
  packet_step file nof_data_packet cmplt_pkt_size data_packet_size dataframe_byte_size
              timestamp_byte_size read_start_bytes read_end_bytes last_timestamp odr_
              s_samples_per_ts start_time saved.
Let loop :=
  packets_for file nof_data_packet cmplt_pkt_size data_packet_size dataframe_byte_size
              timestamp_byte_size read_start_bytes read_end_bytes last_timestamp odr_
              s_samples_per_ts start_time saved.

(** After the packets read, the loop goes on from what they leave. *)
Lemma packets_for_read (before ns : list Z) :
  forall l s l' s',
    packets_read step before l s = Some (l', s') ->
    loop (before ++ ns) l s = loop ns l' s'.
Proof.
  induction before as [ | n before IH ]; intros l s l' s' H.
  - cbn in H. inversion H. reflexivity.
  - cbn [packets_read] in H. cbn [app]. unfold loop. cbn [packets_for]. fold step loop.
    destruct (step n l s) as [[[ l1 | l1 | ] | e] s1] eqn:E; try discriminate.
    rewrite (bind_step _ _ _ _ _ E). now apply IH.
Qed.
End ReaderReaches.

(** A cursor that records no counter takes the first one as it comes. *)
Lemma check_counter_first (data_packet_size n : Z) (counter_bytes : list Z) (counter : Z)
      (s : state) :
  unpack_uint32 counter_bytes = Ok counter ->
  prev_data_byte_counter (cur s) = None ->
  check_counter data_packet_size n counter_bytes s
  = (Ok (Next tt), mk_state (set_prev_data_byte_counter (Some counter) (cur s)) (warnings s)).
Proof.
  intros Hc Hp. unfold check_counter, bind, lift, read_cursor, update_cursor, ret.
  rewrite Hc, Hp. reflexivity.
Qed.

(** C2 (amended). A call of the entry point reads the packets before
    packet [n] without leaving the loop, reads packet [n] and validates
    its counter (the check is not skipped).  When the cursor records no
    counter, the counter is recorded as it comes.  When it records the
    counter [prev]: a counter equal to [prev] plus the payload size is
    accepted and recorded; any other counter makes the entry point itself
    raise the corruption error, which nothing catches, with one exception:
    when [is_first_chunk] is true (it is when absent), packet [n] is the
    first packet of the call and [prev = 0], two warnings are logged, the
    bytes of the packet are not put in the chest, the recorded counter
    stays and the loop goes on with the next packet. *)
Theorem C2_counter_validation
        (check_type_length : string -> Z) (get_np_dtype : string -> np_dtype)
        (int24_buffer_to_int32_buffer : list Z -> list Z) (checkTimestamps : bool)
        (acq : acquisition) (fuel : nat) (comp_name : string) (comp_status : descriptor)
        (start_time end_time : float) (raw_flag : bool)
        (file : list Z) (data_packet_size : Z) (w : window) (li mb : Z) (s0 : state)
        (n : Z) (l l1 : locals) (data_bytes counter_bytes : list Z) (counter : Z)
        (s s1 : state) :
  let cmplt_pkt_size := data_packet_size + data_protocol_size in
  let nof_data_packet := len file / cmplt_pkt_size in
  let frame := dataframe_byte_size w + timestamp_byte_size w in
  let nof_prev_timestamps := Z.max 0 (nof_timestamps_in_start w - 2) in
  let window_end :=
    if (end_time =? no_end_time)%float || fgt end_time (acquisition_duration acq)
    then acquisition_duration acq else end_time in
  let saved := get (saved_bytes (cur s0)) 0 in
  let step :=
    packet_step file nof_data_packet cmplt_pkt_size data_packet_size
                (dataframe_byte_size w) (timestamp_byte_size w) (read_start_bytes w)
                (read_end_bytes w) (acquisition_duration acq) (w_odr w)
                (batch_spts comp_status) start_time saved in
  c_type comp_status = Some SENSOR
  \/ (c_type comp_status = Some ACTUATOR /\ odr comp_status <> None) ->
  transport_packet_size acq comp_status = Ok data_packet_size ->
  dat_file acq = Some file ->
  cmplt_pkt_size <> 0 ->
  sensor_window comp_status (len file) data_packet_size nof_data_packet
                (get (dim comp_status) 1) (check_type_length (data_type comp_status))
                (batch_spts comp_status) start_time end_time = Ok (Some w) ->
  fgt start_time (acquisition_duration acq) = false ->
  0 <= estimated_size nof_data_packet cmplt_pkt_size ->
  (if (get (last_index (cur s0)) 0 =? 0) && negb (start_idx w =? 0)
   then
     nof_counters <~ ceildiv (nof_prev_timestamps * frame) data_packet_size ;;
     let packet_bytes :=
       nof_counters * data_protocol_size + nof_prev_timestamps * frame in
     blocks <~ ceildiv packet_bytes cmplt_pkt_size ;;
     Ok (packet_bytes, blocks * cmplt_pkt_size - packet_bytes)
   else Ok (get (last_index (cur s0)) 0, get (missing_bytes (cur s0)) 0)) = Ok (li, mb) ->
  0 <= n <= nof_data_packet ->
  packets_read step (range n)
               (mk_locals li mb [] (estimated_size nof_data_packet cmplt_pkt_size) []
                          window_end false false None) s0 = Some (l, s) ->
  (len file <=? l_last_index l + n * cmplt_pkt_size) = false ->
  read_packet file cmplt_pkt_size saved n l s
  = (Ok (Next (l1, data_bytes, counter_bytes)), s1) ->
  skip_counter_check l1 = false ->
  unpack_uint32 counter_bytes = Ok counter ->
  let recorded :=
    mk_state (set_prev_data_byte_counter (Some counter) (cur s1)) (warnings s1) in
  match prev_data_byte_counter (cur s1) with
  | None => check_counter data_packet_size n counter_bytes s1 = (Ok (Next tt), recorded)
  | Some prev =>
      if counter - prev =? data_packet_size
      then check_counter data_packet_size n counter_bytes s1 = (Ok (Next tt), recorded)
      else if get (is_first_chunk (cur s1)) true && (n =? 0) && (prev =? 0)
           then byte_chest l1 = byte_chest l
                /\ step n l s
                   = (Ok (Next l1),
                      mk_state (cur s1)
                               (warnings s1
                                ++ [CounterMismatchAtStart counter (prev + data_packet_size);
                                    SkippingFirstPacket]))
           else get_data_and_timestamps_batch check_type_length get_np_dtype
                  int24_buffer_to_int32_buffer checkTimestamps acq fuel comp_name
                  comp_status start_time end_time raw_flag s0
                = (Raise DataCorruptedException, s1)
  end.
Proof.
  cbv zeta.
  intros Hkind Hdps Hfile Hcmplt Hw Hstart Hest Hpos Hn Hreach Heof Hread Hskip Hc.
  set (cmplt_pkt_size := data_packet_size + data_protocol_size) in *.
  set (nof_data_packet := len file / cmplt_pkt_size) in *.
  set (saved := get (saved_bytes (cur s0)) 0) in *.
  destruct (prev_data_byte_counter (cur s1)) as [ prev | ] eqn:Hp;
    [ | now apply check_counter_first ].
  pose proof (check_counter_spec data_packet_size n counter_bytes counter prev s1 Hc Hp)
    as Hcheck.
  destruct (counter - prev =? data_packet_size) eqn:E; [ exact Hcheck | ].
  apply Z.eqb_neq in E.
  destruct (range_split n (nof_data_packet + 1) ltac:(lia)) as [rest Hrange].
  destruct (counter_mismatch file nof_data_packet cmplt_pkt_size data_packet_size
              (dataframe_byte_size w) (timestamp_byte_size w) (read_start_bytes w)
              (read_end_bytes w) (acquisition_duration acq) (w_odr w)
              (batch_spts comp_status) start_time saved n rest l l1 data_bytes
              counter_bytes counter prev s s1 Heof Hread Hskip Hc Hp E)
    as [Hchest Hloop].
  destruct (get (is_first_chunk (cur s1)) true && (n =? 0) && (prev =? 0)).
  - split; [ exact Hchest | ].
    exact (packet_step_checked file nof_data_packet cmplt_pkt_size data_packet_size
             (dataframe_byte_size w) (timestamp_byte_size w) (read_start_bytes w)
             (read_end_bytes w) (acquisition_duration acq) (w_odr w)
             (batch_spts comp_status) start_time saved n l l1 data_bytes counter_bytes
             s s1 Heof Hread Hskip _ _ Hcheck).
  - destruct Hloop as [_ Hloop].
    eapply reader_exception_is_fatal; try eassumption.
    eapply extract_data_raises; [ exact Hest | exact Hpos | ].
    subst saved nof_data_packet cmplt_pkt_size. rewrite Hrange.
    rewrite (packets_for_read _ _ _ _ _ _ _ _ _ _ _ _ _ (range n) (n :: rest)
               _ _ _ _ Hreach).
    exact Hloop.
Qed.

(** Two packets of four payload bytes.  In the first file the second
    counter is 64 instead of 4; in the second file a stray packet with the
    counter 99 comes before the packet with the counter 4. *)
Definition skipped_counter_file : list Z :=
  [0; 0; 0; 0;  1; 2; 3; 4;   64; 0; 0; 0;  5; 6; 7; 8].
Definition stray_packet_file : list Z :=
  [99; 0; 0; 0;  1; 2; 3; 4;   4; 0; 0; 0;  5; 6; 7; 8].

(** A cursor that has recorded the counter 0 and nothing else. *)
Definition counter_zero_cursor : cursor :=
  mk_cursor None None None (Some 0) None None None.

(** The second counter of [skipped_counter_file] is 64 after 0: the call
    that reads the file raises the corruption error. *)
Lemma C2_counter_validation_witness :
  run_batch false (usb_acquisition 8 skipped_counter_file) "acc" plain_sensor 0 (-1) true
            (start_state fresh_cursor)
  = (Raise DataCorruptedException, start_state counter_zero_cursor).
Proof.
  pose (l := mk_locals 0 0 [1; 2; 3; 4] 12 [] 8%float false false None).
  pose proof (C2_counter_validation type_length type_dtype widen_int24 false
                (usb_acquisition 8 skipped_counter_file) 1000 "acc" plain_sensor
                0 (-1) true skipped_counter_file 4 (mk_window 1 0 1 0 0 8 0) 0 0
                (start_state fresh_cursor) 1 l l [5; 6; 7; 8] [64; 0; 0; 0] 64
                (start_state counter_zero_cursor) (start_state counter_zero_cursor)) as H.
  cbv zeta in H.
  refine (H _ _ _ _ _ _ _ _ _ _ _ _ _ _); clear H.
  - left. reflexivity.
  - reflexivity.
  - reflexivity.
  - discriminate.
  - vm_compute. reflexivity.
  - vm_compute. reflexivity.
  - vm_compute. discriminate.
  - vm_compute. reflexivity.
  - vm_compute. split; discriminate.
  - vm_compute. reflexivity.
  - vm_compute. reflexivity.
  - vm_compute. reflexivity.
  - reflexivity.
  - reflexivity.
Defined.

(** C2 as the claim states it: a validated counter that differs from the
    recorded one by anything else than the payload size is dropped on the
    first packet of a fresh cursor (no position recorded yet) whose
    recorded counter is 0, and raises the corruption error everywhere
    else. *)
Definition C2_as_stated : Prop :=
  forall (data_packet_size n : Z) (counter_bytes : list Z) (counter prev : Z) (s : state),
    unpack_uint32 counter_bytes = Ok counter ->
    prev_data_byte_counter (cur s) = Some prev ->
    counter - prev <> data_packet_size ->
    fst (check_counter data_packet_size n counter_bytes s)
    = if (get (last_index (cur s)) 0 =? 0) && (n =? 0) && (prev =? 0)
      then Ok (Break tt)
      else Raise DataCorruptedException.

(** Three packets of four payload bytes with the counters 0, 99 and 4. *)
Definition dropped_packet_file : list Z :=
  [0; 0; 0; 0;  1; 2; 3; 4;   99; 0; 0; 0;  5; 6; 7; 8;   4; 0; 0; 0;  9; 10; 11; 12].

(** Read in one call, the file raises the corruption error at its second
    packet.  Read in two calls, the first call returns the first packet
    and leaves a cursor at position 8 that records the counter 0; for the
    second call the second packet of the file is the first of the call:
    it is dropped with two warnings, and the call returns the third packet
    as the samples 5 to 8.  On a new cursor, which records no counter, the
    stray first packet of [stray_packet_file] is not validated at all and
    is returned as data. *)
Lemma C2_counterexample :
  (let acq := usb_acquisition 12 dropped_packet_file in
   let whole := run_batch false acq "acc" plain_sensor 0 8 true (start_state fresh_cursor) in
   let first := run_batch false acq "acc" plain_sensor 0 4 true (start_state fresh_cursor) in
   let second := run_batch false acq "acc" plain_sensor 4 8 true (snd first) in
   let stray := run_batch false (usb_acquisition 8 stray_packet_file) "acc" plain_sensor
                          0 4 true (start_state fresh_cursor) in
   fst whole = Raise DataCorruptedException
   /\ fst first = Ok (Extracted (Array (mk_ndarray np_uint8
                                          [[SInt 1]; [SInt 2]; [SInt 3]; [SInt 4]]))
                                [1; 2; 3; 4]%float)
   /\ last_index (cur (snd first)) = Some 8
   /\ prev_data_byte_counter (cur (snd first)) = Some 0
   /\ fst second = Ok (Extracted (Array (mk_ndarray np_uint8
                                           [[SInt 9]; [SInt 10]; [SInt 11]; [SInt 12]]))
                                 [5; 6; 7; 8]%float)
   /\ warnings (snd second) = [CounterMismatchAtStart 99 4; SkippingFirstPacket]
   /\ fst stray = Ok (Extracted (Array (mk_ndarray np_uint8
                                          [[SInt 1]; [SInt 2]; [SInt 3]; [SInt 4]]))
                                [1; 2; 3; 4]%float)
   /\ warnings (snd stray) = [])
  /\ ~ C2_as_stated.
Proof.
  split; [ cbv zeta; repeat split; vm_compute; reflexivity | ].
  intros H.
  set (s := snd (run_batch false (usb_acquisition 12 dropped_packet_file) "acc"
                            plain_sensor 0 4 true (start_state fresh_cursor))).
  assert (Hp : prev_data_byte_counter (cur s) = Some 0) by (vm_compute; reflexivity).
  specialize (H 4 0 [99; 0; 0; 0] 99 0 s eq_refl Hp ltac:(discriminate)).
  vm_compute in H. discriminate H.
Qed.

(** At the entry point: the skipped counter is fatal, the stray first
    packet of a cursor that recorded the counter 0 is dropped with two
    warnings. *)
Example counter_skip_is_fatal :
  fst (run_batch false (usb_acquisition 8 skipped_counter_file) "acc" plain_sensor
                 0 (-1) true (start_state fresh_cursor))
  = Raise DataCorruptedException.
Proof. vm_compute. reflexivity. Qed.

Example stray_first_packet_is_dropped :
  let run := run_batch false (usb_acquisition 8 stray_packet_file) "acc" plain_sensor
                       0 4 true (start_state counter_zero_cursor) in
  fst run = Ok (Extracted (Array (mk_ndarray np_uint8
                                    [[SInt 5]; [SInt 6]; [SInt 7]; [SInt 8]]))
                          [1; 2; 3; 4]%float)
  /\ warnings (snd run) = [CounterMismatchAtStart 99 4; SkippingFirstPacket].
Proof. cbv zeta. split; vm_compute; reflexivity. Qed.

(** ** The position of the cursor after a first call

    [keeps I m G]: the computation [m] preserves the property [I] of the
    cursor whether it returns or raises, and a value it returns has [G]. *)

Definition keeps {A} (I : cursor -> Prop) (m : M A) (G : A -> Prop) : Prop :=
  forall s, I (cur s) ->
    match m s with
    | (Ok a, s') => I (cur s') /\ G a
    | (Raise _, s') => I (cur s')
    end.

Lemma keeps_ret {A} (I : cursor -> Prop) (G : A -> Prop) (a : A) :
  G a -> keeps I (ret a) G.
Proof. intros Ha s Hs. cbn. auto. Qed.

Lemma keeps_raise {A} (I : cursor -> Prop) (G : A -> Prop) (e : exn) :
  keeps I (@raise A e) G.
Proof. intros s Hs. exact Hs. Qed.

Lemma keeps_lift {A} (I : cursor -> Prop) (G : A -> Prop) (r : result A) :
  (forall a, r = Ok a -> G a) -> keeps I (lift r) G.
Proof. intros Hr s Hs. unfold lift. destruct r; auto. Qed.

Lemma keeps_bind {A B} (I : cursor -> Prop) (m : M A) (k : A -> M B)
      (G : A -> Prop) (G' : B -> Prop) :
  keeps I m G -> (forall a, G a -> keeps I (k a) G') -> keeps I (bind m k) G'.
Proof.
  intros Hm Hk s Hs. unfold bind. specialize (Hm s Hs).
  destruct (m s) as [[a | e] s1]; [| exact Hm].
  destruct Hm as [H1 Ha]. exact (Hk a Ha s1 H1).
Qed.

Lemma keeps_weaken {A} (I : cursor -> Prop) (m : M A) (G G' : A -> Prop) :
  keeps I m G -> (forall a, G a -> G' a) -> keeps I m G'.
Proof.
  intros Hm HG s Hs. specialize (Hm s Hs).
  destruct (m s) as [[a | e] s1]; [| exact Hm]. destruct Hm; auto.
Qed.

Lemma keeps_read_cursor (I : cursor -> Prop) : keeps I read_cursor (fun _ => True).
Proof. intros s Hs. cbn. auto. Qed.

Lemma keeps_update_cursor (I : cursor -> Prop) (f : cursor -> cursor) :
  (forall c, I c -> I (f c)) -> keeps I (update_cursor f) (fun _ => True).
Proof. intros Hf s Hs. cbn. auto. Qed.

Lemma keeps_log_warning (I : cursor -> Prop) (w : warning) :
  keeps I (log_warning w) (fun _ => True).
Proof. intros s Hs. cbn. auto. Qed.

(** The position that a first call leaves in the cursor: [last_index]
    still absent or 0, or, for a number [n] of packets, [n] times the
    packet size (lines 997-1000) or that boundary minus the bytes left
    over, which [missing_bytes] records (lines 1063-1072, 1103-1112,
    1140-1145 and 1175-1179).  [is_same_dps] is not set. *)
Definition positioned (cmplt_pkt_size nof_data_packet : Z) (c : cursor) : Prop :=
  get (is_same_dps c) false = false
  /\ (get (last_index c) 0 = 0
      \/ exists n mb,
           1 <= n <= nof_data_packet + 1 /\ 0 <= mb /\ missing_bytes c = Some mb
           /\ (last_index c = Some (n * cmplt_pkt_size)
               \/ last_index c = Some (n * cmplt_pkt_size - mb))).

(** The three assignments that record a position. *)
Lemma keeps_position_then {B} (c nof li mb sv : Z) (k : M B) (G : B -> Prop) :
  0 <= mb ->
  li = 0 \/ (exists n, 1 <= n <= nof + 1 /\ (li = n * c \/ li = n * c - mb)) ->
  keeps (positioned c nof) k G ->
  keeps (positioned c nof)
        (update_cursor (set_missing_bytes mb) ;;;
         update_cursor (set_saved_bytes sv) ;;;
         update_cursor (set_last_index li) ;;; k) G.
Proof.
  intros Hmb H Hk s [Hsame _]. unfold bind, update_cursor. apply Hk.
  split; [ exact Hsame | ]. cbn.
  destruct H as [ -> | (n & Hn & Hli) ]; [ now left | right ].
  exists n, mb. repeat split; try lia. destruct Hli as [ -> | -> ]; auto.
Qed.

Lemma keeps_position (c nof li mb sv : Z) :
  0 <= mb ->
  li = 0 \/ (exists n, 1 <= n <= nof + 1 /\ (li = n * c \/ li = n * c - mb)) ->
  keeps (positioned c nof)
        (update_cursor (set_missing_bytes mb) ;;;
         update_cursor (set_saved_bytes sv) ;;;
         update_cursor (set_last_index li)) (fun _ => True).
Proof.
  intros Hmb H s [Hsame _]. cbn. split; [ | exact I ].
  split; [ exact Hsame | ]. cbn.
  destruct H as [ -> | (n & Hn & Hli) ]; [ now left | right ].
  exists n, mb. repeat split; try lia. destruct Hli as [ -> | -> ]; auto.
Qed.

Lemma Forall_range (m : Z) : Forall (fun n => 0 <= n <= m - 1) (range m).
Proof.
  unfold range. apply Forall_forall. intros n Hn.
  apply in_map_iff in Hn as (k & <- & Hk). apply in_seq in Hk. lia.
Qed.

Ltac keeps_field :=
  apply keeps_update_cursor; intros [] Hc; exact Hc.

Section FirstCall.
Variable file : list Z.
Variables (nof_data_packet cmplt_pkt_size data_packet_size : Z).
Variables (frame_data_size frame_stamp_size : Z).
Variables (read_start read_end : Z).
Variables (last_timestamp odr_ : float) (s_samples_per_ts : Z).
Variable start_time : float.

Let I := positioned cmplt_pkt_size nof_data_packet.
Let at_start (l : locals) : Prop := l_last_index l = 0.

Lemma save_position_keeps (n : Z) (l : locals) (unused saved : Z) :
  at_start l -> 0 <= n <= nof_data_packet -> 0 <= unused ->
  keeps I (save_position cmplt_pkt_size n l unused saved) (fun _ => True).
Proof.
  unfold at_start. intros Hl Hn Hu s [Hsame Hs].
  unfold save_position, bind, read_cursor. rewrite Hsame. cbn.
  split; [ | exact Logic.I ]. split; [ exact Hsame | ]. cbn. right.
  exists (n + 1), unused. rewrite Hl. repeat split; try lia.
  right. f_equal.
Qed.

Lemma read_packet_keeps (saved n : Z) (l : locals) :
  at_start l ->
  keeps I (read_packet file cmplt_pkt_size saved n l)
        (fun r => match r with
                  | Next (l1, _, _) => l1 = l
                  | _ => True
                  end).
Proof.
  unfold at_start. intros Hl. unfold read_packet. rewrite Hl. cbn [Z.eqb negb].
  eapply keeps_bind; [ apply keeps_lift; intros; exact Logic.I | ].
  intros raw _. destruct (_ <? _); apply keeps_ret; auto.
Qed.

Lemma check_counter_keeps (n : Z) (counter_bytes : list Z) :
  keeps I (check_counter data_packet_size n counter_bytes) (fun _ => True).
Proof.
  unfold check_counter.
  eapply keeps_bind; [ apply keeps_lift; intros; exact Logic.I | ]. intros counter _.
  eapply keeps_bind; [ apply keeps_read_cursor | ]. intros cs _.
  destruct (prev_data_byte_counter cs) as [ prev | ].
  - destruct (negb _).
    + destruct (_ && _).
      * eapply keeps_bind; [ apply keeps_log_warning | ]. intros _ _.
        eapply keeps_bind; [ apply keeps_log_warning | ]. intros _ _.
        now apply keeps_ret.
      * apply keeps_raise.
    + eapply keeps_bind; [ keeps_field | ]. intros _ _. now apply keeps_ret.
  - eapply keeps_bind; [ keeps_field | ]. intros _ _. now apply keeps_ret.
Qed.

Lemma note_first_frame_keeps (t : float) (pop : bool) (l : locals) :
  at_start l ->
  keeps I (note_first_frame start_time t pop l)
        (fun r => fst r = false /\ at_start (snd r) /\
                  byte_chest (snd r) = byte_chest l /\
                  raw_data_array (snd r) = raw_data_array l).
Proof.
  unfold at_start. intros Hl. unfold note_first_frame.
  eapply keeps_bind; [ apply keeps_read_cursor | ]. intros cs _.
  destruct (l_prev_timestamp l); [ now apply keeps_ret | ].
  destruct (get (is_first_chunk cs) false); [ | now apply keeps_ret ].
  destruct (fgt t start_time); [ | now apply keeps_ret ].
  rewrite Hl. cbn [Z.eqb]. now apply keeps_ret.
Qed.

Lemma frames_while_keeps (fuel : nat) :
  forall (n : Z) (ets : option float) (l : locals),
    at_start l -> 0 <= n <= nof_data_packet ->
    keeps I (frames_while nof_data_packet cmplt_pkt_size frame_data_size
                          frame_stamp_size start_time fuel n ets l)
          (fun r => at_start (snd r)).
Proof.
  unfold at_start.
  induction fuel as [ | fuel IH ]; intros n ets l Hl Hn; cbn [frames_while].
  - destruct (_ <? _); [ now apply keeps_ret | apply keeps_raise ].
  - destruct (_ <? _) eqn:Hguard; [ now apply keeps_ret | ].
    apply Z.ltb_ge in Hguard.
    eapply keeps_bind; [ apply keeps_lift; intros; exact Logic.I | ]. intros t _.
    destruct (fgt t start_time).
    + eapply keeps_bind.
      { instantiate (1 := fun _ => True).
        destruct (_ <=? _); [ now apply keeps_ret | apply keeps_raise ]. }
      intros _ _.
      destruct (_ && _).
      * eapply keeps_bind; [ apply note_first_frame_keeps; exact Hl | ].
        intros [leave l2] (Hleave & Hl2 & Hchest & _). cbn in Hleave, Hl2, Hchest.
        subst leave.
        eapply keeps_bind; [ apply save_position_keeps; [ exact Hl2 | exact Hn | ] | ].
        { unfold byte_chest_index in *. cbn [byte_chest with_flag with_end_time].
          rewrite Hchest. cbn [byte_chest with_raw]. lia. }
        intros _ _. now apply keeps_ret.
      * eapply keeps_bind; [ apply note_first_frame_keeps; exact Hl | ].
        intros [leave l2] (Hleave & Hl2 & _). cbn in Hleave, Hl2. subst leave.
        apply IH; [ exact Hl2 | exact Hn ].
    + eapply keeps_bind; [ apply keeps_read_cursor | ]. intros cs _.
      apply keeps_ret. cbn. now destruct (get (is_first_chunk cs) false).
Qed.

Definition flow_at_start (r : flow locals) : Prop :=
  match r with
  | Next l' | Break l' => l_last_index l' = 0
  | Return _ => True
  end.

Lemma packet_step_keeps (saved n : Z) (l : locals) :
  at_start l -> 0 <= n <= nof_data_packet ->
  keeps I (packet_step file nof_data_packet cmplt_pkt_size data_packet_size
                       frame_data_size frame_stamp_size read_start read_end
                       last_timestamp odr_ s_samples_per_ts start_time saved n l)
        flow_at_start.
Proof.
  unfold at_start. intros Hl Hn. unfold packet_step. rewrite Hl.
  destruct (_ <=? _).
  { apply keeps_position_then; [ apply len_nonneg | | now apply keeps_ret ].
    destruct (Z.eq_dec n 0) as [ -> | Hne ]; [ now left | right ].
    exists n. split; [ lia | now left ]. }
  eapply keeps_bind; [ apply read_packet_keeps; exact Hl | ].
  intros [[[l1 data_bytes] counter_bytes] | ? | ] Hr; try now apply keeps_ret.
  subst l1.
  eapply keeps_bind.
  { instantiate (1 := fun _ => True).
    destruct (skip_counter_check l); [ now apply keeps_ret | apply check_counter_keeps ]. }
  intros [[] | [] | ] _; try now apply keeps_ret.
  eapply keeps_bind.
  { instantiate (1 := fun _ => True).
    destruct (_ <=? _); [ now apply keeps_ret | apply keeps_raise ]. }
  intros _ _.
  set (l2 := with_chest _ _ l).
  assert (Hl2 : l_last_index l2 = 0) by exact Hl.
  destruct (frame_stamp_size =? 0).
  - destruct (_ <=? _) eqn:Hfull.
    + apply Z.leb_le in Hfull.
      destruct (_ <? _); [ apply keeps_raise | ].
      eapply keeps_bind; [ apply save_position_keeps; [ exact Hl2 | exact Hn | ] | ].
      { unfold byte_chest_index in *. cbn [byte_chest with_flag with_raw]. lia. }
      intros _ _. now apply keeps_ret.
    + apply keeps_ret. now destruct (end_time_flag l2).
  - eapply keeps_bind; [ apply frames_while_keeps; [ exact Hl2 | exact Hn ] | ].
    intros [ets l3] Hl3. cbn in Hl3. unfold at_start in Hl3.
    eapply keeps_bind; [ apply keeps_read_cursor | ]. intros cs _.
    eapply keeps_bind.
    { instantiate (1 := fun _ => True).
      destruct (last_index cs); [ now apply keeps_ret | ].
      destruct ets; [ | now apply keeps_ret ].
      eapply keeps_bind; [ apply keeps_lift; intros; exact Logic.I | ].
      intros. now apply keeps_ret. }
    intros [ | ] _.
    + apply keeps_position_then; [ apply len_nonneg | | now apply keeps_ret ].
      right. exists (n + 1). split; [ lia | right ]. rewrite Hl3. lia.
    + rewrite Hl3. cbn [Z.eqb negb andb].
      eapply keeps_bind.
      { instantiate (1 := fun b => b = false).
        destruct ets; now apply keeps_ret. }
      intros stalled ->. apply keeps_ret. now destruct (end_time_flag l3).
Qed.

Lemma packets_for_keeps (saved : Z) (ns : list Z) :
  Forall (fun n => 0 <= n <= nof_data_packet) ns ->
  forall l, at_start l ->
    keeps I (packets_for file nof_data_packet cmplt_pkt_size data_packet_size
                         frame_data_size frame_stamp_size read_start read_end
                         last_timestamp odr_ s_samples_per_ts start_time saved ns l)
          (fun _ => True).
Proof.
  induction ns as [ | n rest IH ]; intros Hns l Hl; cbn [packets_for].
  - now apply keeps_ret.
  - inversion Hns as [ | ? ? Hn Hrest ]; subst.
    eapply keeps_bind; [ apply packet_step_keeps; [ exact Hl | exact Hn ] | ].
    intros [l' | l' | ] Hr; try now apply keeps_ret.
    apply IH; [ exact Hrest | exact Hr ].
Qed.

(** A call whose window starts at the first byte of the file, on a cursor
    that records no position yet. *)
Lemma extract_data_keeps (end_time : float) (nof_prev : Z) (s : state) :
  get (last_index (cur s)) 0 = 0 -> get (is_same_dps (cur s)) false = false ->
  I (cur (snd (extract_data file nof_data_packet cmplt_pkt_size data_packet_size
                            frame_data_size frame_stamp_size 0 read_start read_end
                            last_timestamp odr_ s_samples_per_ts start_time
                            end_time nof_prev s))).
Proof.
  intros H0 Hsame.
  assert (Hs : I (cur s)) by (split; [ exact Hsame | now left ]).
  unfold extract_data, bind at 1.
  destruct (_ <? _); [ exact Hs | ]. cbn [ret].
  unfold bind at 1, read_cursor. rewrite H0. cbn [Z.eqb negb andb].
  unfold bind at 1. cbn [ret].
  match goal with
  | |- context [bind (packets_for ?a ?b ?c ?d ?e ?f ?g ?h ?i ?j ?k ?l ?m ?n ?o) ?K] =>
      pose proof (@keeps_bind _ _ I (packets_for a b c d e f g h i j k l m n o) K
                    (fun _ => True) (fun _ => True)) as Hk
  end.
  match type of Hk with
  | ?P -> ?Q -> _ => assert (HP : P); [ | assert (HQ : Q) ]
  end.
  { apply packets_for_keeps; [ | reflexivity ].
    eapply Forall_impl; [ | apply Forall_range ]. cbv beta. intros n Hn. lia. }
  { intros [l | ] _; now apply keeps_ret. }
  specialize (Hk HP HQ s Hs).
  match goal with
  | |- I (cur (snd ?x)) => destruct x as [[a | e] s1]
  end; cbn; tauto.
Qed.
End FirstCall.

Lemma keeps_bind_any {A B} (I : cursor -> Prop) (m : M A) (k : A -> M B)
      (G : B -> Prop) :
  keeps I m (fun _ => True) -> (forall a, keeps I (k a) G) -> keeps I (bind m k) G.
Proof. intros Hm Hk. eapply keeps_bind; [exact Hm | intros a _; apply Hk]. Qed.

Lemma keeps_lift_any {A} (I : cursor -> Prop) (r : result A) :
  keeps I (lift r) (fun _ => True).
Proof. apply keeps_lift. intros; exact Logic.I. Qed.

Lemma keeps_run {A} (I : cursor -> Prop) (m : M A) (G : A -> Prop) (s : state) :
  keeps I m G -> I (cur s) -> I (cur (snd (m s))).
Proof.
  intros Hm Hs. specialize (Hm s Hs). destruct (m s) as [[a | e] s1]; cbn; tauto.
Qed.

Lemma keeps_after {A B} (I : cursor -> Prop) (m : M A) (k : A -> M B)
      (G : B -> Prop) (s : state) :
  I (cur (snd (m s))) -> (forall a, keeps I (k a) G) -> I (cur (snd (bind m k s))).
Proof.
  intros Hm Hk. unfold bind. destruct (m s) as [[a | e] s1]; cbn in *; [| exact Hm].
  exact (keeps_run I (k a) G s1 (Hk a) Hm).
Qed.

(** The steps of a computation that writes the cursor only in fields that
    the property does not read. *)
Ltac keeps_auto :=
  repeat first
    [ apply keeps_ret; exact Logic.I
    | apply keeps_raise
    | apply keeps_lift_any
    | apply keeps_read_cursor
    | apply keeps_log_warning
    | keeps_field
    | apply keeps_bind_any; [| intros]
    | match goal with
      | |- keeps _ (match ?x with _ => _ end) _ => destruct x
      end ].

Lemma log_warnings_keeps (I : cursor -> Prop) (ws : list warning) :
  keeps I (fold_right (fun w k => log_warning w ;;; k) (ret tt) ws) (fun _ => True).
Proof. induction ws as [| w ws IH]; cbn [fold_right]; keeps_auto. exact IH. Qed.

Section Decoder.
Variable check_type_length : string -> Z.
Variable get_np_dtype : string -> np_dtype.
Variable int24_buffer_to_int32_buffer : list Z -> list Z.
Variable checkTimestamps : bool.
Variables (cmplt_pkt_size nof_data_packet : Z).

Lemma assign_sample_times_keeps frame_period spts num_frames start_time prev_timestamp
      timestamps s_data :
  keeps (positioned cmplt_pkt_size nof_data_packet)
        (assign_sample_times frame_period spts num_frames start_time prev_timestamp
                             timestamps s_data) (fun _ => True).
Proof. unfold assign_sample_times. cbv zeta. keeps_auto. Qed.

Lemma process_datalog_keeps name ss raw dfs tbs raw_flag start_time prev_timestamp :
  keeps (positioned cmplt_pkt_size nof_data_packet)
        (process_datalog check_type_length get_np_dtype int24_buffer_to_int32_buffer
                         checkTimestamps name ss raw dfs tbs raw_flag start_time
                         prev_timestamp) (fun _ => True).
Proof.
  unfold process_datalog. cbv zeta.
  repeat first
    [ apply log_warnings_keeps
    | apply assign_sample_times_keeps
    | apply keeps_ret; exact Logic.I
    | apply keeps_raise
    | apply keeps_lift_any
    | apply keeps_read_cursor
    | apply keeps_bind_any; [ | intros ]
    | match goal with
      | |- keeps _ (match ?x with _ => _ end) _ => destruct x
      end ].
Qed.
End Decoder.

(** ** The window that starts at time 0 *)

Lemma mul_zero_class (o : float) :
  Prim2SF (o * 0)%float = S754_nan \/ exists sg, Prim2SF (o * 0)%float = S754_zero sg.
Proof.
  rewrite mul_spec. change (Prim2SF 0%float) with (S754_zero false).
  destruct (Prim2SF o) as [sg | sg | | sg m e]; cbn; eauto.
Qed.

Lemma py_floor_mul_zero (o : float) (z : Z) : py_floor (o * 0)%float = Ok z -> z = 0.
Proof.
  unfold py_floor, float_floor.
  destruct (mul_zero_class o) as [H | [sg H]]; rewrite H.
  - destruct (is_nan _); discriminate.
  - intros E. now inversion E.
Qed.

Lemma py_int_mul_zero (o : float) (z : Z) : py_int (o * 0)%float = Ok z -> z = 0.
Proof.
  unfold py_int, float_trunc.
  destruct (mul_zero_class o) as [H | [sg H]]; rewrite H.
  - destruct (is_nan _); discriminate.
  - intros E. now inversion E.
Qed.

Lemma rbind_Ok {A B} (r : result A) (k : A -> result B) (b : B) :
  rbind r k = Ok b -> exists a, r = Ok a /\ k a = Ok b.
Proof. destruct r as [a | e]; cbn; [eauto | discriminate]. Qed.

Lemma sensor_window_at_zero ss fs dps nof s_dim s_len spts end_time w :
  sensor_window ss fs dps nof s_dim s_len spts 0%float end_time = Ok (Some w) ->
  start_idx w = 0 /\ nof_timestamps_in_start w = 0.
Proof.
  unfold sensor_window. cbv zeta. intros H.
  apply rbind_Ok in H as (frames_in_file & _ & H).
  apply rbind_Ok in H as (tot & _ & H).
  apply rbind_Ok in H as (z & Hz & H). apply py_floor_mul_zero in Hz. subst z.
  apply rbind_Ok in H as (rg & Hrg & H).
  assert (Hnof : match rg with Some (k, _, _) => k = 0 | None => True end).
  { destruct (negb (spts =? 0)).
    - inversion Hrg. apply Zdiv_0_l.
    - apply rbind_Ok in Hrg as (e0 & _ & Hrg).
      apply rbind_Ok in Hrg as (z & Hz & Hrg).
      destruct (_ <=? _); inversion Hrg; auto. }
  destruct rg as [[[k rs] re] |]; [| discriminate]. subst k.
  apply rbind_Ok in H as (q & Hq & H).
  unfold floordiv in Hq. destruct (dps =? 0); [discriminate |].
  injection Hq as Hq.
  assert (Hq0 : q = 0).
  { rewrite <- Hq. apply Zdiv_0_l. }
  subst q. injection H as H. subst w. cbn.
  split; [| reflexivity]. destruct (negb (spts =? 0)); lia.
Qed.

Section FirstCallOfTheEngine.
Variable check_type_length : string -> Z.
Variable get_np_dtype : string -> np_dtype.
Variable int24_buffer_to_int32_buffer : list Z -> list Z.
Variable checkTimestamps : bool.

Let sensor := batch_sensor check_type_length get_np_dtype int24_buffer_to_int32_buffer
                           checkTimestamps.

Lemma fresh_positioned (c nof : Z) (s : state) :
  get (last_index (cur s)) 0 = 0 -> get (is_same_dps (cur s)) false = false ->
  positioned c nof (cur s).
Proof. intros H0 Hsame. split; [ exact Hsame | now left ]. Qed.

Lemma batch_sensor_positioned acq fuel name ss file dps cmplt nof s_dim s_len spts
      end_time raw_flag (s : state) :
  0 <= nof ->
  get (last_index (cur s)) 0 = 0 -> get (is_same_dps (cur s)) false = false ->
  positioned cmplt nof
             (cur (snd (sensor acq fuel name ss file dps cmplt nof s_dim s_len spts
                               0%float end_time raw_flag s))).
Proof.
  intros Hnof H0 Hsame. pose proof (fresh_positioned cmplt nof s H0 Hsame) as Hs.
  unfold sensor, batch_sensor. unfold bind at 1, lift.
  destruct (sensor_window _ _ _ _ _ _ _ _ _) as [[w | ] | e] eqn:Hw; [ | exact Hs .. ].
  apply sensor_window_at_zero in Hw as [Hidx Hnofts].
  destruct (fgt _ _); [ exact Hs | ].
  rewrite Hidx, Hnofts. unfold locate_window. cbn [Z.max Z.sub Z.add Z.opp Z.compare
    Z.pos_sub Z.eqb negb].
  eapply keeps_after with (G := fun _ => True).
  - eapply keeps_after with (G := fun _ => True).
    + apply extract_data_keeps; assumption.
    + intros r. now apply keeps_ret.
  - intros [raw prev].
    apply keeps_bind_any; [ apply process_datalog_keeps | ]. intros r.
    apply keeps_bind_any; [ apply keeps_read_cursor | ]. intros cs.
    apply keeps_bind_any; [ | intros; now apply keeps_ret ].
    destruct (last_index cs); [ now apply keeps_ret | ].
    apply keeps_position; [ lia | ]. right.
    exists (nof + 1). split; [ lia | now right ].
Qed.
Lemma batch_sensor_records acq fuel name ss file dps cmplt nof s_dim s_len spts
      start_time end_time raw_flag (s s' : state) (a : ndarray) (ts : list float) :
  sensor acq fuel name ss file dps cmplt nof s_dim s_len spts start_time end_time
         raw_flag s = (Ok (Extracted (Array a) ts), s') ->
  exists li, last_index (cur s') = Some li.
Proof.
  unfold sensor, batch_sensor. intros H.
  apply bind_Ok in H as (w & s1 & _ & H).
  destruct w as [w |]; [| discriminate].
  destruct (fgt _ _); [discriminate |].
  apply bind_Ok in H as ([raw prev] & s2 & _ & H).
  apply bind_Ok in H as (r & s3 & _ & H).
  apply bind_Ok in H as (cs & s4 & Hcs & H).
  apply bind_Ok in H as ([] & s5 & Hpos & H).
  unfold ret in H. unfold read_cursor in Hcs.
  inversion H; subst. inversion Hcs; subst. clear H Hcs.
  destruct (last_index (cur s4)) as [li |] eqn:Hli;
    cbn in Hpos; inversion Hpos; subst; cbn; eauto.
Qed.
End FirstCallOfTheEngine.

(** Claim C4, amended.  After a call that asks for a window starting at
    time 0 on a cursor that records no position yet ([last_index] absent
    or 0, [is_same_dps] not set), the payload size being no negative
    number, whether the call returns or raises: [last_index] is still
    absent or 0, or [missing_bytes] records a number [mb >= 0] of bytes left
    over and, for a number [n] of packets between 1 and the number of whole
    packets of the file plus 1, [last_index] is [n] times the complete packet
    size (payload plus the 4 bytes of the counter), or that boundary minus
    [mb].  When a Sensor's call returns an array, [last_index] is
    recorded. *)
Theorem C4_first_call_position
        (check_type_length : string -> Z) (get_np_dtype : string -> np_dtype)
        (int24_buffer_to_int32_buffer : list Z -> list Z) (checkTimestamps : bool)
        (acq : acquisition) (fuel : nat) (comp_name : string) (comp_status : descriptor)
        (end_time : float) (raw_flag : bool) (s : state) (data_packet_size : Z) :
  get (last_index (cur s)) 0 = 0 ->
  get (is_same_dps (cur s)) false = false ->
  transport_packet_size acq comp_status = Ok data_packet_size ->
  0 <= data_packet_size ->
  let cmplt_pkt_size := data_packet_size + data_protocol_size in
  let run := get_data_and_timestamps_batch check_type_length get_np_dtype
               int24_buffer_to_int32_buffer checkTimestamps acq fuel comp_name
               comp_status 0 end_time raw_flag s in
  (get (last_index (cur (snd run))) 0 = 0
   \/ exists file n mb,
        dat_file acq = Some file
        /\ 1 <= n <= len file / cmplt_pkt_size + 1
        /\ 0 <= mb
        /\ missing_bytes (cur (snd run)) = Some mb
        /\ (last_index (cur (snd run)) = Some (n * cmplt_pkt_size)
            \/ last_index (cur (snd run)) = Some (n * cmplt_pkt_size - mb)))
  /\ (c_type comp_status = Some SENSOR ->
      forall a ts, fst run = Ok (Extracted (Array a) ts) ->
                   exists li, last_index (cur (snd run)) = Some li).
Proof.
  intros H0 Hsame Hdps Hpos cmplt_pkt_size run.
  split.
  - assert (Hnof : forall file : list Z, 0 <= len file / cmplt_pkt_size).
    { intros file. apply Z.div_pos; [ apply len_nonneg | ].
      unfold cmplt_pkt_size, data_protocol_size. lia. }
    assert (H : match dat_file acq with
                | None => get (last_index (cur (snd run))) 0 = 0
                | Some file =>
                    positioned cmplt_pkt_size (len file / cmplt_pkt_size) (cur (snd run))
                end).
    { destruct (dat_file acq) as [ file | ] eqn:Hfile; subst run;
        unfold get_data_and_timestamps_batch;
        unfold bind at 1, lift at 1; rewrite Hdps;
        unfold bind at 1, lift at 1; rewrite Hfile; [ | exact H0 ].
      pose proof (fresh_positioned cmplt_pkt_size (len file / cmplt_pkt_size) s H0 Hsame)
        as Hs.
      unfold bind at 1, lift at 1. unfold floordiv. fold cmplt_pkt_size.
      destruct (cmplt_pkt_size =? 0); [ exact Hs | ].
      cbv zeta.
      destruct (c_type comp_status) as [ [ | | ] | ].
      + now apply batch_sensor_positioned.
      + destruct (algo_type comp_status) as [ [] | ];
          (eapply keeps_run with (G := fun _ => True); [ | exact Hs ]);
          unfold read_whole_file;
          repeat first
            [ apply process_datalog_keeps
            | apply keeps_ret; exact I
            | apply keeps_raise
            | apply keeps_lift_any
            | apply keeps_bind_any; [ | intros ]
            | match goal with
              | |- keeps _ (match ?x with _ => _ end) _ => destruct x
              end ].
      + destruct (odr comp_status).
        * now apply batch_sensor_positioned.
        * (eapply keeps_run with (G := fun _ => True); [ | exact Hs ]);
          unfold read_whole_file;
          repeat first
            [ apply process_datalog_keeps
            | apply keeps_ret; exact I
            | apply keeps_raise
            | apply keeps_lift_any
            | apply keeps_bind_any; [ | intros ]
            | match goal with
              | |- keeps _ (match ?x with _ => _ end) _ => destruct x
              end ].
      + exact Hs. }
    destruct (dat_file acq) as [ file | ]; [ | now left ].
    destruct H as [_ [ H | (n & mb & Hn & Hmb & Hm & Hli) ]]; [ now left | right ].
    exists file, n, mb. auto.
  - intros Hsensor a ts Hrun. subst run.
    destruct (get_data_and_timestamps_batch _ _ _ _ _ _ _ _ _ _ _ s) as [r s'] eqn:E.
    cbn in Hrun. subst r. cbn [snd].
    unfold get_data_and_timestamps_batch in E. rewrite Hsensor in E.
    apply bind_Ok in E as (dps & s1 & _ & E).
    apply bind_Ok in E as (file & s2 & _ & E).
    apply bind_Ok in E as (nof & s3 & _ & E).
    eapply batch_sensor_records. exact E.
Qed.

(** The window [0, 1.5) of one packet of four samples: one packet is
    read, three bytes are left over and [last_index] is 1 * 8 - 3. *)
Lemma C4_first_call_position_witness :
  let file := [0; 0; 0; 0; 10; 20; 30; 40] in
  let run := run_batch false (usb_acquisition 4 file) "acc"
                       plain_sensor 0 0x1.8p+0 true (start_state fresh_cursor) in
  exists n,
    1 <= n <= len file / 8 + 1
    /\ missing_bytes (cur (snd run)) = Some 3
    /\ last_index (cur (snd run)) = Some (n * 8 - 3).
Proof.
  cbv zeta.
  destruct (C4_first_call_position type_length type_dtype widen_int24 false
              (usb_acquisition 4 [0; 0; 0; 0; 10; 20; 30; 40]) 1000 "acc" plain_sensor
              0x1.8p+0 true (start_state fresh_cursor) 4 eq_refl eq_refl eq_refl
              ltac:(lia)) as [H _].
  cbv zeta in H. fold (run_batch false (usb_acquisition 4 [0; 0; 0; 0; 10; 20; 30; 40])
                                 "acc" plain_sensor 0 0x1.8p+0 true) in H.
  assert (Eli : last_index (cur (snd (run_batch false
                  (usb_acquisition 4 [0; 0; 0; 0; 10; 20; 30; 40]) "acc" plain_sensor
                  0 0x1.8p+0 true (start_state fresh_cursor)))) = Some 5)
    by (vm_compute; reflexivity).
  assert (Emb : missing_bytes (cur (snd (run_batch false
                  (usb_acquisition 4 [0; 0; 0; 0; 10; 20; 30; 40]) "acc" plain_sensor
                  0 0x1.8p+0 true (start_state fresh_cursor)))) = Some 3)
    by (vm_compute; reflexivity).
  rewrite Eli, Emb in H. rewrite Eli, Emb.
  destruct H as [ H | (file & n & mb & Hf & Hn & Hmb & Hm & Hli) ];
    [ discriminate H | ].
  injection Hf as <-. injection Hm as <-. exists n.
  change (4 + data_protocol_size) with 8 in *.
  split; [ exact Hn | ]. split; [ reflexivity | ].
  destruct Hli as [ Hli | Hli ]; [ | exact Hli ].
  injection Hli as Hli. lia.
Defined.

(** C4 as the claim states it. *)
Definition C4_as_stated : Prop :=
  forall check_type_length get_np_dtype int24_buffer_to_int32_buffer checkTimestamps
         acq fuel comp_name comp_status start_time end_time raw_flag s data_packet_size,
    transport_packet_size acq comp_status = Ok data_packet_size ->
    match last_index
            (cur (snd (get_data_and_timestamps_batch check_type_length get_np_dtype
                         int24_buffer_to_int32_buffer checkTimestamps acq fuel
                         comp_name comp_status start_time end_time raw_flag s))) with
    | None => True
    | Some li => li = 0 \/ li mod (data_packet_size + data_protocol_size) = 0
    end.

(** Eight frames of one [uint8] sample stamped 1.0 to 8.0, two to a
    packet of 18 payload bytes, and the first five bytes of a fifth
    packet, as in a file that is still being written. *)
Definition interrupted_file : list Z :=
  [0; 0; 0; 0;   10; 0; 0; 0; 0; 0; 0; 240; 63;  20; 0; 0; 0; 0; 0; 0; 0; 64;
   18; 0; 0; 0;  30; 0; 0; 0; 0; 0; 0; 8; 64;    40; 0; 0; 0; 0; 0; 0; 16; 64;
   36; 0; 0; 0;  50; 0; 0; 0; 0; 0; 0; 20; 64;   60; 0; 0; 0; 0; 0; 0; 24; 64;
   54; 0; 0; 0;  70; 0; 0; 0; 0; 0; 0; 28; 64;   80; 0; 0; 0; 0; 0; 0; 32; 64;
   72; 0; 0; 0;  90].

(** One packet of eight bytes holds four samples of a 1 Hz sensor.  The
    window [0, 1.5) ends after the first sample: the three bytes left over
    are recorded in [missing_bytes] and [last_index] is 8 - 3 = 5, which is
    no packet boundary.  Outside of a first call from time 0 not even
    [last_index + missing_bytes] is one.  On [interrupted_file], packets of
    22 bytes, the call for [0, 3) leaves the position 35 with 9 bytes
    left over, and the call that resumes from there meets the cut packet:
    it returns nothing and leaves the position 35 with [missing_bytes] 0
    (line 1022).  A first call that starts at time 49 finds its start
    index 519 beyond the file and records it (line 1000).  And a cursor
    without position whose [is_same_dps] is set is left at -3 by the window
    [0, 1.5) of the first file. *)
Lemma C4_counterexample :
  (let run := run_batch false (usb_acquisition 4 [0; 0; 0; 0; 10; 20; 30; 40]) "acc"
                        plain_sensor 0 0x1.8p+0 true (start_state fresh_cursor) in
   fst run = Ok (Extracted (Array (mk_ndarray np_uint8 [[SInt 10]])) [1%float])
   /\ last_index (cur (snd run)) = Some 5
   /\ missing_bytes (cur (snd run)) = Some 3)
  /\ (let acq := usb_acquisition 9 interrupted_file in
      let first := run_batch false acq "acc" (framed_sensor 1 1 18) 0 3 true
                             (start_state fresh_cursor) in
      let second := run_batch false acq "acc" (framed_sensor 1 1 18) 3 (-1) true
                              (snd first) in
      last_index (cur (snd first)) = Some 35
      /\ missing_bytes (cur (snd first)) = Some 9
      /\ fst second = Ok (Extracted EmptyList [])
      /\ last_index (cur (snd second)) = Some 35
      /\ missing_bytes (cur (snd second)) = Some 0
      /\ 35 mod 22 = 13)
  /\ (let run := run_batch false (usb_acquisition 100 interrupted_file) "acc"
                           (framed_sensor 1 1 18) 49 (-1) true
                           (start_state fresh_cursor) in
      fst run = Ok (Extracted EmptyList [])
      /\ last_index (cur (snd run)) = Some 519
      /\ missing_bytes (cur (snd run)) = Some 0
      /\ 519 mod 22 = 13)
  /\ (let run := run_batch false (usb_acquisition 4 [0; 0; 0; 0; 10; 20; 30; 40]) "acc"
                           plain_sensor 0 0x1.8p+0 true
                           (start_state (mk_cursor None None None None None (Some true)
                                                   None)) in
      last_index (cur (snd run)) = Some (-3)
      /\ missing_bytes (cur (snd run)) = Some 3)
  /\ ~ C4_as_stated.
Proof.
  split; [ cbv zeta; repeat split; vm_compute; reflexivity | ].
  split; [ cbv zeta; repeat split; vm_compute; reflexivity | ].
  split; [ cbv zeta; repeat split; vm_compute; reflexivity | ].
  split; [ cbv zeta; repeat split; vm_compute; reflexivity | ].
  intros H.
  specialize (H type_length type_dtype widen_int24 false
                (usb_acquisition 4 [0; 0; 0; 0; 10; 20; 30; 40]) 1000%nat "acc"
                plain_sensor 0%float 0x1.8p+0%float true (start_state fresh_cursor) 4
                eq_refl).
  vm_compute in H. destruct H as [ H | H ]; discriminate H.
Qed.

(** ** The start of the window (claim C3) *)

(** A frame of the raw window whose embedded timestamp is after
    [start_time], and a window made of such frames. *)
Definition stamped_after (dfs tbs : Z) (start_time : float) (frame : list Z) : Prop :=
  len frame = dfs + tbs /\
  exists t, unpack_double (py_slice frame dfs (dfs + tbs)) = Ok t /\
            fgt t start_time = true.

Definition frames_after (dfs tbs : Z) (start_time : float) (raw : list Z) : Prop :=
  exists frames, raw = List.concat frames /\
                 Forall (stamped_after dfs tbs start_time) frames.

Lemma frames_after_nil (dfs tbs : Z) (start_time : float) :
  frames_after dfs tbs start_time [].
Proof. exists []. split; [reflexivity | constructor]. Qed.

Lemma frames_after_app (dfs tbs : Z) (start_time : float) (raw frame : list Z) :
  frames_after dfs tbs start_time raw -> stamped_after dfs tbs start_time frame ->
  frames_after dfs tbs start_time (raw ++ frame).
Proof.
  intros (frames & -> & Hall) Hf. exists (frames ++ [frame]). split.
  - rewrite concat_app. cbn. now rewrite app_nil_r.
  - apply Forall_app. split; [exact Hall | now constructor].
Qed.

Lemma first_frame (dfs tbs : Z) (chest : list Z) :
  0 <= dfs -> 0 <= tbs -> dfs + tbs <= len chest ->
  len (slice_to chest (dfs + tbs)) = dfs + tbs /\
  py_slice (slice_to chest (dfs + tbs)) dfs (dfs + tbs) = py_slice chest dfs (dfs + tbs).
Proof.
  intros Hd Ht Hle. rewrite slice_to_firstn by lia.
  assert (Hlen : len (firstn (Z.to_nat (dfs + tbs)) chest) = dfs + tbs).
  { unfold len in *. rewrite length_firstn. lia. }
  split; [exact Hlen |].
  rewrite !py_slice_block by lia. unfold block.
  rewrite skipn_firstn_comm, firstn_firstn. f_equal. lia.
Qed.

(** [halts m]: the computation [m] ends within the fuel it is given. *)
Definition halts {A} (m : M A) : Prop :=
  forall s, fst (m s) <> Raise NonTermination.

Lemma halts_ret {A} (a : A) : halts (ret a).
Proof. intros s. discriminate. Qed.

Lemma halts_raise {A} (e : exn) : e <> NonTermination -> halts (@raise A e).
Proof. intros He s. cbn. congruence. Qed.

Lemma halts_lift {A} (r : result A) : r <> Raise NonTermination -> halts (lift r).
Proof. intros Hr s. exact Hr. Qed.

Lemma halts_bind {A B} (m : M A) (k : A -> M B) :
  halts m -> (forall a, halts (k a)) -> halts (bind m k).
Proof.
  intros Hm Hk s. unfold bind. specialize (Hm s).
  destruct (m s) as [[a | e] s1]; [apply Hk |].
  cbn in *. intros E. apply Hm. congruence.
Qed.

Lemma halts_read_cursor : halts read_cursor.
Proof. intros s. discriminate. Qed.

Lemma halts_update_cursor (f : cursor -> cursor) : halts (update_cursor f).
Proof. intros s. discriminate. Qed.

Lemma halts_log_warning (w : warning) : halts (log_warning w).
Proof. intros s. discriminate. Qed.

Lemma seek_read_halts (file : list Z) (i k : Z) :
  seek_read file i k <> Raise NonTermination.
Proof. unfold seek_read. repeat destruct (_ <? _); try destruct (_ =? _); discriminate. Qed.

Lemma unpack_uint32_halts (bs : list Z) : unpack_uint32 bs <> Raise NonTermination.
Proof. unfold unpack_uint32. destruct (_ =? _); discriminate. Qed.

Lemma unpack_double_halts (bs : list Z) : unpack_double bs <> Raise NonTermination.
Proof. unfold unpack_double. destruct (_ =? _); discriminate. Qed.

Lemma py_div_halts (a b : float) : py_div a b <> Raise NonTermination.
Proof. unfold py_div. destruct (_ =? _)%float; discriminate. Qed.

Lemma ceildiv_halts (a b : Z) : ceildiv a b <> Raise NonTermination.
Proof. unfold ceildiv. destruct (_ =? _); discriminate. Qed.

Lemma item_halts {A} (o : option A) : item o <> Raise NonTermination.
Proof. destruct o; discriminate. Qed.

Ltac halts_auto :=
  repeat first
    [ apply halts_ret
    | apply halts_raise; discriminate
    | apply halts_read_cursor
    | apply halts_update_cursor
    | apply halts_log_warning
    | apply halts_lift;
      first [ apply seek_read_halts | apply unpack_uint32_halts | apply unpack_double_halts
            | apply py_div_halts | apply ceildiv_halts | apply item_halts ]
    | apply halts_bind; [| intros]
    | match goal with
      | |- halts (match ?x with _ => _ end) => destruct x
      end ].

Lemma keeps_read_cursor_inv (I : cursor -> Prop) : keeps I read_cursor I.
Proof. intros s Hs. cbn. auto. Qed.

Section WindowStart.
Variable file : list Z.
Variables (nof_data_packet cmplt_pkt_size data_packet_size : Z).
Variables (frame_data_size frame_stamp_size : Z).
Variables (first_byte read_start read_end : Z).
Variables (last_timestamp odr_ : float) (s_samples_per_ts : Z).
Variable start_time : float.
Variable first_chunk : option bool.

Hypothesis frame_data_size_nonneg : 0 <= frame_data_size.
Hypothesis frame_stamp_size_pos : 0 < frame_stamp_size.

Let flag (c : cursor) : Prop := is_first_chunk c = first_chunk.
Let after := frames_after frame_data_size frame_stamp_size start_time.
Let good (l : locals) : Prop :=
  after (raw_data_array l) /\
  (get first_chunk false = false -> l_prev_timestamp l = None).
Let extract :=
  extract_data file nof_data_packet cmplt_pkt_size data_packet_size frame_data_size
               frame_stamp_size first_byte read_start read_end last_timestamp odr_
               s_samples_per_ts start_time.
Let locate :=
  locate_window file nof_data_packet cmplt_pkt_size data_packet_size frame_data_size
                frame_stamp_size first_byte read_start read_end last_timestamp odr_
                s_samples_per_ts start_time.
Let back :=
  look_back file nof_data_packet cmplt_pkt_size data_packet_size frame_data_size
            frame_stamp_size first_byte read_start read_end last_timestamp odr_
            s_samples_per_ts start_time.

Ltac flag_field := apply keeps_update_cursor; intros [] Hc; exact Hc.

Lemma save_position_flag (n : Z) (l : locals) (unused saved : Z) :
  keeps flag (save_position cmplt_pkt_size n l unused saved) (fun _ => True).
Proof.
  unfold save_position.
  eapply keeps_bind; [apply keeps_read_cursor |]. intros cs _.
  eapply keeps_bind with (G := fun _ => True).
  { destruct (get (is_same_dps cs) false).
    - eapply keeps_bind; [flag_field |]. intros _ _. now apply keeps_ret.
    - now apply keeps_ret. }
  intros bp _.
  eapply keeps_bind; [flag_field |]. intros _ _.
  eapply keeps_bind; [flag_field |]. intros _ _. flag_field.
Qed.

Lemma read_packet_flag (saved n : Z) (l : locals) :
  good l ->
  keeps flag (read_packet file cmplt_pkt_size saved n l)
        (fun r => match r with
                  | Next (l1, _, _) => good l1 /\ byte_chest l1 = byte_chest l
                  | _ => True
                  end).
Proof.
  intros Hl. unfold read_packet.
  destruct (negb _).
  - destruct (_ && _).
    + eapply keeps_bind; [apply keeps_lift_any |]. intros raw _.
      eapply keeps_bind; [flag_field |]. intros _ _.
      destruct (_ <? _); [now apply keeps_ret |].
      eapply keeps_bind; [flag_field |]. intros _ _. apply keeps_ret. now split.
    + eapply keeps_bind; [apply keeps_lift_any |]. intros raw _.
      eapply keeps_bind; [flag_field |]. intros _ _.
      destruct (_ <? _); [now apply keeps_ret |].
      eapply keeps_bind; [flag_field |]. intros _ _. apply keeps_ret. now split.
  - eapply keeps_bind; [apply keeps_lift_any |]. intros raw _.
    destruct (_ <? _); apply keeps_ret; auto.
Qed.

Lemma check_counter_flag (n : Z) (counter_bytes : list Z) :
  keeps flag (check_counter data_packet_size n counter_bytes) (fun _ => True).
Proof.
  unfold check_counter.
  eapply keeps_bind; [apply keeps_lift_any |]. intros counter _.
  eapply keeps_bind; [apply keeps_read_cursor |]. intros cs _.
  destruct (prev_data_byte_counter cs) as [prev |].
  - destruct (negb _).
    + destruct (_ && _); [| apply keeps_raise].
      eapply keeps_bind; [apply keeps_log_warning |]. intros _ _.
      eapply keeps_bind; [apply keeps_log_warning |]. intros _ _.
      now apply keeps_ret.
    + eapply keeps_bind; [flag_field |]. intros _ _. now apply keeps_ret.
  - eapply keeps_bind; [flag_field |]. intros _ _. now apply keeps_ret.
Qed.

Lemma note_first_frame_flag (t : float) (pop : bool) (l : locals) :
  good l ->
  keeps flag (note_first_frame start_time t pop l)
        (fun r => good (snd r) /\ byte_chest (snd r) = byte_chest l).
Proof.
  intros Hl. unfold note_first_frame.
  eapply keeps_bind; [apply keeps_read_cursor_inv |]. intros cs Hcs.
  unfold flag in Hcs.
  destruct (l_prev_timestamp l) eqn:Hp; [apply keeps_ret; now split |].
  rewrite Hcs.
  destruct (get first_chunk false) eqn:Hfc; [| apply keeps_ret; now split].
  assert (Hgood : forall p, good (with_prev p l)).
  { intros p. split; [apply Hl | discriminate]. }
  assert (Hflagged : forall p, good (with_flag (with_prev p l))).
  { intros p. split; [apply Hl | discriminate]. }
  destruct (fgt t start_time).
  - destruct (l_last_index l =? 0); [apply keeps_ret; split; [apply Hgood | reflexivity] |].
    eapply keeps_bind with (G := fun _ => True).
    { destruct pop; [flag_field | now apply keeps_ret]. }
    intros _ _. apply keeps_ret. split; [apply Hflagged | reflexivity].
  - apply keeps_ret. split; [apply Hgood | reflexivity].
Qed.

Lemma frames_while_flag (fuel : nat) :
  forall (n : Z) (ets : option float) (l : locals),
    good l ->
    keeps flag (frames_while nof_data_packet cmplt_pkt_size frame_data_size
                             frame_stamp_size start_time fuel n ets l)
          (fun r => good (snd r)).
Proof.
  induction fuel as [| fuel IH]; intros n ets l Hl; cbn [frames_while].
  - destruct (_ <? _); [now apply keeps_ret | apply keeps_raise].
  - destruct (_ <? _) eqn:Hroom; [now apply keeps_ret |].
    apply Z.ltb_ge in Hroom. unfold byte_chest_index in Hroom.
    eapply keeps_bind; [apply keeps_lift; intros t Ht; exact Ht |]. intros t Ht.
    destruct (fgt t start_time) eqn:Hafter.
    + eapply keeps_bind with (G := fun _ => True).
      { destruct (_ <=? _); [now apply keeps_ret | apply keeps_raise]. }
      intros _ _.
      set (l1 := with_raw _ l).
      assert (Hl1 : good l1).
      { split; [| apply Hl]. cbn. apply frames_after_app; [apply Hl |].
        destruct (first_frame frame_data_size frame_stamp_size (byte_chest l))
          as [Hlen Hslice]; try lia.
        split; [exact Hlen |]. exists t. now rewrite Hslice. }
      destruct (_ && _).
      * eapply keeps_bind; [apply note_first_frame_flag; exact Hl1 |].
        intros [leave l2] [Hl2 _]. cbn in Hl2.
        destruct leave; [now apply keeps_ret |].
        eapply keeps_bind; [apply save_position_flag |]. intros _ _.
        apply keeps_ret. exact Hl2.
      * eapply keeps_bind; [apply note_first_frame_flag; exact Hl1 |].
        intros [leave l2] [Hl2 _]. cbn in Hl2.
        destruct leave; [now apply keeps_ret |].
        apply IH. exact Hl2.
    + eapply keeps_bind; [apply keeps_read_cursor_inv |]. intros cs Hcs.
      unfold flag in Hcs. rewrite Hcs. apply keeps_ret. cbn.
      destruct (get first_chunk false) eqn:Hfc.
      * split; [apply Hl | discriminate].
      * exact Hl.
Qed.

Definition flow_good (P : locals -> Prop) (r : flow locals) : Prop :=
  match r with
  | Next l' | Break l' => P l'
  | Return _ => True
  end.

Lemma packet_step_flag (saved n : Z) (l : locals) :
  good l ->
  keeps flag (packet_step file nof_data_packet cmplt_pkt_size data_packet_size
                          frame_data_size frame_stamp_size read_start read_end
                          last_timestamp odr_ s_samples_per_ts start_time saved n l)
        (flow_good good).
Proof.
  intros Hl. unfold packet_step.
  destruct (_ <=? _).
  { eapply keeps_bind; [flag_field |]. intros _ _.
    eapply keeps_bind; [flag_field |]. intros _ _.
    eapply keeps_bind; [flag_field |]. intros _ _. now apply keeps_ret. }
  eapply keeps_bind; [apply read_packet_flag; exact Hl |].
  intros [[[l1 data_bytes] counter_bytes] | ? |] Hr; try now apply keeps_ret.
  destruct Hr as [Hl1 _].
  eapply keeps_bind with (G := fun _ => True).
  { destruct (skip_counter_check l1); [now apply keeps_ret | apply check_counter_flag]. }
  intros [[] | [] |] _; try now apply keeps_ret.
  eapply keeps_bind with (G := fun _ => True).
  { destruct (_ <=? _); [now apply keeps_ret | apply keeps_raise]. }
  intros _ _.
  set (l2 := with_chest _ _ l1).
  assert (Hl2 : good l2) by exact Hl1.
  replace (frame_stamp_size =? 0) with false by (symmetry; apply Z.eqb_neq; lia).
  eapply keeps_bind; [apply frames_while_flag; exact Hl2 |].
  intros [ets l3] Hl3. cbn in Hl3.
  eapply keeps_bind; [apply keeps_read_cursor |]. intros cs _.
  eapply keeps_bind with (G := fun _ => True).
  { destruct (last_index cs); [now apply keeps_ret |].
    destruct ets; [| now apply keeps_ret].
    eapply keeps_bind; [apply keeps_lift_any |]. intros. now apply keeps_ret. }
  intros [|] _.
  - eapply keeps_bind; [flag_field |]. intros _ _.
    eapply keeps_bind; [flag_field |]. intros _ _.
    eapply keeps_bind; [flag_field |]. intros _ _. apply keeps_ret. exact Hl3.
  - eapply keeps_bind with (G := fun _ => True).
    { destruct ets; [| now apply keeps_ret].
      destruct (_ && _); [| now apply keeps_ret].
      eapply keeps_bind; [apply keeps_lift_any |]. intros. now apply keeps_ret. }
    intros [|] _.
    + eapply keeps_bind; [flag_field |]. intros _ _.
      eapply keeps_bind; [flag_field |]. intros _ _.
      eapply keeps_bind; [flag_field |]. intros _ _. apply keeps_ret. exact Hl3.
    + apply keeps_ret. now destruct (end_time_flag l3).
Qed.

Lemma packets_for_flag (saved : Z) (ns : list Z) :
  forall l, good l ->
    keeps flag (packets_for file nof_data_packet cmplt_pkt_size data_packet_size
                            frame_data_size frame_stamp_size read_start read_end
                            last_timestamp odr_ s_samples_per_ts start_time saved ns l)
          (fun r => match r with Some l' => good l' | None => True end).
Proof.
  induction ns as [| n rest IH]; intros l Hl; cbn [packets_for].
  - now apply keeps_ret.
  - eapply keeps_bind; [apply packet_step_flag; exact Hl |].
    intros [l' | l' |] Hr; try now apply keeps_ret.
    apply IH. exact Hr.
Qed.

(** What one extraction returns: frames stamped after [start_time], and
    no first timestamp unless the cursor is flagged as a first chunk. *)
Definition window_good (r : buffer * option float) : Prop :=
  after (buffer_bytes (fst r)) /\ (get first_chunk false = false -> snd r = None).

Lemma extract_data_flag (end_time : float) (nof_prev : Z) :
  keeps flag (extract end_time nof_prev) window_good.
Proof.
  unfold extract, extract_data.
  eapply keeps_bind with (G := fun _ => True).
  { destruct (_ <? _); [apply keeps_raise | now apply keeps_ret]. }
  intros _ _.
  eapply keeps_bind; [apply keeps_read_cursor |]. intros cs _. cbv zeta.
  eapply keeps_bind with (G := fun _ => True).
  { destruct (_ && _); [| now apply keeps_ret].
    eapply keeps_bind; [apply keeps_lift_any |]. intros.
    eapply keeps_bind; [apply keeps_lift_any |]. intros. now apply keeps_ret. }
  intros [li mb] _.
  eapply keeps_bind.
  { apply packets_for_flag. split; [apply frames_after_nil | intros; reflexivity]. }
  intros [l |] Hr; apply keeps_ret.
  - exact Hr.
  - split; [apply frames_after_nil | intros; reflexivity].
Qed.

Definition window_stops (r : buffer * option float) : Prop :=
  after (buffer_bytes (fst r)) /\
  forall p, snd r = Some p -> fgt p start_time = false.

Lemma look_back_flag (fuel : nat) :
  forall (end_time : float) (k : Z) (r : buffer * option float),
    after (buffer_bytes (fst r)) ->
    keeps flag (back fuel end_time k r) window_stops.
Proof.
  induction fuel as [| fuel IH]; intros end_time k r Hr.
  - unfold back. cbn [look_back].
    destruct (snd r) as [p |] eqn:Hp; [| apply keeps_ret; split; [exact Hr | intros q Hq; congruence]].
    destruct (fgt p start_time) eqn:Hafter; [apply keeps_raise |].
    apply keeps_ret. split; [exact Hr |]. intros q Hq. congruence.
  - unfold back. cbn [look_back].
    destruct (snd r) as [p |] eqn:Hp; [| apply keeps_ret; split; [exact Hr | intros q Hq; congruence]].
    destruct (fgt p start_time) eqn:Hafter.
    + eapply keeps_bind; [apply extract_data_flag |].
      intros r' [Hr' _]. apply IH. exact Hr'.
    + apply keeps_ret. split; [exact Hr |]. intros q Hq. congruence.
Qed.
End WindowStart.

Section Halting.
Variable file : list Z.
Variables (nof_data_packet cmplt_pkt_size data_packet_size : Z).
Variables (frame_data_size frame_stamp_size : Z).
Variables (first_byte read_start read_end : Z).
Variables (last_timestamp odr_ : float) (s_samples_per_ts : Z).
Variable start_time : float.

Hypothesis frame_data_size_nonneg : 0 <= frame_data_size.
Hypothesis frame_stamp_size_pos : 0 < frame_stamp_size.

Lemma save_position_halts (n : Z) (l : locals) (unused saved : Z) :
  halts (save_position cmplt_pkt_size n l unused saved).
Proof. unfold save_position. halts_auto. Qed.

Lemma note_first_frame_then {B} (t : float) (pop : bool) (l : locals)
      (k : bool * locals -> M B) :
  (forall leave l2, byte_chest l2 = byte_chest l -> halts (k (leave, l2))) ->
  halts (bind (note_first_frame start_time t pop l) k).
Proof.
  intros Hk s. unfold note_first_frame, bind at 1, read_cursor. unfold bind at 1.
  destruct (l_prev_timestamp l); [now apply Hk |].
  destruct (get (is_first_chunk (cur s)) false); [| now apply Hk].
  destruct (fgt t start_time); [| now apply Hk].
  destruct (l_last_index l =? 0); [now apply Hk |].
  unfold bind at 1. destruct pop; cbn; now apply Hk.
Qed.

Lemma len_slice_from (chest : list Z) (k : Z) :
  0 <= k <= len chest -> len (slice_from chest k) = len chest - k.
Proof.
  intros Hk. rewrite slice_from_skipn by lia. unfold len in *.
  rewrite length_skipn. lia.
Qed.

Lemma frames_while_halts (fuel : nat) :
  forall (n : Z) (ets : option float) (l : locals),
    (Z.to_nat (byte_chest_index l) < fuel)%nat ->
    halts (frames_while nof_data_packet cmplt_pkt_size frame_data_size
                        frame_stamp_size start_time fuel n ets l).
Proof.
  induction fuel as [| fuel IH]; intros n ets l Hfuel; [lia |].
  cbn [frames_while].
  destruct (_ <? _) eqn:Hroom; [apply halts_ret |].
  apply Z.ltb_ge in Hroom. unfold byte_chest_index in *.
  apply halts_bind; [apply halts_lift, unpack_double_halts |]. intros t.
  destruct (fgt t start_time).
  - apply halts_bind; [destruct (_ <=? _); halts_auto |]. intros _.
    destruct (_ && _).
    + apply note_first_frame_then. intros leave l2 _.
      destruct leave; [apply halts_ret |].
      apply halts_bind; [apply save_position_halts | intros; apply halts_ret].
    + apply note_first_frame_then. intros leave l2 Hchest.
      destruct leave; [apply halts_ret |].
      apply IH. cbn. rewrite Hchest. cbn.
      rewrite len_slice_from by lia. lia.
  - halts_auto.
Qed.

Lemma packet_step_halts (saved n : Z) (l : locals) :
  halts (packet_step file nof_data_packet cmplt_pkt_size data_packet_size
                     frame_data_size frame_stamp_size read_start read_end
                     last_timestamp odr_ s_samples_per_ts start_time saved n l).
Proof.
  unfold packet_step, read_packet, check_counter, save_position.
  halts_auto.
  apply frames_while_halts. lia.
Qed.

Lemma packets_for_halts (saved : Z) (ns : list Z) :
  forall l,
    halts (packets_for file nof_data_packet cmplt_pkt_size data_packet_size
                       frame_data_size frame_stamp_size read_start read_end
                       last_timestamp odr_ s_samples_per_ts start_time saved ns l).
Proof.
  induction ns as [| n rest IH]; intros l; cbn [packets_for]; [apply halts_ret |].
  apply halts_bind; [apply packet_step_halts |].
  intros [l' | l' |]; [apply IH | apply halts_ret | apply halts_ret].
Qed.

Lemma extract_data_halts (end_time : float) (nof_prev : Z) :
  halts (extract_data file nof_data_packet cmplt_pkt_size data_packet_size
                      frame_data_size frame_stamp_size first_byte read_start read_end
                      last_timestamp odr_ s_samples_per_ts start_time end_time nof_prev).
Proof.
  unfold extract_data. cbv zeta.
  apply halts_bind; [destruct (_ <? _); halts_auto |]. intros _.
  apply halts_bind; [apply halts_read_cursor |]. intros cs.
  apply halts_bind; [halts_auto |]. intros [li mb].
  apply halts_bind; [apply packets_for_halts |].
  intros [l |]; apply halts_ret.
Qed.
End Halting.

(** Claim C3, amended.  The Window Locator first extracts with
    [nof_prev_timestamps = max (0, count - 2)] look-back frames.  Every
    frame of the window it returns carries a timestamp strictly greater than
    [start_time]; when look-back frames were asked for, the first timestamp
    that the last extraction reports is absent or not greater than
    [start_time].  That first timestamp is only recorded for a cursor whose
    [is_first_chunk] is true: without it, or without look-back frames, the
    locator makes a single extraction, which ends.  While the first
    timestamp is greater than [start_time], the extraction is made again
    with one look-back frame fewer. *)
Theorem C3_window_start
        (file : list Z) (nof_data_packet cmplt_pkt_size data_packet_size : Z)
        (frame_data_size frame_stamp_size first_byte read_start read_end : Z)
        (last_timestamp odr_ : float) (s_samples_per_ts : Z) (start_time : float)
        (fuel : nat) (end_time : float) (count : Z) (s : state) :
  0 <= frame_data_size -> 0 < frame_stamp_size ->
  let nof_prev_timestamps := Z.max 0 (count - 2) in
  let extract :=
    extract_data file nof_data_packet cmplt_pkt_size data_packet_size frame_data_size
                 frame_stamp_size first_byte read_start read_end last_timestamp odr_
                 s_samples_per_ts start_time end_time in
  let back :=
    look_back file nof_data_packet cmplt_pkt_size data_packet_size frame_data_size
              frame_stamp_size first_byte read_start read_end last_timestamp odr_
              s_samples_per_ts start_time in
  let locate :=
    locate_window file nof_data_packet cmplt_pkt_size data_packet_size frame_data_size
                  frame_stamp_size first_byte read_start read_end last_timestamp odr_
                  s_samples_per_ts start_time fuel end_time count in
  (forall r s', locate s = (Ok r, s') ->
     frames_after frame_data_size frame_stamp_size start_time (buffer_bytes (fst r)) /\
     (nof_prev_timestamps <> 0 ->
      forall p, snd r = Some p -> fgt p start_time = false))
  /\ (get (is_first_chunk (cur s)) false = false \/ nof_prev_timestamps = 0 ->
      locate s = extract nof_prev_timestamps s)
  /\ fst (extract nof_prev_timestamps s) <> Raise NonTermination
  /\ (forall fuel' k raw p,
        fgt p start_time = true ->
        back (S fuel') end_time k (raw, Some p)
        = (r' <- extract (k - 1) ;; back fuel' end_time (k - 1) r')).
Proof.
  intros Hdata Hstamp nof_prev_timestamps extract back locate.
  pose proof (extract_data_flag file nof_data_packet cmplt_pkt_size data_packet_size
                frame_data_size frame_stamp_size first_byte read_start read_end
                last_timestamp odr_ s_samples_per_ts start_time
                (is_first_chunk (cur s)) Hdata Hstamp end_time nof_prev_timestamps)
    as Hextract.
  fold extract in Hextract.
  split; [| split; [| split]].
  - intros r s' Hrun.
    assert (Hk : keeps (fun c => is_first_chunk c = is_first_chunk (cur s)) locate
                   (fun r => frames_after frame_data_size frame_stamp_size start_time
                               (buffer_bytes (fst r)) /\
                             (nof_prev_timestamps <> 0 ->
                              forall p, snd r = Some p -> fgt p start_time = false))).
    { subst locate. unfold locate_window. fold nof_prev_timestamps. fold extract.
      eapply keeps_bind; [exact Hextract |].
      intros r0 [Hr0 _].
      destruct (negb (nof_prev_timestamps =? 0)) eqn:Hnz.
      - eapply keeps_weaken.
        + apply look_back_flag; [exact Hdata | exact Hstamp | exact Hr0].
        + intros r1 [H1 H2]. split; [exact H1 | intros _; exact H2].
      - apply keeps_ret. split; [exact Hr0 |].
        apply negb_false_iff, Z.eqb_eq in Hnz. intros Hnot. contradiction. }
    specialize (Hk s eq_refl). rewrite Hrun in Hk. apply Hk.
  - intros Hsingle. subst locate. unfold locate_window.
    fold nof_prev_timestamps. fold extract. unfold bind.
    specialize (Hextract s eq_refl).
    destruct (extract nof_prev_timestamps s) as [[r | e] s1]; [| reflexivity].
    destruct Hextract as [_ [_ Hnone]].
    destruct (negb (nof_prev_timestamps =? 0)) eqn:Hnz; [| reflexivity].
    destruct Hsingle as [Hflag | Hzero].
    + specialize (Hnone Hflag).
      destruct fuel; cbn [look_back]; rewrite Hnone; reflexivity.
    + rewrite Hzero in Hnz. discriminate.
  - apply extract_data_halts; assumption.
  - intros fuel' k raw p Hafter. subst back. cbn [look_back snd].
    rewrite Hafter. reflexivity.
Qed.

(** Eight frames of one [uint8] sample stamped 1.0 to 8.0, two to a
    packet of 18 payload bytes; the samples are 10, 20, ..., 80. *)
Definition eight_frames_file : list Z :=
  [0; 0; 0; 0;   10; 0; 0; 0; 0; 0; 0; 240; 63;  20; 0; 0; 0; 0; 0; 0; 0; 64;
   18; 0; 0; 0;  30; 0; 0; 0; 0; 0; 0; 8; 64;    40; 0; 0; 0; 0; 0; 0; 16; 64;
   36; 0; 0; 0;  50; 0; 0; 0; 0; 0; 0; 20; 64;   60; 0; 0; 0; 0; 0; 0; 24; 64;
   54; 0; 0; 0;  70; 0; 0; 0; 0; 0; 0; 28; 64;   80; 0; 0; 0; 0; 0; 0; 32; 64].

Lemma C3_window_start_witness :
  0 <= 1 /\ 0 < 8 /\
  exists r s',
    locate_window eight_frames_file 4 22 18 1 8 44 0 0 8 1 1 4 1000 8 4
                  (start_state fresh_cursor) = (Ok r, s')
    /\ frames_after 1 8 4 (buffer_bytes (fst r)).
Proof.
  split; [lia |]. split; [lia |].
  eexists. eexists. split; [vm_compute; reflexivity |].
  destruct (C3_window_start eight_frames_file 4 22 18 1 8 44 0 0 8 1 1 4 1000 8 4
              (start_state fresh_cursor) ltac:(lia) ltac:(lia)) as [H _].
  eapply H. vm_compute. reflexivity.
Defined.

(** C3 as the claim states it: when the file, decoded as a whole, has a
    sample stamped at or before [start_time] and one at or after it, the
    first timestamp that a call returns is not after [start_time]. *)
Definition C3_as_stated : Prop :=
  forall check_type_length get_np_dtype int24_buffer_to_int32_buffer checkTimestamps
         acq fuel comp_name comp_status start_time end_time raw_flag
         all_data all_times t_before t_after a t0 times,
    fst (get_data_and_timestamps_batch check_type_length get_np_dtype
           int24_buffer_to_int32_buffer checkTimestamps acq fuel comp_name comp_status
           0 no_end_time raw_flag (start_state fresh_cursor))
    = Ok (Extracted all_data all_times) ->
    In t_before all_times -> (t_before <=? start_time)%float = true ->
    In t_after all_times -> (start_time <=? t_after)%float = true ->
    fst (get_data_and_timestamps_batch check_type_length get_np_dtype
           int24_buffer_to_int32_buffer checkTimestamps acq fuel comp_name comp_status
           start_time end_time raw_flag (start_state fresh_cursor))
    = Ok (Extracted (Array a) (t0 :: times)) ->
    (t0 <=? start_time)%float = true.

(** The file holds samples stamped 1 to 8.  A call for the window that
    starts at 2 returns the samples stamped 3 to 8: the frame stamped 2 is
    not after [start_time] and is dropped. *)
Lemma C3_counterexample :
  let run := run_batch false (usb_acquisition 8 eight_frames_file) "acc"
                       (framed_sensor 1 1 18) in
  fst (run 0%float (-1)%float true (start_state fresh_cursor))
  = Ok (Extracted (Array (mk_ndarray np_uint8
                            [[SInt 10]; [SInt 20]; [SInt 30]; [SInt 40];
                             [SInt 50]; [SInt 60]; [SInt 70]; [SInt 80]]))
                  [1; 2; 3; 4; 5; 6; 7; 8]%float)
  /\ fst (run 2%float (-1)%float true (start_state fresh_cursor))
     = Ok (Extracted (Array (mk_ndarray np_uint8
                               [[SInt 30]; [SInt 40]; [SInt 50]; [SInt 60];
                                [SInt 70]; [SInt 80]]))
                     [3; 4; 5; 6; 7; 8]%float)
  /\ ~ C3_as_stated.
Proof.
  cbv zeta. split; [vm_compute; reflexivity |]. split; [vm_compute; reflexivity |].
  intros H.
  specialize (H type_length type_dtype widen_int24 false
                (usb_acquisition 8 eight_frames_file) 1000%nat "acc"
                (framed_sensor 1 1 18) 2%float (-1)%float true
                (Array (mk_ndarray np_uint8
                          [[SInt 10]; [SInt 20]; [SInt 30]; [SInt 40];
                           [SInt 50]; [SInt 60]; [SInt 70]; [SInt 80]]))
                [1; 2; 3; 4; 5; 6; 7; 8]%float 2%float 2%float
                (mk_ndarray np_uint8
                   [[SInt 30]; [SInt 40]; [SInt 50]; [SInt 60]; [SInt 70]; [SInt 80]])
                3%float [4; 5; 6; 7; 8]%float).
  assert (Hin : In 2%float [1; 2; 3; 4; 5; 6; 7; 8]%float) by (right; left; reflexivity).
  specialize (H ltac:(vm_compute; reflexivity) Hin eq_refl Hin eq_refl
                ltac:(vm_compute; reflexivity)).
  vm_compute in H. discriminate H.
Qed.

(** The look-back need not end.  A cursor that stands on the boundary of
    the third packet and is still flagged as a first chunk: the first frame
    read is stamped 5, after the start time 4, so the extraction stops there
    without moving the cursor, and the extraction made again reads the same
    frame. *)
Definition flagged_cursor : cursor :=
  mk_cursor (Some 44) (Some 0) (Some 36) (Some 18) (Some true) None (Some 4%float).

Definition flagged_again : state :=
  mk_state (mk_cursor (Some 44) (Some 0) (Some 36) None (Some true) (Some false)
                      (Some 4%float)) [].

Definition fifth_frame : buffer * option float :=
  (Bytes [50; 0; 0; 0; 0; 0; 0; 20; 64], Some 5%float).

Lemma flagged_extraction (k : Z) (s : state) :
  s = start_state flagged_cursor \/ s = flagged_again ->
  extract_data eight_frames_file 4 22 18 1 8 44 0 0 8 1 1 4 8 k s
  = (Ok fifth_frame, flagged_again).
Proof. intros [-> | ->]; vm_compute; reflexivity. Qed.

Lemma flagged_look_back (fuel : nat) :
  forall k,
    look_back eight_frames_file 4 22 18 1 8 44 0 0 8 1 1 4 fuel 8 k fifth_frame
              flagged_again
    = (Raise NonTermination, flagged_again).
Proof.
  induction fuel as [| fuel IH]; intros k; cbn [look_back fifth_frame snd].
  - reflexivity.
  - change (fgt 5 4) with true. cbv iota.
    erewrite bind_step; [apply IH |]. apply flagged_extraction. now right.
Qed.

Example look_back_can_loop (fuel : nat) :
  get_data_and_timestamps_batch type_length type_dtype widen_int24 false
    (usb_acquisition 8 eight_frames_file) fuel "acc" (framed_sensor 1 1 18) 4 (-1) true
    (start_state flagged_cursor)
  = (Raise NonTermination, flagged_again).
Proof.
  rewrite (batch_is_batch_sensor type_length type_dtype widen_int24 false
             (usb_acquisition 8 eight_frames_file) fuel "acc" (framed_sensor 1 1 18)
             4 (-1) true eight_frames_file 18 (start_state flagged_cursor)
             (or_introl eq_refl) eq_refl eq_refl ltac:(discriminate)).
  eapply batch_sensor_raises; [vm_compute; reflexivity | reflexivity |].
  cbn [dataframe_byte_size timestamp_byte_size start_idx read_start_bytes
       read_end_bytes w_odr nof_timestamps_in_start].
  unfold locate_window.
  erewrite bind_step; [| apply flagged_extraction; now left].
  apply flagged_look_back.
Qed.

(** ** Resumed calls (claim C1) *)

(** Two packets of four samples of the 1 Hz sensor without embedded
    timestamps: the samples 10 to 80 over 8 seconds. *)
Definition two_packet_file : list Z :=
  [0; 0; 0; 0;  10; 20; 30; 40;   4; 0; 0; 0;  50; 60; 70; 80].

(** The caller's write of [is_first_chunk] before a call. *)
Definition with_first_chunk (flag : option bool) (s : state) : state :=
  mk_state (mk_cursor (last_index (cur s)) (missing_bytes (cur s)) (saved_bytes (cur s))
                      (prev_data_byte_counter (cur s)) flag (is_same_dps (cur s))
                      (ioffset (cur s)))
           (warnings s).

(** C1 does not hold of the code.  The window [0, 2) ends in the middle
    of the first packet and leaves two bytes over.  The call for [2, 6) reads
    those two bytes alone (lines 1004-1012), then looks for the next packet
    one packet too far (line 994) and meets the end of the file (line 997):
    it returns nothing, where the single call for [0, 6) returns six
    samples.  This
    holds whatever the caller writes in [is_first_chunk] before each call. *)
Theorem C1_resumed_calls_lose_samples (first_flag second_flag : option bool) :
  let call := run_batch false (usb_acquisition 8 two_packet_file) "acc" plain_sensor in
  let fresh := with_first_chunk first_flag (start_state fresh_cursor) in
  let origin := if get first_flag false then 0%float else 1%float in
  let first := call 0%float 2%float true fresh in
  let second := call 2%float 6%float true (with_first_chunk second_flag (snd first)) in
  let single := call 0%float 6%float true fresh in
  fst first
  = Ok (Extracted (Array (mk_ndarray np_uint8 [[SInt 10]; [SInt 20]]))
                  [origin; origin + 1]%float)
  /\ fst second = Ok (Extracted EmptyList [])
  /\ fst single
     = Ok (Extracted (Array (mk_ndarray np_uint8
                               [[SInt 10]; [SInt 20]; [SInt 30]; [SInt 40];
                                [SInt 50]; [SInt 60]]))
                     [origin; origin + 1; origin + 2; origin + 3; origin + 4;
                      origin + 5]%float).
Proof.
  cbv zeta.
  destruct first_flag as [[|] |], second_flag as [[|] |];
    (split; [vm_compute; reflexivity |]); (split; vm_compute; reflexivity).
Qed.

(** With a window that ends between two samples the samples agree and the
    timestamps do not: the second call counts from its [start_time] (line
    646) and stamps 2.5 and 3.5 the samples that the single call stamps 2
    and 3. *)
Example resumed_timestamps_drift :
  let call := run_batch false (usb_acquisition 4 [0; 0; 0; 0; 10; 20; 30; 40]) "acc"
                        plain_sensor in
  let first := call 0%float 0x1.8p+0%float true (start_state fresh_cursor) in
  let second := call 0x1.8p+0%float 3%float true (snd first) in
  let single := call 0%float 3%float true (start_state fresh_cursor) in
  fst first = Ok (Extracted (Array (mk_ndarray np_uint8 [[SInt 10]])) [1]%float)
  /\ fst second
     = Ok (Extracted (Array (mk_ndarray np_uint8 [[SInt 20]; [SInt 30]]))
                     [0x1.4p+1; 0x1.cp+1]%float)
  /\ fst single
     = Ok (Extracted (Array (mk_ndarray np_uint8 [[SInt 10]; [SInt 20]; [SInt 30]]))
                     [1; 2; 3]%float).
Proof. cbv zeta. repeat split; vm_compute; reflexivity. Qed.

(** * Further properties of the engine *)

(** ** Parallel arrays *)

Lemma mask_rows_same_length {A B} (mask : list bool) :
  forall (a : list A) (b : list B),
    len a = len b -> len (mask_rows mask a) = len (mask_rows mask b).
Proof.
  induction mask as [| m mask IH]; intros a b Hlen; [reflexivity |].
  destruct a as [| x a], b as [| y b]; try reflexivity;
    try (unfold len in Hlen; cbn in Hlen; lia).
  assert (Htl : len a = len b) by (unfold len in *; cbn in Hlen; lia).
  specialize (IH a b Htl). cbn [mask_rows]. destruct m; [| exact IH].
  unfold len in *. cbn [List.length]. lia.
Qed.

(** What the decoder returns: the empty lists, or an array with one row
    for each sample time. *)
Definition parallel (data : samples) (times : list float) : Prop :=
  match data with
  | EmptyList => times = []
  | Array a => len (nd_rows a) = len times
  end.

Lemma assign_sample_times_parallel frame_period spts num_frames start_time prev_timestamp
      timestamps s_data s s' data times :
  assign_sample_times frame_period spts num_frames start_time prev_timestamp
                      timestamps s_data s = (Ok (data, times), s') ->
  parallel data times.
Proof.
  unfold assign_sample_times. intros H.
  apply bind_Ok in H as (cs & s1 & _ & H).
  apply bind_Ok in H as (st & s2 & _ & H).
  apply bind_Ok in H as (a0 & s3 & _ & H).
  destruct (len (nd_rows a0) =? _) eqn:Hlen; [| discriminate].
  apply Z.eqb_eq in Hlen. rewrite len_map in Hlen.
  inversion H; subst. cbn. now apply mask_rows_same_length.
Qed.

Section ParallelArrays.
Variable check_type_length : string -> Z.
Variable get_np_dtype : string -> np_dtype.
Variable int24_buffer_to_int32_buffer : list Z -> list Z.
Variable checkTimestamps : bool.

Lemma process_datalog_parallel sensor_name ss_stat raw_data dataframe_size timestamp_size
      raw_flag start_time prev_timestamp s s' data times :
  process_datalog check_type_length get_np_dtype int24_buffer_to_int32_buffer
                  checkTimestamps sensor_name ss_stat raw_data dataframe_size
                  timestamp_size raw_flag start_time prev_timestamp s
  = (Ok (data, times), s') ->
  parallel data times.
Proof.
  unfold process_datalog. intros H.
  do 6 (apply bind_Ok in H as (? & ? & _ & H)).
  apply bind_Ok in H as ([[timestamps values] start_time'] & ? & _ & H).
  apply bind_Ok in H as (s_data & s6 & _ & H).
  destruct (len values =? 0).
  - inversion H. reflexivity.
  - eapply assign_sample_times_parallel. exact H.
Qed.

Lemma batch_sensor_parallel acq fuel name ss file dps cmplt nof s_dim s_len spts
      start_time end_time raw_flag s s' data times :
  batch_sensor check_type_length get_np_dtype int24_buffer_to_int32_buffer
               checkTimestamps acq fuel name ss file dps cmplt nof s_dim s_len spts
               start_time end_time raw_flag s = (Ok (Extracted data times), s') ->
  parallel data times.
Proof.
  unfold batch_sensor. intros H.
  apply bind_Ok in H as (w & s1 & _ & H).
  destruct w as [w |]; [| inversion H; reflexivity].
  destruct (fgt _ _); [inversion H; reflexivity |].
  apply bind_Ok in H as ([raw prev] & s2 & _ & H).
  apply bind_Ok in H as ([d t] & s3 & Hr & H).
  apply bind_Ok in H as (cs & s4 & _ & H).
  apply bind_Ok in H as (u & s5 & _ & H).
  inversion H; subst. eapply process_datalog_parallel. exact Hr.
Qed.
End ParallelArrays.

(** X1.  Whenever the entry point returns data and times, there is one
    row of data for each sample time; when it returns the empty list of
    data, the list of times is empty too. *)
Theorem batch_returns_parallel_arrays
        (check_type_length : string -> Z) (get_np_dtype : string -> np_dtype)
        (int24_buffer_to_int32_buffer : list Z -> list Z) (checkTimestamps : bool)
        (acq : acquisition) (fuel : nat) (comp_name : string) (comp_status : descriptor)
        (start_time end_time : float) (raw_flag : bool) (s s' : state)
        (data : samples) (times : list float) :
  get_data_and_timestamps_batch check_type_length get_np_dtype
    int24_buffer_to_int32_buffer checkTimestamps acq fuel comp_name comp_status
    start_time end_time raw_flag s = (Ok (Extracted data times), s') ->
  match data with
  | EmptyList => times = []
  | Array a => len (nd_rows a) = len times
  end.
Proof.
  unfold get_data_and_timestamps_batch. intros H.
  apply bind_Ok in H as (dps & s1 & _ & H).
  apply bind_Ok in H as (file & s2 & _ & H).
  apply bind_Ok in H as (nof & s3 & _ & H).
  cbv zeta in H.
  destruct (c_type comp_status) as [[| |] |].
  - eapply batch_sensor_parallel. exact H.
  - destruct (algo_type comp_status) as [[] |]; try discriminate.
    apply bind_Ok in H as (d & s4 & _ & H).
    apply bind_Ok in H as (f_data & s5 & _ & H).
    apply bind_Ok in H as (arr & s6 & _ & H).
    apply bind_Ok in H as ([dd tt] & s7 & Hr & H).
    inversion H; subst. eapply process_datalog_parallel. exact Hr.
  - destruct (odr comp_status).
    + eapply batch_sensor_parallel. exact H.
    + destruct (is_mc_telemetry comp_name); [| discriminate].
      apply bind_Ok in H as (f_data & s5 & _ & H).
      apply bind_Ok in H as (arr & s6 & _ & H).
      apply bind_Ok in H as (usb & s7 & _ & H).
      apply bind_Ok in H as ([dd tt] & s8 & Hr & H).
      inversion H; subst. eapply process_datalog_parallel. exact Hr.
  - discriminate.
Qed.

Lemma batch_returns_parallel_arrays_witness :
  get_data_and_timestamps_batch type_length type_dtype widen_int24 false
    (usb_acquisition 4 [0; 0; 0; 0; 10; 20; 30; 40]) 1000 "acc" plain_sensor 0 3 true
    (start_state fresh_cursor)
  = (Ok (Extracted (Array (mk_ndarray np_uint8 [[SInt 10]; [SInt 20]; [SInt 30]]))
                   [1; 2; 3]%float),
     mk_state (mk_cursor (Some 7) (Some 1) (Some 3) (Some 0) None None (Some 3%float)) [])
  /\ len [[SInt 10]; [SInt 20]; [SInt 30]] = len [1; 2; 3]%float.
Proof.
  split; [vm_compute; reflexivity |].
  refine (batch_returns_parallel_arrays type_length type_dtype widen_int24 false
            (usb_acquisition 4 [0; 0; 0; 0; 10; 20; 30; 40]) 1000 "acc" plain_sensor
            0 3 true (start_state fresh_cursor)
            (mk_state (mk_cursor (Some 7) (Some 1) (Some 3) (Some 0) None None
                                 (Some 3%float)) [])
            (Array (mk_ndarray np_uint8 [[SInt 10]; [SInt 20]; [SInt 30]]))
            [1; 2; 3]%float _).
  vm_compute. reflexivity.
Defined.

(** ** The keys of the cursor that the engine writes *)

Ltac keeps_using tac :=
  repeat lazymatch goal with
    | |- keeps _ (ret _) _ => apply keeps_ret; exact Logic.I
    | |- keeps _ (raise _) _ => apply keeps_raise
    | |- keeps _ (lift _) _ => apply keeps_lift_any
    | |- keeps _ read_cursor _ => apply keeps_read_cursor
    | |- keeps _ (log_warning _) _ => apply keeps_log_warning
    | |- keeps _ (update_cursor _) _ => keeps_field
    | |- keeps _ (bind _ _) _ => apply keeps_bind_any; [| intros]
    | |- keeps _ (match ?x with _ => _ end) _ => destruct x
    | |- _ => tac
    end.

Section Footprint.
Variable check_type_length : string -> Z.
Variable get_np_dtype : string -> np_dtype.
Variable int24_buffer_to_int32_buffer : list Z -> list Z.
Variable checkTimestamps : bool.
Variable first_chunk : option bool.

Let flag (c : cursor) : Prop := is_first_chunk c = first_chunk.

Lemma frames_while_footprint nof cmplt dfs tbs start_time (fuel : nat) :
  forall n ets l,
    keeps flag (frames_while nof cmplt dfs tbs start_time fuel n ets l) (fun _ => True).
Proof.
  induction fuel as [| fuel IH]; intros n ets l; cbn [frames_while];
    unfold note_first_frame, save_position; keeps_using ltac:(apply IH).
Qed.

Lemma packets_for_footprint file nof cmplt dps dfs tbs rs re last_ts odr_ spts start_time
      saved (ns : list Z) :
  forall l,
    keeps flag (packets_for file nof cmplt dps dfs tbs rs re last_ts odr_ spts start_time
                            saved ns l) (fun _ => True).
Proof.
  induction ns as [| n rest IH]; intros l; cbn [packets_for].
  - keeps_using fail.
  - unfold packet_step, read_packet, check_counter, save_position.
    keeps_using ltac:(first [apply IH | apply frames_while_footprint]).
Qed.

Lemma extract_data_footprint file nof cmplt dps dfs tbs first_byte rs re last_ts odr_ spts
      start_time end_time nof_prev :
  keeps flag (extract_data file nof cmplt dps dfs tbs first_byte rs re last_ts odr_ spts
                           start_time end_time nof_prev) (fun _ => True).
Proof.
  unfold extract_data. cbv zeta. keeps_using ltac:(apply packets_for_footprint).
Qed.

Lemma look_back_footprint file nof cmplt dps dfs tbs first_byte rs re last_ts odr_ spts
      start_time (fuel : nat) :
  forall end_time k r,
    keeps flag (look_back file nof cmplt dps dfs tbs first_byte rs re last_ts odr_ spts
                          start_time fuel end_time k r) (fun _ => True).
Proof.
  induction fuel as [| fuel IH]; intros end_time k r; cbn [look_back];
    keeps_using ltac:(first [apply IH | apply extract_data_footprint]).
Qed.

Lemma process_datalog_footprint name ss raw dfs tbs raw_flag start_time prev_timestamp :
  keeps flag (process_datalog check_type_length get_np_dtype int24_buffer_to_int32_buffer
                              checkTimestamps name ss raw dfs tbs raw_flag start_time
                              prev_timestamp) (fun _ => True).
Proof.
  unfold process_datalog, assign_sample_times. cbv zeta.
  keeps_using ltac:(apply log_warnings_keeps).
Qed.

Lemma batch_footprint acq fuel name ss start_time end_time raw_flag :
  keeps flag (get_data_and_timestamps_batch check_type_length get_np_dtype
                int24_buffer_to_int32_buffer checkTimestamps acq fuel name ss
                start_time end_time raw_flag) (fun _ => True).
Proof.
  unfold get_data_and_timestamps_batch, batch_sensor, locate_window, read_whole_file.
  cbv zeta.
  keeps_using ltac:(first [ apply process_datalog_footprint
                          | apply look_back_footprint
                          | apply extract_data_footprint ]).
Qed.
End Footprint.

(** X2.  The engine never writes [is_first_chunk]: whatever the call
    returns or raises, the key is as the caller left it. *)
Theorem batch_never_writes_is_first_chunk
        (check_type_length : string -> Z) (get_np_dtype : string -> np_dtype)
        (int24_buffer_to_int32_buffer : list Z -> list Z) (checkTimestamps : bool)
        (acq : acquisition) (fuel : nat) (comp_name : string) (comp_status : descriptor)
        (start_time end_time : float) (raw_flag : bool) (s : state) :
  is_first_chunk
    (cur (snd (get_data_and_timestamps_batch check_type_length get_np_dtype
                 int24_buffer_to_int32_buffer checkTimestamps acq fuel comp_name
                 comp_status start_time end_time raw_flag s)))
  = is_first_chunk (cur s).
Proof.
  apply (keeps_run (fun c => is_first_chunk c = is_first_chunk (cur s)) _ (fun _ => True));
    [| reflexivity].
  apply batch_footprint.
Qed.

(** ** Removal of the packet counters: [remove_4bytes_every_n_optimized] *)

Lemma drop_counters_removed (n : nat) (c : list Z) :
  forall (i : nat) (rest : list Z),
    (forall j, (i <= j < i + List.length c)%nat ->
               Z.of_nat j mod Z.of_nat n < data_protocol_size) ->
    drop_counters i n (c ++ rest) = drop_counters (i + List.length c) n rest.
Proof.
  induction c as [| b c IH]; intros i rest H; cbn [app List.length] in *.
  - now rewrite Nat.add_0_r.
  - cbn [drop_counters].
    destruct (_ <? _) eqn:E.
    + replace (i + S (List.length c))%nat with (S i + List.length c)%nat by lia.
      apply IH. intros j Hj. apply H. lia.
    + apply Z.ltb_ge in E. specialize (H i). lia.
Qed.

Lemma drop_counters_kept (n : nat) (p : list Z) :
  forall (i : nat) (rest : list Z),
    (forall j, (i <= j < i + List.length p)%nat ->
               data_protocol_size <= Z.of_nat j mod Z.of_nat n) ->
    drop_counters i n (p ++ rest) = p ++ drop_counters (i + List.length p) n rest.
Proof.
  induction p as [| b p IH]; intros i rest H; cbn [app List.length] in *.
  - now rewrite Nat.add_0_r.
  - cbn [drop_counters].
    destruct (_ <? _) eqn:E.
    + apply Z.ltb_lt in E. specialize (H i). lia.
    + replace (i + S (List.length p))%nat with (S i + List.length p)%nat by lia.
      rewrite IH; [reflexivity |]. intros j Hj. apply H. lia.
Qed.

(** A file of whole packets: each one a counter of four bytes and a
    payload of [dps] bytes. *)
Definition packet_bytes (p : list Z * list Z) : list Z := fst p ++ snd p.

Definition whole_packet (dps : Z) (p : list Z * list Z) : Prop :=
  len (fst p) = data_protocol_size /\ len (snd p) = dps.

Lemma mod_from_start (i j n : Z) :
  i mod n = 0 -> 0 <= j - i < n -> j mod n = j - i.
Proof.
  intros Hi Hj. assert (Hn : n <> 0) by lia.
  pose proof (Z.div_mod i n Hn) as Hdiv. rewrite Hi, Z.add_0_r in Hdiv.
  replace (j mod n) with (((j - i) + (i / n) * n) mod n) by (f_equal; lia).
  rewrite Z.mod_add by exact Hn. apply Z.mod_small. exact Hj.
Qed.

Lemma drop_counters_packets (dps : Z) (packets : list (list Z * list Z)) :
  0 <= dps ->
  Forall (whole_packet dps) packets ->
  forall (i : nat) (rest : list Z),
    Z.of_nat i mod (dps + 4) = 0 ->
    exists i',
      Z.of_nat i' mod (dps + 4) = 0 /\
      drop_counters i (Z.to_nat (dps + 4))
                    (List.concat (map packet_bytes packets) ++ rest)
      = List.concat (map snd packets) ++ drop_counters i' (Z.to_nat (dps + 4)) rest.
Proof.
  intros Hdps Hall. induction Hall as [| [c p] packets [Hc Hp] Hall IH]; intros i rest Hi.
  - exists i. split; [exact Hi | reflexivity].
  - cbn [map List.concat fst snd] in *.
    change (packet_bytes (c, p)) with (c ++ p).
    unfold data_protocol_size, len in Hc, Hp.
    assert (HN : Z.of_nat (Z.to_nat (dps + 4)) = dps + 4) by lia.
    rewrite <- !app_assoc.
    rewrite drop_counters_removed.
    2:{ intros j Hj. unfold data_protocol_size. rewrite HN.
        rewrite (mod_from_start (Z.of_nat i)); lia. }
    rewrite drop_counters_kept.
    2:{ intros j Hj. unfold data_protocol_size. rewrite HN.
        rewrite (mod_from_start (Z.of_nat i)); lia. }
    destruct (IH (i + List.length c + List.length p)%nat rest) as (i' & Hi' & Heq).
    { replace (Z.of_nat (i + List.length c + List.length p))
        with (Z.of_nat i + 1 * (dps + 4)) by lia.
      rewrite Z.mod_add by lia. exact Hi. }
    exists i'. split; [exact Hi' |]. rewrite Heq. now rewrite app_assoc.
Qed.

Lemma drop_counters_tail (n : nat) (i : nat) (tail : list Z) :
  Z.of_nat i mod Z.of_nat n = 0 ->
  (List.length tail < n)%nat ->
  drop_counters i n tail = skipn 4 tail.
Proof.
  intros Hi Hlen.
  rewrite <- (firstn_skipn 4 tail) at 1.
  rewrite drop_counters_removed.
  2:{ intros j Hj. rewrite length_firstn in Hj. unfold data_protocol_size.
      rewrite (mod_from_start (Z.of_nat i)); lia. }
  rewrite <- (app_nil_r (skipn 4 tail)) at 1.
  rewrite drop_counters_kept; [cbn; apply app_nil_r |].
  intros j Hj. rewrite length_firstn, length_skipn in Hj. unfold data_protocol_size.
  rewrite (mod_from_start (Z.of_nat i)); lia.
Qed.

(** X3.  On a file made of whole packets, each a counter of 4 bytes and a
    payload of [dps] bytes, followed by the beginning of one more packet,
    [remove_4bytes_every_n_optimized] with the complete packet size returns
    the payloads, in order, and what the last packet holds after its
    counter. *)
Theorem remove_4bytes_returns_payloads
        (dps : Z) (packets : list (list Z * list Z)) (tail : list Z) :
  0 <= dps ->
  Forall (whole_packet dps) packets ->
  len tail < dps + data_protocol_size ->
  remove_4bytes_every_n_optimized (List.concat (map packet_bytes packets) ++ tail)
                                  (dps + data_protocol_size)
  = Ok (List.concat (map snd packets) ++ skipn 4 tail).
Proof.
  intros Hdps Hall Htail. unfold remove_4bytes_every_n_optimized, data_protocol_size in *.
  destruct (dps + 4 =? 0) eqn:E0; [apply Z.eqb_eq in E0; lia |].
  destruct (dps + 4 <? 0) eqn:E1; [apply Z.ltb_lt in E1; lia |].
  f_equal.
  destruct (drop_counters_packets dps packets Hdps Hall 0 tail eq_refl) as (i' & Hi' & Heq).
  rewrite Heq. f_equal.
  apply drop_counters_tail; [| unfold len in Htail; lia].
  now replace (Z.of_nat (Z.to_nat (dps + 4))) with (dps + 4) by lia.
Qed.

Lemma remove_4bytes_returns_payloads_witness :
  0 <= 2 /\ Forall (whole_packet 2) [([0; 0; 0; 0], [10; 20]); ([2; 0; 0; 0], [30; 40])]
  /\ len [4; 0; 0; 0; 50] < 2 + data_protocol_size
  /\ remove_4bytes_every_n_optimized
       [0; 0; 0; 0; 10; 20;  2; 0; 0; 0; 30; 40;  4; 0; 0; 0; 50] 6
     = Ok [10; 20; 30; 40; 50].
Proof.
  assert (H : Forall (whole_packet 2)
                     [([0; 0; 0; 0], [10; 20]); ([2; 0; 0; 0], [30; 40])])
    by (repeat constructor).
  split; [lia |]. split; [exact H |]. split; [reflexivity |].
  exact (remove_4bytes_returns_payloads 2
           [([0; 0; 0; 0], [10; 20]); ([2; 0; 0; 0], [30; 40])] [4; 0; 0; 0; 50]
           ltac:(lia) H eq_refl).
Defined.

Lemma drop_counters_all (n : nat) (arr : list Z) :
  (0 < n <= 4)%nat -> forall i, drop_counters i n arr = [].
Proof.
  intros Hn. induction arr as [| b arr IH]; intros i; [reflexivity |].
  cbn [drop_counters].
  pose proof (Z.mod_pos_bound (Z.of_nat i) (Z.of_nat n) ltac:(lia)) as Hm.
  destruct (_ <? _) eqn:E; [apply IH |].
  apply Z.ltb_ge in E. unfold data_protocol_size in E. lia.
Qed.

(** X4.  The degenerate packet sizes: a size of 0 raises [ValueError]
    (the step of [range]), a negative size removes nothing, and a size
    between 1 and 4 removes every byte. *)
Theorem remove_4bytes_degenerate_sizes (arr : list Z) (N : Z) :
  N <= data_protocol_size ->
  remove_4bytes_every_n_optimized arr N
  = if N =? 0 then Raise ValueError else if N <? 0 then Ok arr else Ok [].
Proof.
  intros HN. unfold remove_4bytes_every_n_optimized.
  destruct (N =? 0) eqn:E0; [reflexivity |].
  destruct (N <? 0) eqn:E1; [reflexivity |].
  apply Z.eqb_neq in E0. apply Z.ltb_ge in E1. unfold data_protocol_size in HN.
  f_equal. apply drop_counters_all. lia.
Qed.

Lemma remove_4bytes_degenerate_sizes_witness :
  3 <= data_protocol_size /\ remove_4bytes_every_n_optimized [1; 2; 3; 4; 5; 6; 7] 3 = Ok [].
Proof.
  split; [unfold data_protocol_size; lia |].
  exact (remove_4bytes_degenerate_sizes [1; 2; 3; 4; 5; 6; 7] 3 ltac:(unfold data_protocol_size; lia)).
Defined.

(** ** The first extraction of a stream without timestamps *)

Lemma seek_read_packet (pre c rest : list Z) (i : Z) :
  len pre = i ->
  seek_read (pre ++ c ++ rest) i (len c) = Ok c.
Proof.
  intros Hi. unfold seek_read.
  pose proof (len_nonneg pre). pose proof (len_nonneg c).
  destruct (i <? 0) eqn:E1; [apply Z.ltb_lt in E1; lia |].
  destruct (len c <? -1) eqn:E2; [apply Z.ltb_lt in E2; lia |].
  destruct (len c =? -1) eqn:E3; [apply Z.eqb_eq in E3; lia |].
  f_equal. subst i. unfold len. rewrite !Nat2Z.id.
  rewrite skipn_app, skipn_all, Nat.sub_diag. cbn [skipn app].
  rewrite firstn_app, firstn_all, Nat.sub_diag. cbn [firstn]. apply app_nil_r.
Qed.

Lemma slice_counter (c p : list Z) :
  len c = data_protocol_size ->
  slice_to (c ++ p) data_protocol_size = c /\ slice_from (c ++ p) data_protocol_size = p.
Proof.
  unfold data_protocol_size. intros Hc. split.
  - rewrite slice_to_firstn by lia. unfold len in Hc.
    replace (Z.to_nat 4) with (List.length c + 0)%nat by lia.
    rewrite firstn_app_2. cbn. apply app_nil_r.
  - rewrite slice_from_skipn by lia. unfold len in Hc.
    replace (Z.to_nat 4) with (List.length c) by lia.
    rewrite skipn_app, skipn_all, Nat.sub_diag. reflexivity.
Qed.

Lemma len_concat_payloads (dps : Z) (packets : list (list Z * list Z)) :
  Forall (whole_packet dps) packets ->
  len (List.concat (map snd packets)) = len packets * dps.
Proof.
  intros H. induction H as [| p packets [_ Hp] _ IH]; [reflexivity |].
  cbn [map List.concat]. rewrite len_app, IH, Hp. unfold len. cbn [List.length]. lia.
Qed.

Lemma len_concat_packets (dps : Z) (packets : list (list Z * list Z)) :
  Forall (whole_packet dps) packets ->
  len (List.concat (map packet_bytes packets)) = len packets * (dps + data_protocol_size).
Proof.
  intros H. induction H as [| p packets [Hc Hp] _ IH]; [reflexivity |].
  cbn [map List.concat]. unfold packet_bytes at 1.
  rewrite !len_app, IH, Hc, Hp. unfold len. cbn [List.length]. lia.
Qed.

(** The counters of consecutive packets, from [c] on. *)
Fixpoint counted (c dps : Z) (packets : list (list Z * list Z)) : Prop :=
  match packets with
  | [] => True
  | p :: rest => unpack_uint32 (fst p) = Ok c /\ counted (c + dps) dps rest
  end.

Section FirstExtraction.
Variables (dps : Z) (packets : list (list Z * list Z)) (tail : list Z).
Variables (frame_data_size read_start read_end : Z).
Variables (last_timestamp odr_ : float) (s_samples_per_ts : Z).
Variable start_time : float.
Variable saved : Z.

Hypothesis dps_pos : 0 < dps.
Hypothesis packets_whole : Forall (whole_packet dps) packets.
Hypothesis target_nonneg : 0 <= read_end - read_start.
Hypothesis target_in_file : read_end - read_start <= len packets * dps.

Let file := List.concat (map packet_bytes packets) ++ tail.
Let cmplt := dps + data_protocol_size.
Let target := read_end - read_start.
Let loop :=
  packets_for file (len packets) cmplt dps frame_data_size 0 read_start read_end
              last_timestamp odr_ s_samples_per_ts start_time saved.

(** The cursor once [n] packets have been read and the target is met. *)
Definition position_after (n : Z) (s s' : state) : Prop :=
  1 <= n <= len packets /\ target <= n * dps /\ (n = 1 \/ (n - 1) * dps < target) /\
  missing_bytes (cur s') = Some (n * dps - target) /\
  saved_bytes (cur s') = Some target /\
  (get (is_same_dps (cur s)) false = false ->
   last_index (cur s') = Some (n * cmplt - (n * dps - target))).

Lemma packets_for_first (rest : list (list Z * list Z)) :
  forall (done : list (list Z * list Z)) (c : Z) (l : locals) (s : state),
    packets = done ++ rest ->
    l_last_index l = 0 ->
    byte_chest l = List.concat (map snd done) ->
    chest_room l = (len packets + 1) * dps ->
    end_time_flag l = false ->
    skip_counter_check l = false ->
    l_prev_timestamp l = None ->
    counted c dps rest ->
    match prev_data_byte_counter (cur s) with
    | None => True
    | Some previous => c - previous = dps
    end ->
    (done = [] -> rest <> []) ->
    (done <> [] -> len done * dps < target) ->
    exists l' s',
      loop (map Z.of_nat (seq (List.length done) (List.length rest + 1))) l s
      = (Ok (Some l'), s')
      /\ raw_data_array l' = firstn (Z.to_nat target) (List.concat (map snd packets))
      /\ l_prev_timestamp l' = None
      /\ exists n, position_after n s s'
                   /\ is_same_dps (cur s') = (if get (is_same_dps (cur s)) false
                                              then Some false else is_same_dps (cur s)).
Proof.
  induction rest as [| [cb p] rest IH];
    intros done c l s Hsplit Hli Hchest Hroom Hflag Hskip Hprev Hcount Hcounter Hfirst Hnot.
  - exfalso. destruct done as [| d done]; [now apply Hfirst |].
    rewrite app_nil_r in Hsplit. subst packets.
    specialize (Hnot ltac:(discriminate)). unfold target in *. lia.
  - assert (Hwhole : whole_packet dps (cb, p)).
    { rewrite Hsplit in packets_whole. apply Forall_app in packets_whole as [_ Hr].
      now inversion Hr. }
    destruct Hwhole as [Hcb Hp]. cbn [fst snd] in Hcb, Hp.
    assert (Hdone : Forall (whole_packet dps) done).
    { rewrite Hsplit in packets_whole. now apply Forall_app in packets_whole as [Hd _]. }
    destruct Hcount as [Hunpack Hcount]. cbn [fst] in Hunpack.
    assert (Hlen_packets : len packets = len done + 1 + len rest).
    { rewrite Hsplit. rewrite len_app. unfold len. cbn [List.length]. lia. }
    pose proof (len_nonneg rest) as Hrest_nonneg.
    pose proof (len_nonneg done) as Hdone_nonneg.
    pose proof (len_nonneg tail) as Htail_nonneg.
    assert (Hfile : file
                    = List.concat (map packet_bytes done)
                      ++ (cb ++ p) ++ (List.concat (map packet_bytes rest) ++ tail)).
    { unfold file. rewrite Hsplit, map_app, concat_app. cbn [map List.concat].
      unfold packet_bytes at 2. cbn [fst snd]. now rewrite <- !app_assoc. }
    assert (Hpre : len (List.concat (map packet_bytes done)) = 0 + len done * cmplt).
    { rewrite (len_concat_packets dps) by exact Hdone. unfold cmplt. lia. }
    assert (Hpacket : len (cb ++ p) = cmplt).
    { rewrite len_app, Hcb, Hp. unfold cmplt. lia. }
    assert (Hsize : len file = len packets * cmplt + len tail).
    { unfold file. rewrite len_app, (len_concat_packets dps) by exact packets_whole.
      reflexivity. }
    assert (Hchest_len : byte_chest_index l = len done * dps).
    { unfold byte_chest_index. rewrite Hchest. now apply len_concat_payloads. }
    assert (Hseek : seek_read file (0 + len done * cmplt) cmplt = Ok (cb ++ p)).
    { pose proof (seek_read_packet (List.concat (map packet_bytes done)) (cb ++ p)
                    (List.concat (map packet_bytes rest) ++ tail) _ Hpre) as Hread.
      rewrite Hpacket in Hread. rewrite Hfile. exact Hread. }
    destruct (slice_counter cb p Hcb) as [Hslice_to Hslice_from].
    assert (Hread : read_packet file cmplt saved (len done) l s
                    = (Ok (Next (l, p, cb)), s)).
    { unfold read_packet. rewrite Hli. cbn [Z.eqb negb]. rewrite Hseek.
      unfold bind, lift. rewrite Hpacket, Hchest_len.
      destruct (cmplt + len done * dps <? cmplt) eqn:Eshort; [apply Z.ltb_lt in Eshort; nia |].
      rewrite Hslice_to, Hslice_from. reflexivity. }
    set (s1 := mk_state (set_prev_data_byte_counter (Some c) (cur s)) (warnings s)).
    assert (Hcheck : check_counter dps (len done) cb s = (Ok (Next tt), s1)).
    { unfold check_counter. rewrite Hunpack. unfold bind, lift, read_cursor.
      destruct (prev_data_byte_counter (cur s)) as [previous |]; [| reflexivity].
      rewrite Hcounter, Z.eqb_refl. reflexivity. }
    set (l2 := with_chest (byte_chest l ++ p) (chest_room l) l).
    assert (Hchest2 : byte_chest l2 = List.concat (map snd (done ++ [(cb, p)]))).
    { cbn. rewrite Hchest, map_app, concat_app. cbn. now rewrite app_nil_r. }
    assert (Hidx2 : byte_chest_index l2 = (len done + 1) * dps).
    { unfold byte_chest_index. rewrite Hchest2.
      rewrite (len_concat_payloads dps).
      - rewrite len_app. unfold len. cbn [List.length]. lia.
      - apply Forall_app. split; [exact Hdone |]. constructor; [now split | constructor]. }
    set (l3 := with_flag (with_raw (slice_to (byte_chest l2) target) l2)).
    assert (Hstep :
              packet_step file (len packets) cmplt dps frame_data_size 0 read_start
                          read_end last_timestamp odr_ s_samples_per_ts start_time saved
                          (len done) l s
              = if target <=? (len done + 1) * dps
                then (save_position cmplt (len done) l3 (byte_chest_index l3 - target)
                                    (raw_data_array_index l3) ;;; ret (Break l3)) s1
                else (Ok (Next l2), s1)).
    { unfold packet_step. rewrite Hli.
      destruct (len file <=? 0 + len done * cmplt) eqn:Eeof.
      { apply Z.leb_le in Eeof. rewrite Hsize, Hlen_packets in Eeof. unfold cmplt in *.
        unfold data_protocol_size in *. nia. }
      rewrite (bind_step _ _ _ _ _ Hread). cbv beta iota. rewrite Hskip.
      rewrite (bind_step _ _ _ _ _ Hcheck). cbv beta iota.
      rewrite Hchest_len, Hp, Hroom.
      destruct (len done * dps + dps <=? (len packets + 1) * dps) eqn:Ecap.
      2:{ apply Z.leb_gt in Ecap. nia. }
      unfold bind at 1. cbn [ret Z.eqb].
      rewrite <- Hroom. fold l2. rewrite Hidx2. fold target.
      destruct (target <=? (len done + 1) * dps) eqn:Ereached.
      - destruct (target <? 0) eqn:Eneg; [apply Z.ltb_lt in Eneg; unfold target in *; lia |].
        reflexivity.
      - assert (Hflag2 : end_time_flag l2 = false) by exact Hflag. now rewrite Hflag2. }
    replace (List.length ((cb, p) :: rest) + 1)%nat with (S (List.length rest + 1))
      by (cbn [List.length]; lia).
    cbn [seq map]. unfold loop at 1. cbn [packets_for]. fold loop.
    change (Z.of_nat (List.length done)) with (len done).
    unfold bind at 1. rewrite Hstep.
    destruct (target <=? (len done + 1) * dps) eqn:Ereached.
    + apply Z.leb_le in Ereached.
      assert (Hsave : exists s2,
                 save_position cmplt (len done) l3 (byte_chest_index l3 - target)
                               (raw_data_array_index l3) s1 = (Ok tt, s2)
                 /\ position_after (len done + 1) s s2
                 /\ is_same_dps (cur s2) = (if get (is_same_dps (cur s)) false
                                            then Some false else is_same_dps (cur s))).
      { assert (Hraw3 : raw_data_array_index l3 = target).
        { unfold raw_data_array_index. cbn. rewrite slice_to_firstn by (unfold target; lia).
          unfold len. rewrite length_firstn.
          assert (Hl : Z.of_nat (List.length (byte_chest l ++ p)) = (len done + 1) * dps)
            by exact Hidx2.
          unfold target in *. lia. }
        assert (Hidx3 : byte_chest_index l3 = (len done + 1) * dps) by exact Hidx2.
        rewrite Hraw3, Hidx3.
        unfold save_position, bind, read_cursor. cbn [cur s1].
        change (is_same_dps (set_prev_data_byte_counter (Some c) (cur s)))
          with (is_same_dps (cur s)).
        assert (Hl3 : l_last_index l3 = 0) by exact Hli. rewrite Hl3.
        destruct (get (is_same_dps (cur s)) false) eqn:Esame; cbn.
        - eexists. split; [reflexivity |]. split; [| reflexivity].
          unfold position_after. cbn.
          repeat split; try (unfold target, cmplt in *; lia);
            try (intros Hc; congruence).
          destruct done as [| d done']; [left; reflexivity |].
          right. specialize (Hnot ltac:(discriminate)). lia.
        - eexists. split; [reflexivity |]. split.
          + unfold position_after. cbn.
            repeat split; try (unfold target, cmplt in *; lia);
              try (intros _; f_equal; unfold cmplt; lia).
            destruct done as [| d done']; [left; reflexivity |].
            right. specialize (Hnot ltac:(discriminate)). lia.
          + cbn. destruct (is_same_dps (cur s)) as [[|] |]; try reflexivity;
              discriminate. }
      destruct Hsave as (s2 & Hsave & Hpos & Hsame).
      unfold bind at 1. rewrite Hsave. cbn [ret].
      exists l3, s2. split; [reflexivity |]. split; [| split; [exact Hprev |]].
      * cbn. rewrite slice_to_firstn by (unfold target; lia).
        change (byte_chest l ++ p) with (byte_chest l2). rewrite Hchest2.
        assert (HA : List.concat (map snd packets)
                     = List.concat (map snd (done ++ [(cb, p)]))
                       ++ List.concat (map snd rest)).
        { rewrite Hsplit. change ((cb, p) :: rest) with ([(cb, p)] ++ rest).
          now rewrite app_assoc, map_app, concat_app. }
        rewrite HA, firstn_app.
        replace (Z.to_nat target
                 - List.length (List.concat (map snd (done ++ [(cb, p)]))))%nat
          with 0%nat.
        { cbn [firstn]. now rewrite app_nil_r. }
        rewrite <- Hchest2. unfold byte_chest_index in Hidx2.
        unfold len in Hidx2 at 1. unfold target in *. lia.
      * exists (len done + 1). split; [exact Hpos | exact Hsame].
    + apply Z.leb_gt in Ereached.
      destruct (IH (done ++ [(cb, p)]) (c + dps) l2 s1)
        as (l' & s' & Hrun & Hraw & Hp' & n & Hpos & Hsame).
      * rewrite Hsplit. now rewrite <- app_assoc.
      * exact Hli.
      * exact Hchest2.
      * exact Hroom.
      * exact Hflag.
      * exact Hskip.
      * exact Hprev.
      * exact Hcount.
      * cbn. lia.
      * intros E. destruct done; discriminate E.
      * intros _. rewrite len_app. change (len [(cb, p)]) with 1. exact Ereached.
      * rewrite length_app in Hrun. cbn [List.length] in Hrun.
        replace (List.length done + 1)%nat with (S (List.length done)) in Hrun by lia.
        exists l', s'. split; [exact Hrun |]. split; [exact Hraw |]. split; [exact Hp' |].
        exists n. split; [| exact Hsame].
        destruct Hpos as (H1 & H2 & H3 & H4 & H5 & H6).
        repeat split; try assumption; try lia.
Qed.
End FirstExtraction.

(** X5.  The first extraction of a stream without embedded timestamps.
    The file is made of whole packets whose counters follow each other, and
    the cursor records no position and no counter.  Whatever the byte at
    which the window starts, the Packet Stream Reader returns the first
    [read_end - read_start] payload bytes of the file, counters removed, and
    no first timestamp.  It reads [n] packets, the least number that holds
    the target, and records the bytes left over in [missing_bytes], the
    bytes returned in [saved_bytes], and [last_index] before the bytes
    left over. *)
Theorem first_extraction_returns_payload_prefix
        (dps : Z) (packets : list (list Z * list Z)) (tail : list Z)
        (frame_data_size first_byte read_start read_end : Z)
        (last_timestamp odr_ : float) (s_samples_per_ts : Z)
        (start_time end_time : float) (first_counter : Z) (s : state) :
  0 < dps ->
  Forall (whole_packet dps) packets ->
  packets <> [] ->
  counted first_counter dps packets ->
  0 <= read_end - read_start <= len packets * dps ->
  get (last_index (cur s)) 0 = 0 ->
  prev_data_byte_counter (cur s) = None ->
  let target := read_end - read_start in
  let cmplt_pkt_size := dps + data_protocol_size in
  exists s',
    extract_data (List.concat (map packet_bytes packets) ++ tail) (len packets)
                 cmplt_pkt_size dps frame_data_size 0 first_byte read_start read_end
                 last_timestamp odr_ s_samples_per_ts start_time end_time 0 s
    = (Ok (Bytes (firstn (Z.to_nat target) (List.concat (map snd packets))), None), s')
    /\ exists n,
         1 <= n <= len packets /\ target <= n * dps /\ (n = 1 \/ (n - 1) * dps < target) /\
         missing_bytes (cur s') = Some (n * dps - target) /\
         saved_bytes (cur s') = Some target /\
         (get (is_same_dps (cur s)) false = false ->
          last_index (cur s') = Some (n * cmplt_pkt_size - (n * dps - target))).
Proof.
  intros Hdps Hwhole Hne Hcount [Hlo Hhi] Hfresh Hcounter target cmplt_pkt_size.
  pose proof (len_nonneg packets) as Hn.
  assert (Hest : estimated_size (len packets) cmplt_pkt_size = (len packets + 1) * dps).
  { unfold estimated_size, cmplt_pkt_size. f_equal. lia. }
  assert (Hrange : range (len packets + 1)
                   = map Z.of_nat (seq (List.length (@nil (list Z * list Z)))
                                       (List.length packets + 1))).
  { unfold range. f_equal. cbn [List.length]. f_equal. unfold len. lia. }
  assert (Hloop : forall mb,
             exists l' s',
               packets_for (List.concat (map packet_bytes packets) ++ tail) (len packets)
                           cmplt_pkt_size dps frame_data_size 0 read_start read_end
                           last_timestamp odr_ s_samples_per_ts start_time
                           (get (saved_bytes (cur s)) 0) (range (len packets + 1))
                           (mk_locals 0 mb [] ((len packets + 1) * dps)
                                      [] end_time false false None) s
               = (Ok (Some l'), s')
               /\ raw_data_array l'
                  = firstn (Z.to_nat target) (List.concat (map snd packets))
               /\ l_prev_timestamp l' = None
               /\ exists n, position_after dps packets read_start read_end n s s').
  { intros mb. rewrite Hrange.
    destruct (packets_for_first dps packets tail frame_data_size read_start read_end
                last_timestamp odr_ s_samples_per_ts start_time
                (get (saved_bytes (cur s)) 0) Hdps Hwhole Hlo Hhi packets [] first_counter
                (mk_locals 0 mb [] ((len packets + 1) * dps)
                           [] end_time false false None) s)
      as (l' & s' & Hrun & Hraw & Hprev & n & Hpos & _);
      try reflexivity; try assumption.
    - now rewrite Hcounter.
    - intros _. exact Hne.
    - intros E. now contradiction E.
    - exists l', s'. repeat split; try assumption. now exists n. }
  unfold extract_data. rewrite Hest.
  destruct ((len packets + 1) * dps <? 0) eqn:Eneg; [apply Z.ltb_lt in Eneg; nia |].
  unfold bind at 1. cbn [ret]. unfold bind at 1, read_cursor at 1.
  rewrite Hfresh. cbn [Z.eqb andb].
  assert (Hstart :
            exists mb,
              (if negb (first_byte =? 0)
               then
                 nof_counters <- lift (ceildiv (0 * (frame_data_size + 0)) dps) ;;
                 blocks <- lift (ceildiv (nof_counters * data_protocol_size
                                          + 0 * (frame_data_size + 0)) cmplt_pkt_size) ;;
                 ret (nof_counters * data_protocol_size + 0 * (frame_data_size + 0),
                      blocks * cmplt_pkt_size
                      - (nof_counters * data_protocol_size + 0 * (frame_data_size + 0)))
               else ret (0, get (missing_bytes (cur s)) 0)) s
              = (Ok (0, mb), s)).
  { destruct (negb (first_byte =? 0)); [| eexists; reflexivity].
    unfold ceildiv, bind, lift, ret. cbn [Z.mul].
    destruct (dps =? 0) eqn:E0; [apply Z.eqb_eq in E0; lia |].
    cbn [Z.opp Z.div Z.div_eucl Z.mul Z.add fst].
    destruct (cmplt_pkt_size =? 0) eqn:E1;
      [apply Z.eqb_eq in E1; unfold cmplt_pkt_size, data_protocol_size in E1; lia |].
    eexists. reflexivity. }
  destruct Hstart as (mb & Hstart).
  unfold bind at 1. rewrite Hstart.
  destruct (Hloop mb) as (l' & s' & Hrun & Hraw & Hprev & n & Hpos).
  unfold bind at 1. rewrite Hrun. cbn [ret].
  exists s'. split; [now rewrite Hraw, Hprev |].
  exists n. exact Hpos.
Qed.

Lemma first_extraction_returns_payload_prefix_witness :
  exists s',
    extract_data [0; 0; 0; 0; 10; 20; 30; 40;  4; 0; 0; 0; 50; 60; 70; 80] 2 8 4 1 0 0 0 6
                 8 1 0 0 6 0 (start_state fresh_cursor)
    = (Ok (Bytes [10; 20; 30; 40; 50; 60], None), s').
Proof.
  destruct (first_extraction_returns_payload_prefix 4
              [([0; 0; 0; 0], [10; 20; 30; 40]); ([4; 0; 0; 0], [50; 60; 70; 80])] []
              1 0 0 6 8 1 0 0 6 0 (start_state fresh_cursor))
    as (s' & Hrun & _).
  - lia.
  - repeat constructor.
  - discriminate.
  - cbn. repeat split; reflexivity.
  - cbn. lia.
  - reflexivity.
  - reflexivity.
  - exists s'. exact Hrun.
Defined.

(** ** The file without counters (lines 1270-1284) *)

Lemma checked_loop_packets (dps : Z) (tail : list Z) (rest : list (list Z * list Z)) :
  0 < dps ->
  forall (done : list (list Z * list Z)) (written : list Z),
    Forall (whole_packet dps) (done ++ rest) ->
    checked_loop (List.concat (map packet_bytes (done ++ rest)) ++ tail)
                 (dps + data_protocol_size)
                 (map Z.of_nat (seq (List.length done) (List.length rest))) written
    = Ok (written ++ List.concat (map snd rest)).
Proof.
  intros Hdps. induction rest as [| [cb p] rest IH]; intros done written Hall.
  - cbn. now rewrite app_nil_r.
  - cbn [List.length seq map checked_loop].
    assert (Hdone : Forall (whole_packet dps) done) by now apply Forall_app in Hall.
    assert (Hpacket : whole_packet dps (cb, p)).
    { apply Forall_app in Hall as [_ Hr]. now inversion Hr. }
    destruct Hpacket as [Hcb Hp]. cbn [fst snd] in Hcb, Hp.
    assert (Hread : seek_read (List.concat (map packet_bytes (done ++ (cb, p) :: rest)) ++ tail)
                              (Z.of_nat (List.length done) * (dps + data_protocol_size))
                              (dps + data_protocol_size)
                    = Ok (cb ++ p)).
    { pose proof (seek_read_packet (List.concat (map packet_bytes done)) (cb ++ p)
                    (List.concat (map packet_bytes rest) ++ tail)
                    (Z.of_nat (List.length done) * (dps + data_protocol_size))) as H.
      rewrite len_app, Hcb, Hp in H.
      replace (data_protocol_size + dps) with (dps + data_protocol_size) in H by lia.
      rewrite <- H.
      - f_equal. rewrite map_app, concat_app. cbn [map List.concat].
        unfold packet_bytes at 2. cbn [fst snd]. now rewrite <- !app_assoc.
      - now rewrite (len_concat_packets dps). }
    rewrite Hread. cbn [rbind].
    destruct (slice_counter cb p Hcb) as [_ Hfrom]. unfold data_protocol_size in Hfrom.
    rewrite Hfrom.
    destruct p as [| b p'] eqn:Ep; [unfold len in Hp; cbn in Hp; lia |].
    rewrite <- Ep in *.
    specialize (IH (done ++ [(cb, p)]) (written ++ p)).
    rewrite length_app in IH. cbn [List.length] in IH.
    replace (List.length done + 1)%nat with (S (List.length done)) in IH by lia.
    rewrite <- app_assoc in IH. cbn [app] in IH.
    rewrite IH by exact Hall.
    cbn [map List.concat snd]. now rewrite app_assoc.
Qed.

(** X6.  On a file made of whole packets and the beginning of one more,
    with a payload size that is positive, the file without counters holds
    the payloads of the whole packets, in order; the bytes of the last,
    incomplete packet are left out. *)
Theorem checked_file_holds_whole_payloads
        (dps : Z) (packets : list (list Z * list Z)) (tail : list Z) :
  0 < dps ->
  Forall (whole_packet dps) packets ->
  len tail < dps + data_protocol_size ->
  write_checked_file (List.concat (map packet_bytes packets) ++ tail) dps
  = Ok (List.concat (map snd packets)).
Proof.
  intros Hdps Hall Htail. unfold write_checked_file, floordiv.
  pose proof (len_nonneg tail) as Ht. pose proof (len_nonneg packets) as Hn.
  destruct (dps + data_protocol_size =? 0) eqn:E0;
    [apply Z.eqb_eq in E0; unfold data_protocol_size in E0; lia |].
  cbn [rbind].
  rewrite len_app, (len_concat_packets dps) by exact Hall.
  rewrite Z.div_add_l by (unfold data_protocol_size; lia).
  rewrite (Z.div_small (len tail)) by lia. rewrite Z.add_0_r.
  unfold range. unfold len at 1. rewrite Nat2Z.id.
  exact (checked_loop_packets dps tail packets Hdps [] [] Hall).
Qed.

Lemma checked_file_holds_whole_payloads_witness :
  0 < 2 /\ Forall (whole_packet 2) [([0; 0; 0; 0], [10; 20]); ([2; 0; 0; 0], [30; 40])]
  /\ len [4; 0; 0; 0; 50] < 2 + data_protocol_size
  /\ write_checked_file [0; 0; 0; 0; 10; 20;  2; 0; 0; 0; 30; 40;  4; 0; 0; 0; 50] 2
     = Ok [10; 20; 30; 40].
Proof.
  assert (H : Forall (whole_packet 2)
                     [([0; 0; 0; 0], [10; 20]); ([2; 0; 0; 0], [30; 40])])
    by (repeat constructor).
  split; [lia |]. split; [exact H |]. split; [reflexivity |].
  exact (checked_file_holds_whole_payloads 2
           [([0; 0; 0; 0], [10; 20]); ([2; 0; 0; 0], [30; 40])] [4; 0; 0; 0; 50]
           ltac:(lia) H eq_refl).
Defined.

(** X7.  With a payload size of 0 the packets hold their counter alone:
    as soon as the file holds one packet, [NoDataAtIndexError] is raised
    at the first one. *)
Theorem checked_file_of_empty_payloads (file : list Z) :
  data_protocol_size <= len file ->
  write_checked_file file 0 = Raise NoDataAtIndexError.
Proof.
  unfold data_protocol_size. intros Hlen.
  unfold write_checked_file, floordiv, data_protocol_size.
  cbn [Z.add Z.eqb rbind].
  assert (Hn : 1 <= len file / 4) by (apply Z.div_le_lower_bound; lia).
  unfold range.
  destruct (Z.to_nat (len file / 4)) as [| n] eqn:En; [lia |].
  cbn [seq map checked_loop]. cbn [Z.of_nat Z.mul].
  unfold seek_read. cbn [Z.ltb Z.eqb Z.compare Z.to_nat skipn rbind].
  rewrite slice_from_skipn by lia.
  rewrite skipn_all2; [reflexivity |].
  rewrite length_firstn. lia.
Qed.

Lemma checked_file_of_empty_payloads_witness :
  data_protocol_size <= len [0; 0; 0; 0; 0; 0; 0; 0]
  /\ write_checked_file [0; 0; 0; 0; 0; 0; 0; 0] 0 = Raise NoDataAtIndexError.
Proof.
  split; [unfold data_protocol_size, len; cbn; lia |].
  apply checked_file_of_empty_payloads. unfold data_protocol_size, len. cbn. lia.
Defined.

(** ** The components of the device model *)

(** X8.  [get_component] returns the first component of the device model
    whose name is the one asked for: the components before it are
    dictionaries with another first key. *)
Theorem get_component_finds_first
        (components : list component) (component_name : string) (c : component) :
  get_component (Some components) component_name = Returns c <->
  exists before after status items,
    components = before ++ c :: after /\
    c = (component_name, status) :: items /\
    Forall (fun b => exists k v rest, b = (k, v) :: rest /\ k <> component_name) before.
Proof.
  cbn [get_component]. split.
  - induction components as [| d components IH]; cbn [find_component]; [discriminate |].
    destruct d as [| [k v] items]; cbn [first_key]; [discriminate |].
    destruct (String.eqb k component_name) eqn:E.
    + intros H. injection H as <-. apply String.eqb_eq in E. subst k.
      exists [], components, v, items. repeat split. constructor.
    + intros H. destruct (IH H) as (before & after & status & items' & -> & -> & Hall).
      exists (((k, v) :: items) :: before), after, status, items'.
      repeat split. constructor; [| exact Hall].
      exists k, v, items. split; [reflexivity |]. now apply String.eqb_neq.
  - intros (before & after & status & items & -> & -> & Hall).
    induction Hall as [| b before (k & v & rest & -> & Hk) _ IH]; cbn [app find_component first_key].
    + now rewrite String.eqb_refl.
    + apply String.eqb_neq in Hk. rewrite Hk. exact IH.
Qed.

(** What [get_sensor_list] and [get_algorithm_list] keep of a component. *)
Definition kept (lower : string -> string) (kind : component_type) (type_filter : string)
           (only_active : bool) (c : component) : bool :=
  match c with
  | (name, status) :: _ =>
      has_c_type kind status
      && (if only_active then is_enabled status else true)
      && (if String.eqb type_filter EmptyString then true
          else String.eqb (last_field (lower name)) (lower type_filter))
  | [] => false
  end.

Definition is_empty_dict (c : component) : bool :=
  match c with
  | [] => true
  | _ => false
  end.

Lemma typed_components_spec lower kind type_filter only_active (components : list component) :
  forall active,
    typed_components lower kind type_filter only_active components active
    = if existsb is_empty_dict components then Raises (Engine IndexError)
      else Returns (active ++ filter (kept lower kind type_filter only_active) components).
Proof.
  induction components as [| c components IH]; intros active.
  - cbn. now rewrite app_nil_r.
  - destruct c as [| [name status] items]; [reflexivity |].
    cbn [typed_components first_key first_value existsb is_empty_dict orb filter kept].
    rewrite IH. destruct (existsb is_empty_dict components); [reflexivity |].
    f_equal.
    destruct (has_c_type kind status), (String.eqb type_filter EmptyString), only_active,
      (is_enabled status), (String.eqb (last_field (lower name)) (lower type_filter));
      cbn [andb]; rewrite <- ?app_assoc; reflexivity.
Qed.

(** X9.  [get_sensor_list] returns, in the order of the device model,
    the components whose ["c_type"] is Sensor, that are enabled when only
    the active ones are asked for, and whose name ends, after its last
    underscore and in lower case, with the type asked for, if one is;
    [get_algorithm_list] does the same for the Algorithms.  A component
    that is an empty dictionary makes both raise [IndexError]. *)
Theorem sensor_and_algorithm_lists
        (lower : string -> string) (components : list component) (type_filter : string)
        (only_active : bool) :
  get_sensor_list lower components type_filter only_active
  = (if existsb is_empty_dict components then Raises (Engine IndexError)
     else Returns (filter (kept lower SENSOR type_filter only_active) components))
  /\ get_algorithm_list lower components type_filter only_active
     = (if existsb is_empty_dict components then Raises (Engine IndexError)
        else Returns (filter (kept lower ALGORITHM type_filter only_active) components)).
Proof.
  unfold get_sensor_list, get_algorithm_list. now rewrite !typed_components_spec.
Qed.

Lemma actuator_components_spec only_active (components : list component) :
  forall active,
    actuator_components only_active components active
    = if existsb is_empty_dict components then Raises (Engine IndexError)
      else Returns (active ++ filter (kept (fun s => s) ACTUATOR EmptyString only_active)
                                     components).
Proof.
  induction components as [| c components IH]; intros active.
  - cbn. now rewrite app_nil_r.
  - destruct c as [| [name status] items]; [reflexivity |].
    cbn [actuator_components first_value existsb is_empty_dict orb filter kept].
    rewrite IH. destruct (existsb is_empty_dict components); [reflexivity |].
    f_equal. cbn [String.eqb].
    destruct (has_c_type ACTUATOR status), only_active, (is_enabled status);
      cbn [andb]; rewrite <- ?app_assoc; reflexivity.
Qed.

(** X10.  Every component that [get_actuator_list] returns is an Actuator
    of the device model, enabled when only the active ones are asked for,
    and every such component is returned; the list that asks for the active
    ones is included in the other. *)
Theorem actuator_list_members (components active all : list component) :
  get_actuator_list components true = Returns active ->
  get_actuator_list components false = Returns all ->
  (forall c, In c all <->
             In c components /\
             exists name status items,
               c = (name, status) :: items /\ status_c_type status = Some ACTUATOR)
  /\ (forall c, In c active <->
                In c all /\
                exists name status items,
                  c = (name, status) :: items /\ status_enable status = Some true).
Proof.
  unfold get_actuator_list. rewrite !actuator_components_spec.
  destruct (existsb is_empty_dict components); [discriminate |].
  cbn [app]. intros Hactive Hall. injection Hactive as <-. injection Hall as <-.
  assert (Hkind : forall status, has_c_type ACTUATOR status = true
                                 <-> status_c_type status = Some ACTUATOR).
  { intros [[[| |] |] e]; cbn; split; congruence. }
  assert (Hon : forall status, is_enabled status = true <-> status_enable status = Some true).
  { intros [t [[|] |]]; cbn; split; congruence. }
  split; intros c; rewrite !filter_In; unfold kept; cbn [String.eqb].
  - split.
    + intros [Hin Hk]. split; [exact Hin |].
      destruct c as [| [name status] items]; [discriminate |].
      exists name, status, items. split; [reflexivity |].
      apply Hkind. now destruct (has_c_type ACTUATOR status).
    + intros [Hin (name & status & items & -> & Hc)]. split; [exact Hin |].
      apply Hkind in Hc. now rewrite Hc.
  - split.
    + intros [Hin Hk]. destruct c as [| [name status] items]; [discriminate |].
      apply andb_prop in Hk as [Hk _]. apply andb_prop in Hk as [Hc He].
      split; [split; [exact Hin | now rewrite Hc] |].
      exists name, status, items. split; [reflexivity | now apply Hon].
    + intros [[Hin Hk] (name & status & items & -> & He)]. split; [exact Hin |].
      apply Hon in He. rewrite He.
      apply andb_prop in Hk as [Hk _]. apply andb_prop in Hk as [Hc _]. now rewrite Hc.
Qed.

Lemma actuator_list_members_witness :
  let motor := [("motor", mk_component_status (Some ACTUATOR) (Some true))] in
  let valve := [("valve", mk_component_status (Some ACTUATOR) (Some false))] in
  let acc := [("acc", mk_component_status (Some SENSOR) (Some true))] in
  get_actuator_list [motor; acc; valve] true = Returns [motor]
  /\ get_actuator_list [motor; acc; valve] false = Returns [motor; valve]
  /\ (In valve [motor; valve] <->
      In valve [motor; acc; valve] /\
      exists name status items,
        valve = (name, status) :: items /\ status_c_type status = Some ACTUATOR).
Proof.
  cbv zeta. split; [reflexivity |]. split; [reflexivity |].
  exact (proj1 (actuator_list_members
                  [[("motor", mk_component_status (Some ACTUATOR) (Some true))];
                   [("acc", mk_component_status (Some SENSOR) (Some true))];
                   [("valve", mk_component_status (Some ACTUATOR) (Some false))]]
                  _ _ eq_refl eq_refl) _).
Defined.

(** ** The labels and the tags of the acquisition *)

Definition before (a b : string) : Prop := String.ltb a b = true.

Lemma not_before_after (x y : string) :
  String.eqb x y = false -> String.ltb x y = false -> before y x.
Proof.
  unfold before, String.ltb. intros Hne Hlt.
  rewrite String.compare_antisym.
  destruct (String.compare x y) eqn:E; cbn.
  - apply String.compare_eq_iff in E. apply String.eqb_neq in Hne. contradiction.
  - discriminate.
  - reflexivity.
Qed.

Lemma insert_label_In (x : string) (l : list string) :
  forall y, In y (insert_label x l) <-> y = x \/ In y l.
Proof.
  induction l as [| z l IH]; intros y; cbn [insert_label].
  - cbn. intuition.
  - destruct (String.eqb x z) eqn:E.
    + apply String.eqb_eq in E. subst z. cbn. intuition.
    + destruct (String.ltb x z); cbn; [intuition |]. rewrite IH. intuition.
Qed.

Lemma insert_label_Sorted (x : string) (l : list string) :
  Sorted.Sorted before l -> Sorted.Sorted before (insert_label x l).
Proof.
  induction l as [| z l IH]; intros Hs; cbn [insert_label].
  - repeat constructor.
  - destruct (String.eqb x z) eqn:E; [exact Hs |].
    destruct (String.ltb x z) eqn:L.
    + constructor; [exact Hs |]. constructor. exact L.
    + inversion Hs as [| ? ? Hl Hhd]; subst. constructor; [now apply IH |].
      destruct l as [| w l]; cbn [insert_label].
      * constructor. now apply not_before_after.
      * destruct (String.eqb x w); [exact Hhd |].
        destruct (String.ltb x w).
        -- constructor. now apply not_before_after.
        -- inversion Hhd; subst. now constructor.
Qed.

(** X11.  When the acquisition information has tags,
    [get_acquisition_label_classes] returns their labels in strictly
    increasing order, each label once: a label is in the result exactly
    when a tag carries it. *)
Theorem label_classes_sorted_distinct (start_time end_time : string) (tags : list tag) :
  exists classes,
    get_acquisition_label_classes
      (Some (mk_acquisition_info start_time end_time (Some tags))) = Some classes
    /\ Sorted.Sorted (fun a b => String.ltb a b = true) classes
    /\ forall label, In label classes <-> exists t, In t tags /\ tag_l t = label.
Proof.
  exists (sorted_set (map tag_l tags)). split; [reflexivity |].
  unfold sorted_set. split.
  - induction tags as [| t tags IH]; cbn [map fold_right]; [constructor |].
    now apply insert_label_Sorted.
  - induction tags as [| t tags IH]; intros label; cbn [map fold_right].
    + split; [intros [] | intros (t & [] & _)].
    + rewrite insert_label_In, IH. split.
      * intros [-> | (u & Hu & Hl)]; [exists t; cbn; auto | exists u; cbn; auto].
      * intros (u & [-> | Hu] & Hl); [left; now symmetry | right; now exists u].
Qed.

Section TagGroups.
Variable get_seconds_from_ISO8601 : string -> string -> float.

Definition intervals (tags : list (string * list (float * float))) : nat :=
  List.length (List.concat (map snd tags)).

Lemma add_times_labels tag_label times tags :
  map fst (add_times tag_label times tags) = map fst tags.
Proof.
  induction tags as [| [label ts] tags IH]; [reflexivity |].
  cbn [add_times map]. rewrite IH. now destruct (String.eqb label tag_label).
Qed.

Lemma add_times_absent tag_label times tags :
  ~ In tag_label (map fst tags) -> add_times tag_label times tags = tags.
Proof.
  induction tags as [| [label ts] tags IH]; intros Hnot; [reflexivity |].
  cbn [add_times]. cbn [map fst In] in Hnot.
  destruct (String.eqb label tag_label) eqn:E.
  - apply String.eqb_eq in E. tauto.
  - rewrite IH by tauto. reflexivity.
Qed.

Lemma add_times_intervals tag_label times tags :
  NoDup (map fst tags) -> In tag_label (map fst tags) ->
  intervals (add_times tag_label times tags) = S (intervals tags).
Proof.
  unfold intervals.
  induction tags as [| [label ts] tags IH]; intros Hnd Hin; [destruct Hin |].
  cbn [map fst] in Hnd. inversion Hnd as [| ? ? Hnot Hnd']; subst.
  cbn [add_times]. destruct (String.eqb label tag_label) eqn:E.
  - apply String.eqb_eq in E. subst label.
    rewrite add_times_absent by exact Hnot.
    cbn [map snd List.concat]. rewrite !length_app. cbn [List.length]. lia.
  - apply String.eqb_neq in E. destruct Hin as [Hin | Hin]; [cbn in Hin; contradiction |].
    cbn [map snd List.concat]. rewrite !length_app. rewrite IH by assumption. lia.
Qed.

Lemma existsb_label (tag_label : string) (labels : list string) :
  existsb (String.eqb tag_label) labels = true <-> In tag_label labels.
Proof.
  rewrite existsb_exists. split.
  - intros (x & Hx & E). apply String.eqb_eq in E. now subst.
  - intros H. exists tag_label. split; [exact H | apply String.eqb_refl].
Qed.

Lemma tags_loop_spec acq_start_time acq_duration (tags_array : list tag) :
  forall tag_labels tags,
    tag_labels = map fst tags -> NoDup tag_labels ->
    let result := tags_loop get_seconds_from_ISO8601 acq_start_time acq_duration
                            tags_array tag_labels tags in
    NoDup (map fst result)
    /\ (forall label, In label (map fst result) <->
                      In label tag_labels \/
                      exists t, In t tags_array /\ tag_e t = true /\ tag_l t = label)
    /\ intervals result = (intervals tags + List.length (filter tag_e tags_array))%nat.
Proof.
  induction tags_array as [| t tags_array IH]; intros tag_labels tags Hlabels Hnd; cbv zeta.
  - cbn [tags_loop filter List.length]. rewrite <- Hlabels. split; [exact Hnd |]. split.
    + intros label. split; [auto | intros [H | (t & [] & _)]; exact H].
    + lia.
  - cbn [tags_loop filter]. destruct (tag_e t) eqn:Et.
    + destruct (existsb (String.eqb (tag_l t)) tag_labels) eqn:Eknown.
      * apply existsb_label in Eknown.
        match goal with
        | |- context [add_times ?l ?ts tags] =>
            specialize (IH tag_labels (add_times l ts tags));
            pose proof (add_times_intervals l ts tags) as Hcount
        end.
        rewrite add_times_labels in IH. specialize (IH Hlabels Hnd). cbv zeta in IH.
        destruct IH as (H1 & H2 & H3). split; [exact H1 |]. split.
        -- intros label. rewrite H2. split.
           ++ intros [H | (u & Hu & He & Hl)]; [now left | right].
              exists u. cbn. auto.
           ++ intros [H | (u & [-> | Hu] & He & Hl)]; [now left | | right; now exists u].
              left. now subst label.
        -- rewrite H3, Hcount; [cbn [List.length]; lia | now rewrite <- Hlabels |
                                now rewrite <- Hlabels].
      * assert (Hnew : ~ In (tag_l t) tag_labels).
        { intros H. apply existsb_label in H. congruence. }
        match goal with
        | |- context [tags ++ [?entry]] =>
            specialize (IH (tag_labels ++ [tag_l t]) (tags ++ [entry]))
        end.
        rewrite map_app in IH. cbn [map fst] in IH. rewrite <- Hlabels in IH.
        specialize (IH eq_refl).
        assert (Hnd' : NoDup (tag_labels ++ [tag_l t])).
        { apply NoDup_app; [exact Hnd | repeat constructor; intros [] |].
          intros x Hx [<- | []]. contradiction. }
        specialize (IH Hnd'). cbv zeta in IH.
        destruct IH as (H1 & H2 & H3). split; [exact H1 |]. split.
        -- intros label. rewrite H2, in_app_iff. cbn [In]. split.
           ++ intros [[H | [<- | []]] | (u & Hu & He & Hl)]; [now left | right | right].
              ** exists t. cbn. auto.
              ** exists u. cbn. auto.
           ++ intros [H | (u & [-> | Hu] & He & Hl)]; [left; now left | | right; now exists u].
              left. right. left. exact Hl.
        -- rewrite H3. unfold intervals. rewrite map_app, concat_app, length_app.
           cbn. lia.
    + specialize (IH tag_labels tags Hlabels Hnd). cbv zeta in IH.
      destruct IH as (H1 & H2 & H3). split; [exact H1 |]. split; [| exact H3].
      intros label. rewrite H2. split.
      * intros [H | (u & Hu & He & Hl)]; [now left | right]. exists u. cbn. auto.
      * intros [H | (u & [-> | Hu] & He & Hl)]; [now left | congruence | right; now exists u].
Qed.
End TagGroups.

(** X12.  [get_tags] returns one entry for each label that an opening tag
    carries, each label once, and one time interval for each opening tag of
    the acquisition information. *)
Theorem get_tags_groups_by_label
        (get_seconds_from_ISO8601 : string -> string -> float)
        (start_time end_time : string) (tags_array : list tag) :
  exists tags,
    get_tags get_seconds_from_ISO8601
             (mk_acquisition_info start_time end_time (Some tags_array)) = Returns tags
    /\ NoDup (map fst tags)
    /\ (forall label, In label (map fst tags) <->
                      exists t, In t tags_array /\ tag_e t = true /\ tag_l t = label)
    /\ List.length (List.concat (map snd tags)) = List.length (filter tag_e tags_array).
Proof.
  eexists. split; [reflexivity |].
  destruct (tags_loop_spec get_seconds_from_ISO8601 start_time
              (get_seconds_from_ISO8601 start_time end_time) tags_array [] []
              eq_refl (NoDup_nil _)) as (H1 & H2 & H3).
  split; [exact H1 |]. split; [| exact H3].
  intros label. rewrite H2. cbn [In]. tauto.
Qed.

(** ** A buffer shorter than a frame *)

Lemma ret_Ok {A} (a b : A) (s s' : state) : ret a s = (Ok b, s') -> b = a /\ s' = s.
Proof. unfold ret. intros H. inversion H. auto. Qed.

Lemma read_cursor_Ok (c : cursor) (s s' : state) :
  read_cursor s = (Ok c, s') -> c = cur s /\ s' = s.
Proof. unfold read_cursor. intros H. inversion H. auto. Qed.

(** X13.  A buffer that holds less than one frame decodes to nothing:
    when [__process_datalog] returns, it returns the empty lists, and it
    leaves the component status, [ioffset] included, as it was. *)
Theorem short_buffer_decodes_to_nothing
        (check_type_length : string -> Z) (get_np_dtype : string -> np_dtype)
        (int24_buffer_to_int32_buffer : list Z -> list Z) (checkTimestamps : bool)
        (sensor_name : string) (ss_stat : descriptor) (raw_data : buffer)
        (dataframe_size timestamp_size : Z) (raw_flag : bool)
        (start_time prev_timestamp : option float) (s s' : state)
        (r : samples * list float) :
  0 < dataframe_size + timestamp_size ->
  len (buffer_bytes raw_data) < dataframe_size + timestamp_size ->
  int24_buffer_to_int32_buffer [] = [] ->
  process_datalog check_type_length get_np_dtype int24_buffer_to_int32_buffer
                  checkTimestamps sensor_name ss_stat raw_data dataframe_size
                  timestamp_size raw_flag start_time prev_timestamp s = (Ok r, s') ->
  r = (EmptyList, []) /\ s' = s.
Proof.
  intros Hframe Hshort Hwiden H. unfold process_datalog in H.
  pose proof (len_nonneg (buffer_bytes raw_data)) as Hlen.
  apply bind_Ok in H as (num_frames & s1 & Hn & H).
  apply lift_Ok in Hn as [Hn ->].
  unfold floordiv in Hn.
  destruct (dataframe_size + timestamp_size =? 0) eqn:E0; [discriminate |].
  injection Hn as Hn. rewrite Z.div_small in Hn by lia. subst num_frames.
  apply bind_Ok in H as (data1D & s2 & Hd & H). apply lift_Ok in Hd as [_ ->].
  apply bind_Ok in H as (spts & s3 & Hs & H). apply lift_Ok in Hs as [_ ->].
  apply bind_Ok in H as (fp & s4 & Hf & H). apply lift_Ok in Hf as [_ ->].
  apply bind_Ok in H as (cs & s5 & Hc & H). apply read_cursor_Ok in Hc as [_ ->].
  apply bind_Ok in H as (u & s6 & Hu & H).
  rewrite Z.mul_0_r in Hu. cbn [Z.ltb Z.compare] in Hu. apply ret_Ok in Hu as [_ ->].
  apply bind_Ok in H as ([[timestamps data] start_time'] & s7 & Hdata & H).
  assert (Hempty : data = [] /\ s7 = s).
  { destruct (negb (timestamp_size =? 0)).
    - apply bind_Ok in Hdata as (fr & s8 & Hfr & Hdata). apply lift_Ok in Hfr as [Hfr ->].
      cbn in Hfr. injection Hfr as <-.
      apply bind_Ok in Hdata as (u2 & s9 & Hw & Hdata). cbn in Hw.
      apply ret_Ok in Hw as [_ ->]. apply ret_Ok in Hdata as [Hdata ->].
      injection Hdata as _ -> _. rewrite Z.mul_0_r. split; reflexivity.
    - rewrite Z.mul_0_r in Hdata.
      assert (Hslice : slice_to (buffer_bytes raw_data) 0 = []).
      { rewrite slice_to_firstn by lia. reflexivity. }
      rewrite Hslice in Hdata.
      assert (Hrnd : (if is_int24 (decode_type_string sensor_name ss_stat)
                      then int24_buffer_to_int32_buffer [] else []) = []).
      { destruct (is_int24 _); [exact Hwiden | reflexivity]. }
      rewrite Hrnd in Hdata.
      apply bind_Ok in Hdata as (u2 & s8 & Hb & Hdata).
      assert (Hs8 : s8 = s).
      { destruct raw_data; [discriminate | now apply ret_Ok in Hb]. }
      subst s8.
      apply bind_Ok in Hdata as (values & s9 & Hv & Hdata). apply lift_Ok in Hv as [Hv ->].
      unfold frombuffer in Hv. change (len (@nil Z)) with 0 in Hv.
      rewrite Zmod_0_l in Hv. cbn in Hv. injection Hv as <-.
      apply bind_Ok in Hdata as (fp' & s10 & Hfp & Hdata). apply lift_Ok in Hfp as [_ ->].
      apply bind_Ok in Hdata as (tf & s11 & Htf & Hdata). apply lift_Ok in Htf as [_ ->].
      apply bind_Ok in Hdata as (ts & s12 & Hts & Hdata). apply lift_Ok in Hts as [_ ->].
      apply ret_Ok in Hdata as [Hdata ->]. injection Hdata as _ -> _.
      split; reflexivity. }
  destruct Hempty as [-> ->].
  apply bind_Ok in H as (s_data & s8 & Hsd & H). apply lift_Ok in Hsd as [_ ->].
  cbn [len List.length Z.of_nat Z.eqb] in H. apply ret_Ok in H as [-> ->].
  split; reflexivity.
Qed.

Lemma short_buffer_decodes_to_nothing_witness :
  process_datalog type_length type_dtype widen_int24 false "acc" (framed_sensor 1 1 18)
                  (Bytes [10; 0; 0; 0]) 1 8 true (Some 0%float) None
                  (start_state fresh_cursor)
  = (Ok (EmptyList, []), start_state fresh_cursor)
  /\ (EmptyList, @nil float) = (EmptyList, []) /\ start_state fresh_cursor = start_state fresh_cursor.
Proof.
  split; [vm_compute; reflexivity |].
  refine (short_buffer_decodes_to_nothing type_length type_dtype widen_int24 false "acc"
            (framed_sensor 1 1 18) (Bytes [10; 0; 0; 0]) 1 8 true (Some 0%float) None
            (start_state fresh_cursor) (start_state fresh_cursor) (EmptyList, [])
            _ _ _ _).
  - lia.
  - unfold len. cbn. lia.
  - reflexivity.
  - vm_compute. reflexivity.
Defined.
